(** * SeismicWaves: P-wave arrival-time pipeline

    A shallow embedding of the notebook code of the repository
    (signal length fixing, wavelet feature extraction, batch feature
    extraction, arrival-time matching, dataset split and file moving,
    loading for inference and timestamp reconstruction) and the
    properties proved about it.

    Amplitudes, labels and timestamps are IEEE binary64 numbers (numpy
    [float64]) and are modelled by Rocq's primitive floats.  Python
    exceptions are modelled by an error monad layered over the mutable
    store, so that what a loop body appended before it raised is still
    there when the handler runs.  What the code takes from outside the
    repository (the numerical libraries, the file system, the random
    generator, the time zone) is an interface here, with the documented
    behaviour the proofs need stated where it is used.

    The first part of the file is the model, the second the proofs. *)

From Stdlib Require Import String Ascii DecimalString DecimalFacts.
From Stdlib Require Import DecimalN DecimalPos.
From Stdlib Require Import List ZArith Lia Bool Arith Floats Permutation.
Import ListNotations.

Set Warnings "-abstract-large-number,-inexact-float".

(* ===================================================================== *)
(** * Part I: the model *)
(* ===================================================================== *)

(* ===================================================================== *)
(** ** Python control flow: exceptions over a mutable store *)
(* ===================================================================== *)

Module Py.

(** The exceptions the modelled code can meet. *)
Inductive exn : Type :=
| ValueError (msg : string)
| RuntimeError (msg : string)
| IndexError (msg : string)
| OSError (msg : string).

(** [str(e)] *)
Definition str (e : exn) : string :=
  match e with
  | ValueError msg | RuntimeError msg | IndexError msg | OSError msg => msg
  end.

Inductive result (A : Type) : Type :=
| Ok (a : A)
| Raise (e : exn).
Arguments Ok {A} a.
Arguments Raise {A} e.

(** A computation reads and updates the store [S]; the store survives a
    raise, as Python objects mutated before an exception do. *)
Definition M (S A : Type) : Type := S -> result A * S.

Definition ret {S A} (a : A) : M S A := fun s => (Ok a, s).

Definition bind {S A B} (m : M S A) (k : A -> M S B) : M S B :=
  fun s => match m s with
           | (Ok a, s') => k a s'
           | (Raise e, s') => (Raise e, s')
           end.

Definition raise {S A} (e : exn) : M S A := fun s => (Raise e, s).

(** [try: body / except Exception as e: handler e] *)
Definition try_except {S A} (body : M S A) (handler : exn -> M S A) : M S A :=
  fun s => match body s with
           | (Ok a, s') => (Ok a, s')
           | (Raise e, s') => handler e s'
           end.

(** A fallible pure value used inside a stateful block. *)
Definition lift {S A} (r : result A) : M S A := fun s => (r, s).

Definition modify {S} (f : S -> S) : M S unit := fun s => (Ok tt, f s).

Definition get {S} : M S S := fun s => (Ok s, s).

(** [for x in xs: body x] *)
Fixpoint for_each {S A} (xs : list A) (body : A -> M S unit) : M S unit :=
  match xs with
  | [] => ret tt
  | x :: xs' => bind (body x) (fun _ => for_each xs' body)
  end.

(** Binding on plain results, for code that has no store. *)
Definition rbind {A B} (r : result A) (k : A -> result B) : result B :=
  match r with
  | Ok a => k a
  | Raise e => Raise e
  end.

End Py.

Import Py.

Declare Scope py_scope.
Delimit Scope py_scope with py.
Notation "x <- m ;; k" := (Py.bind m (fun x => k))
  (at level 61, m at next level, right associativity) : py_scope.
Notation "m ;; k" := (Py.bind m (fun _ => k))
  (at level 61, right associativity) : py_scope.
Notation "x <~ r ;; k" := (Py.rbind r (fun x => k))
  (at level 61, r at next level, right associativity) : py_scope.

(* ===================================================================== *)
(** ** Numbers, strings and paths *)
(* ===================================================================== *)

Open Scope string_scope.
Open Scope list_scope.
Open Scope nat_scope.

(** [float(z)] for an integer below 2^63 in magnitude (exact below 2^53). *)
Definition float_of_Z (z : Z) : float :=
  match z with
  | Zneg _ => PrimFloat.opp (PrimFloat.of_uint63 (Uint63.of_Z (- z)))
  | _ => PrimFloat.of_uint63 (Uint63.of_Z z)
  end.

(** [s.endswith(suffix)] *)
Definition endswith (s suffix : string) : bool :=
  let n := String.length s in
  let m := String.length suffix in
  (m <=? n) && String.eqb (substring (n - m) m s) suffix.

(** [s.startswith(p)] *)
Definition startswith (s p : string) : bool := prefix p s.

(** [s.replace(old, new)] for a non-empty [old]: occurrences are replaced
    from left to right and do not overlap.  [skip] counts the characters of
    the occurrence just replaced that are still to be passed over. *)
Fixpoint replace_from (old new : string) (skip : nat) (s : string) : string :=
  match s with
  | EmptyString => EmptyString
  | String c s' =>
      match skip with
      | S k => replace_from old new k s'
      | O =>
          if prefix old s
          then (new ++ replace_from old new (String.length old - 1) s')%string
          else String c (replace_from old new 0 s')
      end
  end.

Definition replace (s old new : string) : string := replace_from old new 0 s.

(** [s[i:j]] for [0 <= i <= j] *)
Definition slice (s : string) (i j : nat) : string :=
  substring i (j - i) s.

(** [posixpath.join(a, b)] *)
Definition os_path_join (a b : string) : string :=
  if startswith b "/" then b
  else if String.eqb a "" || endswith a "/" then (a ++ b)%string
  else (a ++ "/" ++ b)%string.

(* ===================================================================== *)
(** ** What the code takes from outside the repository *)
(* ===================================================================== *)

(** What the code uses of an obspy [Trace]: the samples [tr.data] and the
    window start as epoch seconds, [tr.stats.starttime.timestamp]. *)
Record Trace : Type := {
  tr_data : list float;
  tr_starttime : float
}.

(** An obspy [Stream] is a list of traces; [st[0]] raises on an empty one. *)
Definition Stream : Type := list Trace.

Definition stream_first (st : Stream) : result Trace :=
  match st with
  | [] => Raise (IndexError "list index out of range")
  | tr :: _ => Ok tr
  end.

(** The file system: [os.listdir(path)], and [obspy.read(path)], the
    stream stored at [path] or the exception the reader raises for a
    missing or unreadable file. *)
Class FileSystem : Type := {
  os_listdir : string -> result (list string);
  obspy_read : string -> result Stream
}.

(** The builtin [int] on a string: [ValueError] on what is not an integer
    literal. *)
Class Builtins : Type := {
  py_int : string -> result Z
}.

(** The numerical routines of numpy and scipy the extractor calls, as the
    value each returns for an array ([np_amax] and [np_amin] on one that
    has elements): their rounding is the libraries' business and no
    statement below depends on it. *)
Class Numerics : Type := {
  np_sum : list float -> float;
  np_mean : list float -> float;
  np_std : list float -> float;
  np_median : list float -> float;
  stats_skew : list float -> float;
  stats_kurtosis : list float -> float;
  np_percentile : list float -> Z -> float;
  np_amax : list float -> float;
  np_amin : list float -> float;
  libm_log : float -> float
}.

(** A PyWavelets wavelet as the decomposition uses it: the length of its
    decomposition filters and the single-level transform of a non-empty
    array in the default [symmetric] mode, which returns the approximation
    and the detail coefficients. *)
Record Wavelet : Type := {
  dec_len : nat;
  dwt_single : list float -> list float * list float
}.

(** The wavelet the name ['db4'] denotes. *)
Class PyWavelets : Type := {
  db4 : Wavelet
}.

(** [np.random.RandomState(seed).permutation(n)] *)
Class RandomState : Type := {
  rng_permutation : Z -> nat -> list nat
}.

(* ===================================================================== *)
(** ** Signal length fixing (inference notebook, [pad_or_trim]) *)
(* ===================================================================== *)

Section PadOrTrim.

(** The element type of the amplitude array and its zero, the constant
    [np.pad(..., mode='constant')] fills with. *)
Context {A : Type} (zero : A).

(** [np.pad(signal, (0, pad_width), mode='constant')] on a 1-D array. *)
Definition np_pad_right (signal : list A) (pad_width : nat) : list A :=
  signal ++ repeat zero pad_width.

(** [def pad_or_trim(signal, target_length=8000)] *)
Definition pad_or_trim_to (target_length : nat) (signal : list A) : list A :=
  if target_length <? length signal then
    firstn target_length signal
  else if length signal <? target_length then
    let pad_width := target_length - length signal in
    np_pad_right signal pad_width
  else signal.

Definition default_target_length : nat := 8000.

Definition pad_or_trim (signal : list A) : list A :=
  pad_or_trim_to default_target_length signal.

End PadOrTrim.

(* ===================================================================== *)
(** ** Wavelet decomposition ([pywt.wavedec]) *)
(* ===================================================================== *)

(** The documented size of the coefficient arrays of [pywt.dwt]:
    [floor((len(data) + dec_len - 1) / 2)] for both outputs; filters have
    at least two taps. *)
Definition dwt_coeff_len (w : Wavelet) (n : nat) : nat :=
  (n + dec_len w - 1) / 2.

Definition wavelet_sized (w : Wavelet) : Prop :=
  2 <= dec_len w
  /\ forall a, a <> [] ->
       length (fst (dwt_single w a)) = dwt_coeff_len w (length a)
       /\ length (snd (dwt_single w a)) = dwt_coeff_len w (length a).

(** The transform is a filter bank: a band of zeros gives bands of zeros. *)
Definition wavelet_zero_preserving (w : Wavelet) : Prop :=
  forall n, 1 <= n ->
    dwt_single w (repeat 0%float n)
    = (repeat 0%float (dwt_coeff_len w n), repeat 0%float (dwt_coeff_len w n)).

(** [pywt.dwt(a, wavelet)]: an empty array has no transform, the length
    of its output is refused. *)
Definition pywt_dwt (w : Wavelet) (a : list float)
  : result (list float * list float) :=
  match a with
  | [] => Raise (ValueError "Value of data_len must be greater than zero.")
  | _ => Ok (dwt_single w a)
  end.

(** The loop of [pywt.wavedec]: [level] times, split the approximation and
    append the detail band. *)
Fixpoint wavedec_loop (w : Wavelet) (level : nat) (a : list float)
    (coeffs_list : list (list float))
  : result (list float * list (list float)) :=
  match level with
  | O => Ok (a, coeffs_list)
  | S level' =>
      (ad <~ pywt_dwt w a ;;
       wavedec_loop w level' (fst ad) (coeffs_list ++ [snd ad]))%py
  end.

(** [pywt.wavedec(data, wavelet, level=level)] returns
    [[cA_n, cD_n, ..., cD_1]].  A level above [dwt_max_level] only warns. *)
Definition wavedec (data : list float) (w : Wavelet) (level : nat)
  : result (list (list float)) :=
  (ac <~ wavedec_loop w level data [] ;;
   Ok (rev (snd ac ++ [fst ac])))%py.

(* ===================================================================== *)
(** ** Wavelet feature extraction (notebook 05) *)
(* ===================================================================== *)

(** A row of the label table: columns [file] and [arrival_time]. *)
Record LabelRow : Type := {
  file : string;
  arrival_time : float
}.

(** The three lists the batch loop appends to, and what was printed. *)
Record BatchStore : Type := {
  features_list : list (list float);
  arrival_times : list float;
  file_names : list string;
  stdout : list string
}.

Definition empty_store : BatchStore :=
  {| features_list := []; arrival_times := []; file_names := []; stdout := [] |}.

Definition append_features (f : list float) (s : BatchStore) : BatchStore :=
  {| features_list := features_list s ++ [f];
     arrival_times := arrival_times s;
     file_names := file_names s;
     stdout := stdout s |}.

Definition append_arrival (t : float) (s : BatchStore) : BatchStore :=
  {| features_list := features_list s;
     arrival_times := arrival_times s ++ [t];
     file_names := file_names s;
     stdout := stdout s |}.

Definition append_file (f : string) (s : BatchStore) : BatchStore :=
  {| features_list := features_list s;
     arrival_times := arrival_times s;
     file_names := file_names s ++ [f];
     stdout := stdout s |}.

Definition print (line : string) : M BatchStore unit :=
  Py.modify (fun s =>
    {| features_list := features_list s;
       arrival_times := arrival_times s;
       file_names := file_names s;
       stdout := stdout s ++ [line] |}).

(** [np.array(features_list)]: a list of equally long vectors becomes a
    matrix; numpy refuses a ragged one. *)
Definition np_array_2d (rows : list (list float)) : result (list (list float)) :=
  match rows with
  | [] => Ok []
  | r :: rs =>
      if forallb (fun x => length x =? length r) rs then Ok rows
      else Raise (ValueError
        "setting an array element with a sequence. The requested array has an inhomogeneous shape")
  end.

(** [np.abs(coef)] and [coef**2], elementwise. *)
Definition np_abs (a : list float) : list float := map PrimFloat.abs a.

Definition np_square (a : list float) : list float :=
  map (fun x => (x * x)%float) a.

(** A band of zeros. *)
Definition zero_band (c : list float) : Prop :=
  exists k, 1 <= k /\ c = repeat 0%float k.

Section FeatureExtraction.

Context {numerics : Numerics} {pywt : PyWavelets} {filesystem : FileSystem}.

(** What every summation order gives on constant arrays of zeros and of
    NaNs ([np.sum] of an empty array is [0.0]). *)
Definition sum_of_constants : Prop :=
  (forall n, np_sum (repeat 0%float n) = 0%float)
  /\ (forall n, 1 <= n -> np_sum (repeat nan n) = nan).

(** [np.max] and [np.min] raise on an array without elements. *)
Definition np_max (a : list float) : result float :=
  match a with
  | [] => Raise (ValueError
      "zero-size array to reduction operation maximum which has no identity")
  | _ => Ok (np_amax a)
  end.

Definition np_min (a : list float) : result float :=
  match a with
  | [] => Raise (ValueError
      "zero-size array to reduction operation minimum which has no identity")
  | _ => Ok (np_amin a)
  end.

(** [np.percentile(a, q)] raises on an array without elements as well:
    it indexes the last element of the sorted array.  ([np.mean],
    [np.std], [stats.skew] and [stats.kurtosis] return a NaN there.) *)
Definition percentile (a : list float) (q : Z) : result float :=
  match a with
  | [] => Raise (IndexError "index -1 is out of bounds for axis 0 with size 0")
  | _ => Ok (np_percentile a q)
  end.

(** [scipy.special.entr]: [-x log x] for positive [x], [0] at zero, minus
    infinity below, and a NaN is passed through. *)
Definition special_entr (x : float) : float :=
  if PrimFloat.is_nan x then x
  else if (0 <? x)%float then (- x * libm_log x)%float
  else if (x =? 0)%float then 0%float
  else neg_infinity.

(** [scipy.stats.entropy(pk)]: normalise [pk] by its sum, then sum
    [entr] over it.  Nothing guards a zero sum. *)
Definition stats_entropy (pk : list float) : float :=
  let total := np_sum pk in
  let pk' := map (fun p => (1 * p / total)%float) pk in
  np_sum (map special_entr pk').

(** The twelve statistics of one coefficient band, in the order the code
    lists them, which is the order Python evaluates them in: on a band
    without elements the first call that raises is [np.percentile]. *)
Definition band_features (coef : list float) : result (list float) :=
  (p75 <~ percentile coef 75 ;;
   p25 <~ percentile coef 25 ;;
   mx <~ np_max coef ;;
   mn <~ np_min coef ;;
   Ok [ np_mean coef;
        np_std coef;
        stats_skew coef;
        stats_kurtosis coef;
        p75;
        p25;
        mx;
        mn;
        np_sum (np_abs coef);
        PrimFloat.sqrt (np_sum (np_square coef));
        stats_entropy (np_abs coef);
        np_median (np_abs coef) ])%py.

(** [for coef in coeffs: features.extend([...])] *)
Fixpoint extend_features (coeffs : list (list float)) (features : list float)
  : result (list float) :=
  match coeffs with
  | [] => Ok features
  | coef :: coeffs' =>
      (fs <~ band_features coef ;;
       extend_features coeffs' (features ++ fs))%py
  end.

(** [def extract_wavelet_features(signal, wavelet='db4', level=4)] *)
Definition extract_wavelet_features (signal : list float) (wavelet : Wavelet)
    (level : nat) : result (list float) :=
  (coeffs <~ wavedec signal wavelet level ;;
   extend_features coeffs [])%py.

(** The body of the loop of [process_seismic_files] for one row of the
    table. *)
Definition process_row (data_path : string) (row : LabelRow)
  : M BatchStore unit :=
  let file_path := os_path_join data_path (file row) in
  Py.try_except
    (st <- Py.lift (obspy_read file_path) ;;
     tr <- Py.lift (stream_first st) ;;
     let signal := tr_data tr in
     features <- Py.lift (extract_wavelet_features signal db4 4) ;;
     Py.modify (append_features features) ;;
     Py.modify (append_arrival (arrival_time row)) ;;
     Py.modify (append_file (file row)))%py
    (fun e =>
       print ("Error processing " ++ file_path ++ ": " ++ Py.str e)%string).

(** [def process_seismic_files(data_path, arrival_times_csv)], on the table
    read from the CSV file; it starts from empty lists and returns the
    feature array, the arrival times and the file names. *)
Definition process_seismic_files (data_path : string)
    (arrivals_df : list LabelRow)
  : result (list (list float) * list float * list string) * BatchStore :=
  (print "Extracting wavelet features..." ;;
   Py.for_each arrivals_df (process_row data_path) ;;
   s <- Py.get ;;
   X <- Py.lift (np_array_2d (features_list s)) ;;
   Py.ret (X, arrival_times s, file_names s))%py empty_store.

(** What one row yields, apart from the store: its feature vector, or the
    exception that makes the loop skip it. *)
Definition row_features (data_path : string) (row : LabelRow)
  : result (list float) :=
  (st <~ obspy_read (os_path_join data_path (file row)) ;;
   tr <~ stream_first st ;;
   extract_wavelet_features (tr_data tr) db4 4)%py.

Definition processed (data_path : string) (row : LabelRow) : bool :=
  match row_features data_path row with
  | Ok _ => true
  | Raise _ => false
  end.

(** The rows that are processed, each with its features, in table order. *)
Definition outcomes (data_path : string) (arrivals_df : list LabelRow)
  : list (LabelRow * list float) :=
  flat_map (fun row =>
              match row_features data_path row with
              | Ok f => [(row, f)]
              | Raise _ => []
              end) arrivals_df.

End FeatureExtraction.

(* ===================================================================== *)
(** ** Arrival-time matching (notebook 05, [match_arrival_times]) *)
(* ===================================================================== *)

Module Matching.

(** A row of the pick catalogue as [iterrows] hands it to the loop: the
    file number [archivo], an integer, and the absolute pick time [lec_p],
    in epoch seconds. *)
Record PickRow : Type := {
  archivo : Z;
  lec_p : float
}.

(** The resulting table: columns [file] and [arrival_time]. *)
Definition Frame : Type := list (string * float).

(** The two lists the loop appends to, what was printed and the CSV files
    written. *)
Record Store : Type := {
  arrival_times : list float;
  filenames : list string;
  stdout : list string;
  written : list (string * Frame)
}.

Definition empty_store : Store :=
  {| arrival_times := []; filenames := []; stdout := []; written := [] |}.

Definition append_arrival (t : float) (s : Store) : Store :=
  {| arrival_times := arrival_times s ++ [t];
     filenames := filenames s;
     stdout := stdout s;
     written := written s |}.

Definition append_filename (f : string) (s : Store) : Store :=
  {| arrival_times := arrival_times s;
     filenames := filenames s ++ [f];
     stdout := stdout s;
     written := written s |}.

Definition print (line : string) : M Store unit :=
  Py.modify (fun s =>
    {| arrival_times := arrival_times s;
       filenames := filenames s;
       stdout := stdout s ++ [line];
       written := written s |}).

(** [result_df.to_csv(output_path, index=False)] *)
Definition to_csv (output_path : string) (df : Frame) : M Store unit :=
  Py.modify (fun s =>
    {| arrival_times := arrival_times s;
       filenames := filenames s;
       stdout := stdout s;
       written := written s ++ [(output_path, df)] |}).

(** [f"{file_id:08d}"]: decimal digits, padded with zeros to eight
    characters, the sign first. *)
Definition format_08d (file_id : Z) : string :=
  let digits := NilZero.string_of_uint (N.to_uint (Z.abs_N file_id)) in
  let sign := if (file_id <? 0)%Z then "-" else "" in
  let zeros := 8 - String.length sign - String.length digits in
  (sign ++ string_of_list_ascii (repeat "0"%char zeros) ++ digits)%string.

(** [pd.DataFrame({'file': filenames, 'arrival_time': arrival_times})]:
    pandas refuses columns of different lengths. *)
Definition data_frame (files : list string) (times : list float)
  : result Frame :=
  if length files =? length times then Ok (combine files times)
  else Raise (ValueError "All arrays must be of the same length").

(** [df['archivo'].isin(mseed_files)] for one row. *)
Definition isin (mseed_files : list Z) (row : PickRow) : bool :=
  existsb (Z.eqb (archivo row)) mseed_files.

Section WithFiles.

Context {filesystem : FileSystem} {builtins : Builtins}.

(** The first loop: the numbers of the [.mseed] files of the directory. *)
Fixpoint mseed_numbers (files : list string) (mseed_files : list Z)
  : result (list Z) :=
  match files with
  | [] => Ok mseed_files
  | file :: files' =>
      if endswith file ".mseed" then
        (file_number <~ py_int (replace file ".mseed" "") ;;
         mseed_numbers files' (mseed_files ++ [file_number]))%py
      else mseed_numbers files' mseed_files
  end.

(** The body of the second loop, for one matched row that [iterrows] hands
    with its file number still an integer, so that the format of the file
    name goes through; [CatalogueMatching] below has the loop for rows that
    arrive as floats as well. *)
Definition match_row (directory_path : string) (row : PickRow)
  : M Store unit :=
  let file_id := archivo row in
  let mseed_file := (format_08d file_id ++ ".mseed")%string in
  let file_path := os_path_join directory_path mseed_file in
  Py.try_except
    (st <- Py.lift (obspy_read file_path) ;;
     tr <- Py.lift (stream_first st) ;;
     let absolute_p_time := lec_p row in
     let relative_p_time := (absolute_p_time - tr_starttime tr)%float in
     Py.modify (append_arrival relative_p_time) ;;
     Py.modify (append_filename mseed_file))%py
    (fun e =>
       print ("Error procesando " ++ mseed_file ++ ": " ++ Py.str e)%string).

(** [def match_arrival_times(directory_path, csv_path, output_path)], on
    the catalogue [df] read from [csv_path], with an output path that can
    be written. *)
Definition match_arrival_times (directory_path : string) (df : list PickRow)
    (output_path : string) : result Frame * Store :=
  (files <- Py.lift (os_listdir directory_path) ;;
   mseed_files <- Py.lift (mseed_numbers files []) ;;
   let matched_df := filter (isin mseed_files) df in
   Py.for_each matched_df (match_row directory_path) ;;
   s <- Py.get ;;
   result_df <- Py.lift (data_frame (filenames s) (arrival_times s)) ;;
   to_csv output_path result_df ;;
   print ("Se guardaron "
          ++ NilZero.string_of_uint (Nat.to_uint (length result_df))
          ++ " coincidencias en " ++ output_path)%string ;;
   Py.ret result_df)%py empty_store.

(** The same step from the matched rows on: the second loop, the table,
    the CSV file and the summary line. *)
Definition emit_matched (directory_path output_path : string)
    (matched_df : list PickRow) : result Frame * Store :=
  (Py.for_each matched_df (match_row directory_path) ;;
   s <- Py.get ;;
   result_df <- Py.lift (data_frame (filenames s) (arrival_times s)) ;;
   to_csv output_path result_df ;;
   print ("Se guardaron "
          ++ NilZero.string_of_uint (Nat.to_uint (length result_df))
          ++ " coincidencias en " ++ output_path)%string ;;
   Py.ret result_df)%py empty_store.

(** A row has a waveform file in the directory when the number of one of
    its [.mseed] files is the row's [archivo]. *)
Definition has_waveform (directory_path : string) (row : PickRow) : Prop :=
  exists files file,
    os_listdir directory_path = Ok files
    /\ In file files
    /\ endswith file ".mseed" = true
    /\ py_int (replace file ".mseed" "") = Ok (archivo row).

(** What one matched row yields: its file name and label, or nothing when
    the file cannot be read. *)
Definition pick (directory_path : string) (row : PickRow)
  : list (string * float) :=
  let mseed_file := (format_08d (archivo row) ++ ".mseed")%string in
  match (st <~ obspy_read (os_path_join directory_path mseed_file) ;;
         stream_first st)%py with
  | Ok tr => [(mseed_file, (lec_p row - tr_starttime tr)%float)]
  | Raise _ => []
  end.

Definition picks (directory_path : string) (rows : list PickRow)
  : list (string * float) :=
  flat_map (pick directory_path) rows.

End WithFiles.

End Matching.

(* ===================================================================== *)
(** ** Train/test split (notebook 03) *)
(* ===================================================================== *)

Module Split.

(** [ceil(num/den * n)].  The code passes [test_size=0.2], the double
    nearest to 1/5, and scikit-learn computes [ceil(0.2 * n)] in binary64:
    the product rounds to [n/5] when 5 divides [n] and is at least 0.2
    away from an integer otherwise, so the result is [ceil(n/5)] for every
    [n] below 2^53. *)
Definition ceil_fraction (num den n : nat) : nat := (n * num + den - 1) / den.

(** scikit-learn's [_validate_shuffle_split] for a fractional [test_size]
    and no [train_size]: the sizes of the two parts, or [ValueError] when
    the fraction is not strictly between 0 and 1 or no row is left for
    training. *)
Definition validate_shuffle_split (n_samples : nat) (test_size : nat * nat)
  : result (nat * nat) :=
  let (num, den) := test_size in
  if (num =? 0) || (den <=? num) then
    Raise (ValueError "test_size should be a float in the (0, 1) range")
  else
    let n_test := ceil_fraction num den n_samples in
    let n_train := n_samples - n_test in
    if n_train =? 0 then
      Raise (ValueError "the resulting train set will be empty")
    else Ok (n_train, n_test).

(** [_safe_indexing(df, indices)]: the rows at the given positions. *)
Fixpoint safe_indexing {A : Type} (df : list A) (indices : list nat)
  : result (list A) :=
  match indices with
  | [] => Ok []
  | i :: indices' =>
      match nth_error df i with
      | Some row =>
          (rows <~ safe_indexing df indices' ;; Ok (row :: rows))%py
      | None => Raise (IndexError "positional indexers are out-of-bounds")
      end
  end.

(** The file names of the directory without their extension are the
    source identities. *)
Definition source_identities (files : list string) : list string :=
  map (fun filename => replace filename ".mseed" "") files.

Section WithRng.

Context {rng : RandomState}.

(** What numpy documents of the generator: a reordering of [range(n)]. *)
Definition shuffles : Prop :=
  forall seed n, Permutation (rng_permutation seed n) (seq 0 n).

(** [train_test_split(df, test_size=..., random_state=...)]: one
    [ShuffleSplit] draw; the test rows are the head of the permutation and
    the training rows what follows it. *)
Definition train_test_split {A : Type} (df : list A) (test_size : nat * nat)
    (random_state : Z) : result (list A * list A) :=
  let n_samples := length df in
  (sizes <~ validate_shuffle_split n_samples test_size ;;
   let n_train := fst sizes in
   let n_test := snd sizes in
   let permutation := rng_permutation random_state n_samples in
   let ind_test := firstn n_test permutation in
   let ind_train := firstn n_train (skipn n_test permutation) in
   train <~ safe_indexing df ind_train ;;
   test <~ safe_indexing df ind_test ;;
   Ok (train, test))%py.

(** The cell of the notebook: the identities are split 80/20 with seed
    42. *)
Definition split_dataset (files : list string)
  : result (list string * list string) :=
  let df := source_identities files in
  train_test_split df (1, 5) 42.

End WithRng.

End Split.

(* ===================================================================== *)
(** ** Timestamp reconstruction (inference notebook) *)
(* ===================================================================== *)

Module Reconstruction.

(** A naive [datetime.datetime] to the minute. *)
Record datetime : Type := {
  year : Z;
  month : Z;
  day : Z;
  hour : Z;
  minute : Z
}.

(** The offset from UTC, in seconds, that the time zone of the machine
    gives a naive local time. *)
Class Locale : Type := {
  utcoffset : datetime -> Z
}.

(** A row of the prediction table: [file] and [predicted_time]. *)
Record Prediction : Type := {
  file : string;
  predicted_time : float
}.

Open Scope Z_scope.

Definition is_leap (y : Z) : bool :=
  (y mod 4 =? 0) && (negb (y mod 100 =? 0) || (y mod 400 =? 0)).

Definition days_in_month (y m : Z) : Z :=
  if m =? 2 then (if is_leap y then 29 else 28)
  else if (m =? 4) || (m =? 6) || (m =? 9) || (m =? 11) then 30
  else 31.

(** Days of the year before the first of month [m]. *)
Definition days_before_month (y m : Z) : Z :=
  fold_left (fun acc k => acc + days_in_month y (Z.of_nat k))
            (seq 1 (Z.to_nat (m - 1))) 0.

(** Days before the first of January of year [y], in the proleptic
    Gregorian calendar. *)
Definition days_before_year (y : Z) : Z :=
  let p := y - 1 in
  p * 365 + p / 4 - p / 100 + p / 400.

(** [datetime(year, month, day, hour, minute)] checks its fields. *)
Definition py_datetime (y mo d h mi : Z) : result datetime :=
  if negb ((1 <=? y) && (y <=? 9999)) then
    Raise (ValueError "year must be in 1..9999")
  else if negb ((1 <=? mo) && (mo <=? 12)) then
    Raise (ValueError "month must be in 1..12")
  else if negb ((1 <=? d) && (d <=? days_in_month y mo)) then
    Raise (ValueError "day is out of range for month")
  else if negb ((0 <=? h) && (h <=? 23)) then
    Raise (ValueError "hour must be in 0..23")
  else if negb ((0 <=? mi) && (mi <=? 59)) then
    Raise (ValueError "minute must be in 0..59")
  else Ok {| year := y; month := mo; day := d; hour := h; minute := mi |}.

(** [dt.toordinal()]: 1 for the first of January of the year 1; the first
    of January 1970 is day 719163. *)
Definition toordinal (dt : datetime) : Z :=
  days_before_year (year dt) + days_before_month (year dt) (month dt) + day dt.

(** Seconds from the epoch to [dt] read as UTC. *)
Definition utc_seconds (dt : datetime) : Z :=
  (toordinal dt - 719163) * 86400 + hour dt * 3600 + minute dt * 60.

Section WithLocale.

Context {builtins : Builtins} {locale : Locale}.

(** [dt.timestamp()] of a naive datetime: it is read as local time. *)
Definition timestamp (dt : datetime) : float :=
  float_of_Z (utc_seconds dt - utcoffset dt).

(** [def extract_datetime(filename)]: the year is the constant 2024. *)
Definition extract_datetime (filename : string) : result datetime :=
  let datetime_str := replace filename ".mseed" "" in
  (mo <~ py_int (slice datetime_str 0 2) ;;
   d <~ py_int (slice datetime_str 2 4) ;;
   h <~ py_int (slice datetime_str 4 6) ;;
   mi <~ py_int (slice datetime_str 6 8) ;;
   py_datetime 2024 mo d h mi)%py.

(** The two column assignments, for one row:
    [base_timestamp = extract_datetime(file).timestamp()] and
    [lec_p = base_timestamp + predicted_time]. *)
Definition lec_p (row : Prediction) : result float :=
  (dt <~ extract_datetime (file row) ;;
   let base_timestamp := timestamp dt in
   Ok (base_timestamp + predicted_time row)%float)%py.

(** The table written out: [file] without its extension, and [lec_p]. *)
Fixpoint reconstruct (predictions_df : list Prediction)
  : result (list (string * float)) :=
  match predictions_df with
  | [] => Ok []
  | row :: rows =>
      (t <~ lec_p row ;;
       rest <~ reconstruct rows ;;
       Ok ((replace (file row) ".mseed" "", t) :: rest))%py
  end.

(** *** The reconstruction the specification asks for

    "Given the source identity encodes a window-start date/time and a
    configured reference year, compute absolute arrival timestamp = parsed
    window-start epoch seconds + predicted relative time", the reference
    year being an explicit input. *)
Definition window_start_spec (reference_year : Z) (identity : string)
  : result datetime :=
  let digits := replace identity ".mseed" "" in
  (mo <~ py_int (slice digits 0 2) ;;
   d <~ py_int (slice digits 2 4) ;;
   h <~ py_int (slice digits 4 6) ;;
   mi <~ py_int (slice digits 6 8) ;;
   py_datetime reference_year mo d h mi)%py.

Definition reconstruct_spec (reference_year : Z) (row : Prediction)
  : result float :=
  (start <~ window_start_spec reference_year (file row) ;;
   Ok (timestamp start + predicted_time row)%float)%py.

End WithLocale.

End Reconstruction.

(* ===================================================================== *)
(** ** Reference numerics

    A direct, sequential binary64 evaluation of every routine the
    extractor takes from numpy, scipy and PyWavelets, so that the model
    runs on concrete waveforms.  The libraries may differ from it in the
    last bits (order of summation, interpolation, the logarithm); on
    arrays of zeros they agree with it. *)
(* ===================================================================== *)

Module Reference.

Definition float_of_nat (n : nat) : float := float_of_Z (Z.of_nat n).

Definition seq_sum (a : list float) : float :=
  fold_left PrimFloat.add a 0%float.

Definition mean (a : list float) : float :=
  (seq_sum a / float_of_nat (length a))%float.

Fixpoint fpow (x : float) (k : nat) : float :=
  match k with
  | O => 1%float
  | S k' => (x * fpow x k')%float
  end.

Definition central_moment (k : nat) (a : list float) : float :=
  let m := mean a in
  mean (map (fun x => fpow (x - m)%float k) a).

Definition std (a : list float) : float :=
  PrimFloat.sqrt (central_moment 2 a).

Definition skew (a : list float) : float :=
  let m2 := central_moment 2 a in
  (central_moment 3 a / (m2 * PrimFloat.sqrt m2))%float.

Definition kurtosis (a : list float) : float :=
  let m2 := central_moment 2 a in
  (central_moment 4 a / (m2 * m2) - 3)%float.

Definition fmax (x y : float) : float :=
  if PrimFloat.is_nan x then x
  else if PrimFloat.is_nan y then y
  else if (x <? y)%float then y else x.

Definition fmin (x y : float) : float :=
  if PrimFloat.is_nan x then x
  else if PrimFloat.is_nan y then y
  else if (y <? x)%float then y else x.

Definition amax (a : list float) : float :=
  match a with
  | [] => nan
  | x :: a' => fold_left fmax a' x
  end.

Definition amin (a : list float) : float :=
  match a with
  | [] => nan
  | x :: a' => fold_left fmin a' x
  end.

Fixpoint insert_sorted (x : float) (a : list float) : list float :=
  match a with
  | [] => [x]
  | y :: a' => if (x <=? y)%float then x :: a else y :: insert_sorted x a'
  end.

Definition sorted (a : list float) : list float :=
  fold_right insert_sorted [] a.

(** Linear interpolation between the order statistics around the rank
    [q/100 * (n - 1)]. *)
Definition percentile (a : list float) (q : Z) : float :=
  match a with
  | [] => nan
  | _ =>
      let s := sorted a in
      let pos := (q * (Z.of_nat (length a) - 1))%Z in
      let lo := Z.to_nat (pos / 100) in
      let frac := (float_of_Z (pos mod 100) / 100)%float in
      let x := nth lo s nan in
      let y := nth (Nat.min (lo + 1) (length a - 1)) s nan in
      (x + (y - x) * frac)%float
  end.

Definition median (a : list float) : float := percentile a 50.

(** The natural logarithm of a positive number [m * 2^e], [m] in
    [[0.5, 1)], from the series of [atanh] at [(m - 1) / (m + 1)]. *)
Fixpoint atanh_series (terms : nat) (zk z2 : float) (k : Z) : float :=
  match terms with
  | O => 0%float
  | S terms' =>
      (zk / float_of_Z k + atanh_series terms' (zk * z2) z2 (k + 2))%float
  end.

Definition log (x : float) : float :=
  if PrimFloat.is_nan x then x
  else if (x <? 0)%float then nan
  else if (x =? 0)%float then neg_infinity
  else if (x =? infinity)%float then infinity
  else
    let (m, e) := PrimFloat.frshiftexp x in
    let z := ((m - 1) / (m + 1))%float in
    (2 * atanh_series 24 z (z * z) 1
     + float_of_Z (Uint63.to_Z e - FloatOps.shift) * 0x1.62e42fefa39efp-1)%float.

Definition numerics : Numerics := {|
  np_sum := seq_sum;
  np_mean := mean;
  np_std := std;
  np_median := median;
  stats_skew := skew;
  stats_kurtosis := kurtosis;
  np_percentile := percentile;
  np_amax := amax;
  np_amin := amin;
  libm_log := log
|}.

(** The Daubechies-4 decomposition filters. *)
Definition db4_dec_lo : list float :=
  [ -0.010597401784997278; 0.032883011666982945; 0.030841381835986965;
    -0.18703481171888114; -0.02798376941698385; 0.6308807679295904;
    0.7148465705525415; 0.23037781330885523 ]%float.

Definition db4_dec_hi : list float :=
  [ -0.23037781330885523; 0.7148465705525415; -0.6308807679295904;
    -0.02798376941698385; 0.18703481171888114; 0.030841381835986965;
    -0.032883011666982945; -0.010597401784997278 ]%float.

(** Sample [i] of the half-sample symmetric extension
    [... x1 x0 | x0 x1 ... x(n-1) | x(n-1) x(n-2) ...]. *)
Definition symmetric_ext (a : list float) (i : Z) : float :=
  let n := Z.of_nat (length a) in
  let j := (i mod (2 * n))%Z in
  nth (Z.to_nat (if (j <? n)%Z then j else 2 * n - 1 - j)%Z) a 0%float.

Definition dot (filter window : list float) : float :=
  fold_left (fun acc cx => (acc + fst cx * snd cx)%float)
            (combine filter window) 0%float.

(** One output band: the extended signal convolved with the filter and
    kept at every second sample. *)
Definition filter_down (filter a : list float) : list float :=
  let taps := length filter in
  map (fun k =>
         dot filter
             (map (fun j => symmetric_ext a (2 * Z.of_nat k + 1 - Z.of_nat j))
                  (seq 0 taps)))
      (seq 0 ((length a + taps - 1) / 2)).

Definition db4_wavelet : Wavelet :=
  {| dec_len := 8;
     dwt_single := fun a => (filter_down db4_dec_lo a, filter_down db4_dec_hi a) |}.

Definition pywt : PyWavelets := {| db4 := db4_wavelet |}.

(** The extractor on the reference numerics, in the reference
    configuration. *)
Definition extract (signal : list float) : result (list float) :=
  extract_wavelet_features (numerics := numerics) signal db4_wavelet 4.

(** [int(s)] on plain decimal literals: digits, with an optional minus
    sign in front. *)
Definition int_decimal (s : string) : result Z :=
  match NilZero.int_of_string s with
  | Some d => Ok (Z.of_int d)
  | None =>
      Raise (ValueError
        ("invalid literal for int() with base 10: '" ++ s ++ "'")%string)
  end.

Definition builtins : Builtins := {| py_int := int_decimal |}.

End Reference.

(* ===================================================================== *)
(** ** Concrete data to run the model on *)
(* ===================================================================== *)

(** A directory [testing] with two readable waveforms and a text file;
    every other path is missing. *)
Definition demo_listdir (path : string) : result (list string) :=
  if String.eqb path "testing" then
    Ok ["01010056.mseed"; "notes.txt"; "01020312.mseed"]
  else Raise (OSError ("No such file or directory: " ++ path)%string).

Definition demo_read (path : string) : result Stream :=
  if String.eqb path "testing/01010056.mseed" then
    Ok [ {| tr_data := [1; 2; 3; 4; 5; 6; 7; 8]%float;
            tr_starttime := 1704088560%float |} ]
  else if String.eqb path "testing/01020312.mseed" then
    Ok [ {| tr_data := [0.5; -0.5; 0.25]%float;
            tr_starttime := 1704183120%float |} ]
  else Raise (OSError ("No such file or directory: " ++ path)%string).

Definition demo_filesystem : FileSystem :=
  {| os_listdir := demo_listdir; obspy_read := demo_read |}.

(** A label table whose second row names a file that is not there. *)
Definition demo_table : list LabelRow :=
  [ {| file := "01010056.mseed"; arrival_time := 30.6%float |};
    {| file := "01011111.mseed"; arrival_time := 12%float |};
    {| file := "01020312.mseed"; arrival_time := 29.5%float |} ].

Definition demo_batch
  : result (list (list float) * list float * list string) * BatchStore :=
  process_seismic_files (numerics := Reference.numerics)
    (pywt := Reference.pywt) (filesystem := demo_filesystem)
    "testing" demo_table.

(** A catalogue of three picks: one half a minute into its window, one for
    a file that is not in the directory, and one a minute before the start
    of its window. *)
Definition demo_pick_inside : Matching.PickRow :=
  {| Matching.archivo := 1010056; Matching.lec_p := 1704088590.5%float |}.

Definition demo_pick_no_file : Matching.PickRow :=
  {| Matching.archivo := 1011111; Matching.lec_p := 1704100000%float |}.

Definition demo_pick_before : Matching.PickRow :=
  {| Matching.archivo := 1020312; Matching.lec_p := 1704183060%float |}.

Definition demo_catalogue : list Matching.PickRow :=
  [demo_pick_inside; demo_pick_no_file; demo_pick_before].

Definition demo_match (df : list Matching.PickRow)
  : result Matching.Frame * Matching.Store :=
  Matching.match_arrival_times (filesystem := demo_filesystem)
    (builtins := Reference.builtins)
    "testing" df "features/test_arrival_times.csv".

(** A fixed reordering standing for the seeded generator. *)
Definition demo_rng : RandomState :=
  {| rng_permutation := fun seed n => rev (seq 0 n) |}.

Definition demo_files : list string :=
  [ "01062222.mseed"; "01220330.mseed"; "04301304.mseed";
    "04190209.mseed"; "02131016.mseed"; "03050711.mseed" ].

Definition demo_split (files : list string)
  : result (list string * list string) :=
  Split.split_dataset (rng := demo_rng) files.

(** A machine five hours west of UTC all year. *)
Definition demo_locale : Reconstruction.Locale :=
  {| Reconstruction.utcoffset := fun _ => (-18000)%Z |}.

Definition demo_prediction : Reconstruction.Prediction :=
  {| Reconstruction.file := "01011426.mseed";
     Reconstruction.predicted_time := 30.5%float |}.

Definition demo_lec_p (row : Reconstruction.Prediction) : result float :=
  Reconstruction.lec_p (builtins := Reference.builtins)
    (locale := demo_locale) row.

Definition demo_reconstruct_spec (reference_year : Z)
    (row : Reconstruction.Prediction) : result float :=
  Reconstruction.reconstruct_spec (builtins := Reference.builtins)
    (locale := demo_locale) reference_year row.

(* ===================================================================== *)
(** ** Further notions for the extractor and the batch *)
(* ===================================================================== *)

(** The length of the approximation band after [level] transforms of an
    array of [n] samples, and the sizes of the bands [pywt.wavedec]
    returns, in its order [[cA_n, cD_n, ..., cD_1]]. *)
Fixpoint approx_len (w : Wavelet) (level n : nat) : nat :=
  match level with
  | O => n
  | S level' => approx_len w level' (dwt_coeff_len w n)
  end.

Definition band_sizes (w : Wavelet) (level n : nat) : list nat :=
  approx_len w level n
  :: rev (map (fun k => approx_len w (S k) n) (seq 0 level)).

(** The table that lists the given files, each with the arrival time
    [arrival] gives it. *)
Definition table_of (arrival : string -> float) (files : list string)
  : list LabelRow :=
  map (fun f => {| file := f; arrival_time := arrival f |}) files.

Section FeatureLayout.

Context {numerics : Numerics} {pywt : PyWavelets} {filesystem : FileSystem}.

(** The twelve statistics of a band that has elements. *)
Definition band_stats (coef : list float) : list float :=
  [ np_mean coef;
    np_std coef;
    stats_skew coef;
    stats_kurtosis coef;
    np_percentile coef 75;
    np_percentile coef 25;
    np_amax coef;
    np_amin coef;
    np_sum (np_abs coef);
    PrimFloat.sqrt (np_sum (np_square coef));
    stats_entropy (np_abs coef);
    np_median (np_abs coef) ].

(** The line the batch prints for a row it skips. *)
Definition error_lines (data_path : string) (arrivals_df : list LabelRow)
  : list string :=
  flat_map (fun row =>
              match row_features data_path row with
              | Ok _ => []
              | Raise e =>
                  [("Error processing "
                    ++ os_path_join data_path (file row) ++ ": "
                    ++ Py.str e)%string]
              end) arrivals_df.

(** [def process_seismic_files_no_times(data_path)]: the body of its loop
    for one file of the directory, and the function. *)
Definition process_file (data_path : string) (file : string)
  : M BatchStore unit :=
  let file_path := os_path_join data_path file in
  Py.try_except
    (st <- Py.lift (obspy_read file_path) ;;
     tr <- Py.lift (stream_first st) ;;
     let signal := tr_data tr in
     features <- Py.lift (extract_wavelet_features signal db4 4) ;;
     Py.modify (append_features features) ;;
     Py.modify (append_file file))%py
    (fun e =>
       print ("Error processing " ++ file_path ++ ": " ++ Py.str e)%string).

Definition process_seismic_files_no_times (data_path : string)
  : result (list (list float) * list string) * BatchStore :=
  (files <- Py.lift (os_listdir data_path) ;;
   let mseed_files := filter (fun f => endswith f ".mseed") files in
   print "Extracting wavelet features..." ;;
   Py.for_each mseed_files (process_file data_path) ;;
   s <- Py.get ;;
   X <- Py.lift (np_array_2d (features_list s)) ;;
   Py.ret (X, file_names s))%py empty_store.

End FeatureLayout.

(* ===================================================================== *)
(** ** Arrival times without the directory listing
       (notebook 05, [process_arrival_times]) *)
(* ===================================================================== *)

Module ArrivalTimes.

Import Matching.

(** The table the loop grows, what was printed, and the CSV and [.npy]
    files written. *)
Record Store : Type := {
  test_times_df : Frame;
  stdout : list string;
  csv_written : list (string * Frame);
  npy_written : list (string * list float)
}.

Definition empty_store : Store :=
  {| test_times_df := []; stdout := []; csv_written := []; npy_written := [] |}.

(** [test_times_df = pd.concat([test_times_df, pd.DataFrame([{...}])],
    ignore_index=True)] *)
Definition concat_row (r : string * float) (s : Store) : Store :=
  {| test_times_df := test_times_df s ++ [r];
     stdout := stdout s;
     csv_written := csv_written s;
     npy_written := npy_written s |}.

Definition print (line : string) : M Store unit :=
  Py.modify (fun s =>
    {| test_times_df := test_times_df s;
       stdout := stdout s ++ [line];
       csv_written := csv_written s;
       npy_written := npy_written s |}).

Definition to_csv (path : string) (df : Frame) : M Store unit :=
  Py.modify (fun s =>
    {| test_times_df := test_times_df s;
       stdout := stdout s;
       csv_written := csv_written s ++ [(path, df)];
       npy_written := npy_written s |}).

(** [np.save(path, values)] adds the extension [.npy] to a path that does
    not have it. *)
Definition np_save (path : string) (values : list float) : M Store unit :=
  let path' := if endswith path ".npy" then path else (path ++ ".npy")%string in
  Py.modify (fun s =>
    {| test_times_df := test_times_df s;
       stdout := stdout s;
       csv_written := csv_written s;
       npy_written := npy_written s ++ [(path', values)] |}).

Section WithFiles.

Context {filesystem : FileSystem}.

(** The body of the loop for one row of the catalogue that [iterrows]
    hands with its file number still an integer; a row whose file cannot
    be read is passed over without a word.  [CatalogueArrivalTimes] below
    has the loop for rows that arrive as floats as well, and the writes
    that can fail. *)
Definition arrival_row (data_path : string) (row : PickRow) : M Store unit :=
  let file_id := archivo row in
  let mseed_file := (format_08d file_id ++ ".mseed")%string in
  let file_path := os_path_join data_path mseed_file in
  Py.try_except
    (st <- Py.lift (obspy_read file_path) ;;
     tr <- Py.lift (stream_first st) ;;
     let absolute_p_time := lec_p row in
     let relative_p_time := (absolute_p_time - tr_starttime tr)%float in
     Py.modify (concat_row (mseed_file, relative_p_time)))%py
    (fun e => Py.ret tt).

(** [def process_arrival_times(data_path, data_name)], on the catalogue
    [test_df] read from the global [test_csv_path], with the global
    [features_path]. *)
Definition process_arrival_times (features_path : string)
    (test_df : list PickRow) (data_path data_name : string)
  : result Frame * Store :=
  (print "Procesando tiempos de llegada del conjunto de prueba..." ;;
   Py.for_each test_df (arrival_row data_path) ;;
   s <- Py.get ;;
   let df := test_times_df s in
   to_csv (os_path_join features_path (data_name ++ ".csv")%string) df ;;
   np_save (os_path_join features_path data_name) (map snd df) ;;
   print ("Tiempos de llegada guardados en " ++ data_path ++ "/"
          ++ data_name ++ ".csv")%string ;;
   print ("y " ++ features_path ++ "/test_arrival_times.npy")%string ;;
   Py.ret df)%py empty_store.

End WithFiles.

End ArrivalTimes.

(** The lines [match_arrival_times] prints for the matched rows it cannot
    read. *)
Definition match_error_lines {filesystem : FileSystem}
    (directory_path : string) (rows : list Matching.PickRow) : list string :=
  flat_map
    (fun row =>
       let mseed_file :=
         (Matching.format_08d (Matching.archivo row) ++ ".mseed")%string in
       let file_path := os_path_join directory_path mseed_file in
       match (st <~ obspy_read file_path ;; stream_first st)%py with
       | Ok _ => []
       | Raise e =>
           [("Error procesando " ++ mseed_file ++ ": " ++ Py.str e)%string]
       end) rows.

(* ===================================================================== *)
(** ** The catalogue as [iterrows] hands it, and writes that can fail

    [Matching] and [ArrivalTimes] above are the two functions on a
    catalogue whose rows arrive with the file number still an integer, and
    with outputs that can be written.  Here are both functions without
    these two conditions. *)
(* ===================================================================== *)

Module Catalogue.

(** A number of a row as [iterrows] hands it.  pandas gives the row one
    dtype: in a catalogue whose columns are all numeric, one of them of
    floats, the integer file number arrives as a float. *)
Inductive Number : Type :=
| PyInt (z : Z)
| PyFloat (x : float).

(** [row['archivo']] inside the loop; [upcast] says whether the rows
    arrive as [float64] series. *)
Definition row_archivo (upcast : bool) (row : Matching.PickRow) : Number :=
  if upcast then PyFloat (float_of_Z (Matching.archivo row))
  else PyInt (Matching.archivo row).

(** [f"{file_id:08d}"]: the format code [d] is refused for a float. *)
Definition py_format_08d (file_id : Number) : result string :=
  match file_id with
  | PyInt z => Ok (Matching.format_08d z)
  | PyFloat _ =>
      Raise (ValueError "Unknown format code 'd' for object of type 'float'")
  end.

(** Where the results go: whether a CSV file, and a [.npy] file, can be
    written at a path, or the exception [DataFrame.to_csv] and [np.save]
    raise there (a missing directory, no permission). *)
Class Output : Type := {
  csv_writable : string -> result unit;
  npy_writable : string -> result unit
}.

End Catalogue.

Module CatalogueMatching.

Import Matching.
Import Catalogue.

Section WithFiles.

Context {filesystem : FileSystem} {builtins : Builtins} {output : Output}.

(** The body of the second loop of [match_arrival_times]: the file name
    is formatted before the [try]. *)
Definition match_row (upcast : bool) (directory_path : string)
    (row : PickRow) : M Store unit :=
  let file_id := row_archivo upcast row in
  (digits <- Py.lift (py_format_08d file_id) ;;
   let mseed_file := (digits ++ ".mseed")%string in
   let file_path := os_path_join directory_path mseed_file in
   Py.try_except
     (st <- Py.lift (obspy_read file_path) ;;
      tr <- Py.lift (stream_first st) ;;
      let absolute_p_time := lec_p row in
      let relative_p_time := (absolute_p_time - tr_starttime tr)%float in
      Py.modify (append_arrival relative_p_time) ;;
      Py.modify (append_filename mseed_file))
     (fun e =>
        print ("Error procesando " ++ mseed_file ++ ": "
               ++ Py.str e)%string))%py.

(** [result_df.to_csv(output_path, index=False)], outside any [try]. *)
Definition to_csv (output_path : string) (df : Frame) : M Store unit :=
  (Py.lift (csv_writable output_path) ;;
   Matching.to_csv output_path df)%py.

(** [def match_arrival_times(directory_path, csv_path, output_path)], on
    the catalogue [df] read from [csv_path]. *)
Definition match_arrival_times (upcast : bool) (directory_path : string)
    (df : list PickRow) (output_path : string) : result Frame * Store :=
  (files <- Py.lift (os_listdir directory_path) ;;
   mseed_files <- Py.lift (mseed_numbers files []) ;;
   let matched_df := filter (isin mseed_files) df in
   Py.for_each matched_df (match_row upcast directory_path) ;;
   s <- Py.get ;;
   result_df <- Py.lift (data_frame (filenames s) (arrival_times s)) ;;
   to_csv output_path result_df ;;
   print ("Se guardaron "
          ++ NilZero.string_of_uint (Nat.to_uint (length result_df))
          ++ " coincidencias en " ++ output_path)%string ;;
   Py.ret result_df)%py empty_store.

End WithFiles.

End CatalogueMatching.

Module CatalogueArrivalTimes.

Import Matching.
Import ArrivalTimes.
Import Catalogue.

Section WithFiles.

Context {filesystem : FileSystem} {output : Output}.

(** The body of the loop of [process_arrival_times]: the file name is
    formatted before the [try]. *)
Definition arrival_row (upcast : bool) (data_path : string) (row : PickRow)
  : M ArrivalTimes.Store unit :=
  let file_id := row_archivo upcast row in
  (digits <- Py.lift (py_format_08d file_id) ;;
   let mseed_file := (digits ++ ".mseed")%string in
   let file_path := os_path_join data_path mseed_file in
   Py.try_except
     (st <- Py.lift (obspy_read file_path) ;;
      tr <- Py.lift (stream_first st) ;;
      let absolute_p_time := lec_p row in
      let relative_p_time := (absolute_p_time - tr_starttime tr)%float in
      Py.modify (concat_row (mseed_file, relative_p_time)))
     (fun e => Py.ret tt))%py.

(** The path [np.save] writes to. *)
Definition npy_path (path : string) : string :=
  if endswith path ".npy" then path else (path ++ ".npy")%string.

(** [test_times_df.to_csv(...)] and [np.save(...)], outside any [try]. *)
Definition to_csv (path : string) (df : Frame)
  : M ArrivalTimes.Store unit :=
  (Py.lift (csv_writable path) ;; ArrivalTimes.to_csv path df)%py.

Definition np_save (path : string) (values : list float)
  : M ArrivalTimes.Store unit :=
  (Py.lift (npy_writable (npy_path path)) ;;
   ArrivalTimes.np_save path values)%py.

(** [def process_arrival_times(data_path, data_name)], on the catalogue
    [test_df] read from the global [test_csv_path], with the global
    [features_path]. *)
Definition process_arrival_times (upcast : bool) (features_path : string)
    (test_df : list PickRow) (data_path data_name : string)
  : result Frame * ArrivalTimes.Store :=
  (ArrivalTimes.print
     "Procesando tiempos de llegada del conjunto de prueba..." ;;
   Py.for_each test_df (arrival_row upcast data_path) ;;
   s <- Py.get ;;
   let df := test_times_df s in
   to_csv (os_path_join features_path (data_name ++ ".csv")%string) df ;;
   np_save (os_path_join features_path data_name) (map snd df) ;;
   ArrivalTimes.print ("Tiempos de llegada guardados en " ++ data_path
                       ++ "/" ++ data_name ++ ".csv")%string ;;
   ArrivalTimes.print ("y " ++ features_path
                       ++ "/test_arrival_times.npy")%string ;;
   Py.ret df)%py ArrivalTimes.empty_store.

End WithFiles.

End CatalogueArrivalTimes.

(* ===================================================================== *)
(** ** Moving the files of a part (notebook 03, [move_files]) *)
(* ===================================================================== *)

Module Organize.

(** What the cell uses of the disk: [os.path.exists(path)], and
    [shutil.move(src, dst)], which changes the disk and may raise. *)
Class Shutil : Type := {
  Disk : Type;
  os_path_exists : string -> Disk -> bool;
  shutil_move : string -> string -> M Disk unit
}.

Section WithDisk.

Context {shutil : Shutil}.

(** The disk and what was printed. *)
Record Store : Type := {
  disk : Disk;
  stdout : list string
}.

Definition print (line : string) : M Store unit :=
  Py.modify (fun s => {| disk := disk s; stdout := stdout s ++ [line] |}).

(** A disk operation, run on the disk of the store. *)
Definition on_disk {A : Type} (m : M Disk A) : M Store A :=
  fun s => let (r, d) := m (disk s) in
           (r, {| disk := d; stdout := stdout s |}).

(** [os.path.join(source_path, filename + '.mseed')] *)
Definition source_file (source_path filename : string) : string :=
  os_path_join source_path (filename ++ ".mseed")%string.

(** [os.path.join(dest_path, filename + '.mseed')] *)
Definition dest_file (dest_path filename : string) : string :=
  os_path_join dest_path (filename ++ ".mseed")%string.

(** The body of the loop for one row. *)
Definition move_row (source_path dest_path : string) (filename : string)
  : M Store unit :=
  let source_file := source_file source_path filename in
  let dest_file := dest_file dest_path filename in
  (s <- Py.get ;;
   if os_path_exists source_file (disk s) then
     on_disk (shutil_move source_file dest_file) ;;
     print ("Moved " ++ source_file ++ " to " ++ dest_file)%string
   else
     print ("File " ++ source_file ++ " does not exist")%string)%py.

(** [def move_files(df, source_path, dest_path)], on the column
    [filename] of [df]. *)
Definition move_files (df : list string) (source_path dest_path : string)
  : M Store unit :=
  Py.for_each df (move_row source_path dest_path).

(** No source path of the table is a destination path of it. *)
Definition paths_apart (df : list string) (source_path dest_path : string)
  : Prop :=
  forall f g,
    In f df -> In g df ->
    source_file source_path f <> dest_file dest_path g.

(** The lines printed for a table none of whose files is at its source. *)
Definition missing_lines (df : list string) (source_path : string)
  : list string :=
  map (fun filename =>
         ("File " ++ source_file source_path filename
          ++ " does not exist")%string) df.

(** What the documentation of [shutil.move] promises for a plain file
    moved to a path that is not a directory: when the call returns, the
    file is at the destination and no longer at the source, and no other
    path has appeared or disappeared. *)
Definition moves_plain_files : Prop :=
  forall (src dst : string) (d d' : Disk),
    shutil_move src dst d = (Ok tt, d') ->
    os_path_exists dst d' = true
    /\ (src <> dst -> os_path_exists src d' = false)
    /\ (forall p, p <> src -> p <> dst ->
                  os_path_exists p d' = os_path_exists p d).

End WithDisk.

End Organize.

(* ===================================================================== *)
(** ** Loading the data for inference
       (inference notebook, [load_inference_data]) *)
(* ===================================================================== *)

Module Inference.

(** [np.load(path)] of a saved feature matrix, or the exception numpy
    raises for a missing or unreadable file. *)
Class NpyFiles : Type := {
  np_load : string -> result (list (list float))
}.

(** The list the loop appends to and what was printed. *)
Record Store : Type := {
  raw_signals : list (list float);
  stdout : list string
}.

Definition empty_store : Store := {| raw_signals := []; stdout := [] |}.

Definition append_signal (signal : list float) (s : Store) : Store :=
  {| raw_signals := raw_signals s ++ [signal]; stdout := stdout s |}.

Definition print (line : string) : M Store unit :=
  Py.modify (fun s =>
    {| raw_signals := raw_signals s; stdout := stdout s ++ [line] |}).

(** [X.reshape(X.shape[0], -1, 1)]: every sample becomes a channel of its
    own; numpy cannot work out the [-1] for an array without elements. *)
Definition np_reshape_channels (X : list (list float))
  : result (list (list (list float))) :=
  if length (concat X) =? 0 then
    Raise (ValueError "cannot reshape array of size 0 into shape (0,newaxis,1)")
  else Ok (map (map (fun x => [x])) X).

Section WithFiles.

Context {filesystem : FileSystem} {npy : NpyFiles}.

(** The body of the loop for one file name of the table; nothing here is
    inside a [try]. *)
Definition load_signal (data_path : string) (file : string)
  : M Store unit :=
  let file_path := os_path_join data_path file in
  (st <- Py.lift (obspy_read file_path) ;;
   tr <- Py.lift (stream_first st) ;;
   let signal := tr_data tr in
   let signal := pad_or_trim 0%float signal in
   Py.modify (append_signal signal))%py.

(** [def load_inference_data(data_path)], on the column [file] of the
    table [files_df] read from [feature_files.csv]. *)
Definition load_inference_data (data_path : string) (files_df : list string)
  : result (list (list (list float)) * list (list float) * list string)
    * Store :=
  (print ("Cargando señales desde " ++ data_path ++ "...")%string ;;
   Py.for_each files_df (load_signal data_path) ;;
   s <- Py.get ;;
   X_raw <- Py.lift (np_array_2d (raw_signals s)) ;;
   X_raw <- Py.lift (np_reshape_channels X_raw) ;;
   X_wavelets <- Py.lift
     (np_load (os_path_join data_path "wavelet_features.npy")) ;;
   Py.ret (X_raw, X_wavelets, files_df))%py empty_store.

(** The first trace of the file of a row. *)
Definition first_trace (data_path : string) (file : string) : result Trace :=
  (st <~ obspy_read (os_path_join data_path file) ;; stream_first st)%py.

(** The traces of the files of the table up to the first one that cannot
    be read, and the exception met there. *)
Fixpoint first_traces (data_path : string) (files : list string)
  : list Trace * option exn :=
  match files with
  | [] => ([], None)
  | file :: files' =>
      match first_trace data_path file with
      | Ok tr =>
          let (traces, stop) := first_traces data_path files' in
          (tr :: traces, stop)
      | Raise e => ([], Some e)
      end
  end.

(** The window the network sees of a trace, one channel per sample. *)
Definition window (tr : Trace) : list (list float) :=
  map (fun x => [x]) (pad_or_trim 0%float (tr_data tr)).

End WithFiles.

End Inference.

(* ===================================================================== *)
(** ** File numbers that spell a window start *)
(* ===================================================================== *)

(** The file number [MMDDHHMM] of a window that starts at the given month,
    day, hour and minute. *)
Definition mmddhhmm (mo d h mi : Z) : Z :=
  (mo * 1000000 + d * 10000 + h * 100 + mi)%Z.

(** The decimal digit [n] in front of the digits [d]. *)
Definition digit (n : Z) (d : Decimal.uint) : Decimal.uint :=
  match n with
  | 0%Z => Decimal.D0 d
  | 1%Z => Decimal.D1 d
  | 2%Z => Decimal.D2 d
  | 3%Z => Decimal.D3 d
  | 4%Z => Decimal.D4 d
  | 5%Z => Decimal.D5 d
  | 6%Z => Decimal.D6 d
  | 7%Z => Decimal.D7 d
  | 8%Z => Decimal.D8 d
  | 9%Z => Decimal.D9 d
  | _ => d
  end.

(** The two decimal digits of a number below 100, in front of [d]. *)
Definition two_digits (a : Z) (d : Decimal.uint) : Decimal.uint :=
  digit (a / 10) (digit (a mod 10) d).

(** The eight digits [MMDDHHMM]. *)
Definition digits_mmddhhmm (mo d h mi : Z) : Decimal.uint :=
  two_digits mo (two_digits d (two_digits h (two_digits mi Decimal.Nil))).

(** The number a digit sequence spells after the number [acc]. *)
Fixpoint dec_value (d : Decimal.uint) (acc : Z) : Z :=
  match d with
  | Decimal.Nil => acc
  | Decimal.D0 l => dec_value l (10 * acc)
  | Decimal.D1 l => dec_value l (10 * acc + 1)
  | Decimal.D2 l => dec_value l (10 * acc + 2)
  | Decimal.D3 l => dec_value l (10 * acc + 3)
  | Decimal.D4 l => dec_value l (10 * acc + 4)
  | Decimal.D5 l => dec_value l (10 * acc + 5)
  | Decimal.D6 l => dec_value l (10 * acc + 6)
  | Decimal.D7 l => dec_value l (10 * acc + 7)
  | Decimal.D8 l => dec_value l (10 * acc + 8)
  | Decimal.D9 l => dec_value l (10 * acc + 9)
  end.

(* ===================================================================== *)
(** ** More concrete data *)
(* ===================================================================== *)

(** The directory [testing] with a stray copy whose name is not a
    number. *)
Definition demo_untidy_filesystem : FileSystem :=
  {| os_listdir := fun path =>
       if String.eqb path "testing" then
         Ok ["01010056.mseed"; "copy.mseed"; "01020312.mseed"]
       else Raise (OSError ("No such file or directory: " ++ path)%string);
     obspy_read := demo_read |}.

(** A stored feature matrix beside the waveforms of [testing]. *)
Definition demo_npy : Inference.NpyFiles :=
  {| Inference.np_load := fun path =>
       if String.eqb path "testing/wavelet_features.npy" then
         Ok [[1; 2]; [3; 4]]%float
       else Raise (OSError ("No such file or directory: " ++ path)%string) |}.

(** A disk as the list of the paths of its files; moving a file that is
    not there raises. *)
Definition demo_shutil : Organize.Shutil :=
  {| Organize.Disk := list string;
     Organize.os_path_exists := fun path d => existsb (String.eqb path) d;
     Organize.shutil_move := fun src dst d =>
       if existsb (String.eqb src) d then
         (Ok tt, dst :: filter (fun path => negb (String.eqb path src)) d)
       else
         (Raise (OSError ("No such file or directory: " ++ src)%string), d) |}.

Definition demo_disk : list string :=
  [ "filtered/01062222.mseed"; "filtered/01220330.mseed";
    "filtered/04301304.mseed" ].

Definition demo_train_set : list string := ["01062222"; "04190209"; "04301304"].

Definition demo_store (d : list string) (out : list string)
  : Organize.Store (shutil := demo_shutil) :=
  {| Organize.disk := d : Organize.Disk (Shutil := demo_shutil);
     Organize.stdout := out |}.

Definition demo_moved_disk : list string :=
  [ "training/04301304.mseed"; "training/01062222.mseed";
    "filtered/01220330.mseed" ].

Definition demo_moved_lines : list string :=
  [ "Moved filtered/01062222.mseed to training/01062222.mseed";
    "File filtered/04190209.mseed does not exist";
    "Moved filtered/04301304.mseed to training/04301304.mseed" ].

(** The two waveforms of [testing], as the table of an inference run and
    as the traces read for it. *)
Definition demo_inference_files : list string :=
  ["01010056.mseed"; "01020312.mseed"].

Definition demo_traces : list Trace :=
  [ {| tr_data := [1; 2; 3; 4; 5; 6; 7; 8]%float;
       tr_starttime := 1704088560%float |};
    {| tr_data := [0.5; -0.5; 0.25]%float;
       tr_starttime := 1704183120%float |} ].

(** Outputs can be written under [features], the only directory there
    is to write to. *)
Definition demo_writable (path : string) : result unit :=
  if startswith path "features/" then Ok tt
  else Raise (OSError
    ("Cannot save file into a non-existent directory: " ++ path)%string).

Definition demo_output : Catalogue.Output :=
  {| Catalogue.csv_writable := demo_writable;
     Catalogue.npy_writable := demo_writable |}.

Definition demo_catalogue_match (upcast : bool) (output_path : string)
  : result Matching.Frame * Matching.Store :=
  CatalogueMatching.match_arrival_times (filesystem := demo_filesystem)
    (builtins := Reference.builtins) (output := demo_output)
    upcast "testing" demo_catalogue output_path.

(* ===================================================================== *)
(** * Part II: the proofs *)
(* ===================================================================== *)

(* ===================================================================== *)
(** ** Strings and paths on examples *)
(* ===================================================================== *)

Example replace_mseed : replace "01011426.mseed" ".mseed" "" = "01011426".
Proof. reflexivity. Qed.

Example replace_twice : replace "a.mseed.mseed" ".mseed" "" = "a".
Proof. reflexivity. Qed.

Example join_dir_file :
  os_path_join "data/testing" "01011426.mseed" = "data/testing/01011426.mseed".
Proof. reflexivity. Qed.

Example slice_month_day :
  slice "01011426" 0 2 = "01" /\ slice "01011426" 6 8 = "26"
  /\ slice "0101" 6 8 = "".
Proof. repeat split. Qed.

(* ===================================================================== *)
(** ** Signal length fixing *)
(* ===================================================================== *)

Example pad_or_trim_to_pads :
  pad_or_trim_to 0%Z 5 [3; -1; 4]%Z = [3; -1; 4; 0; 0]%Z.
Proof. reflexivity. Qed.

Example pad_or_trim_to_trims :
  pad_or_trim_to 0%Z 2 [3; -1; 4]%Z = [3; -1]%Z.
Proof. reflexivity. Qed.

Example pad_or_trim_short_signal :
  pad_or_trim 0%float [1.5; -2]%float
  = ([1.5; -2] ++ repeat 0 7998)%float.
Proof. reflexivity. Qed.

Lemma pad_or_trim_to_length {A : Type} (zero : A) (L : nat)
    (signal : list A) :
  length (pad_or_trim_to zero L signal) = L.
Proof.
  unfold pad_or_trim_to, np_pad_right.
  destruct (L <? length signal) eqn:Hlong.
  - apply Nat.ltb_lt in Hlong. rewrite length_firstn. lia.
  - apply Nat.ltb_ge in Hlong.
    destruct (length signal <? L) eqn:Hshort.
    + apply Nat.ltb_lt in Hshort.
      rewrite length_app, repeat_length. lia.
    + apply Nat.ltb_ge in Hshort. lia.
Qed.

Lemma pad_or_trim_to_exact {A : Type} (zero : A) (L : nat)
    (signal : list A) :
  length signal = L -> pad_or_trim_to zero L signal = signal.
Proof.
  intros <-. unfold pad_or_trim_to. now rewrite Nat.ltb_irrefl.
Qed.

(** Claim C6.  For every amplitude sequence the length-fixing step returns
    exactly 8000 samples: a longer input is cut down to its first 8000
    samples (the slice [signal[:8000]], which keeps the start of the
    recording), a shorter one is followed by zeros up to 8000, and an input
    of exactly 8000 samples is returned unchanged. *)
Theorem pad_or_trim_fixed_length :
  forall (A : Type) (zero : A) (signal : list A),
    length (pad_or_trim zero signal) = 8000
    /\ (8000 < length signal ->
        pad_or_trim zero signal = firstn 8000 signal)
    /\ (length signal < 8000 ->
        pad_or_trim zero signal
        = signal ++ repeat zero (8000 - length signal))
    /\ (length signal = 8000 -> pad_or_trim zero signal = signal).
Proof.
  intros A zero signal. unfold pad_or_trim.
  change default_target_length with 8000.
  generalize 8000 as L. intro L.
  split; [apply pad_or_trim_to_length|].
  unfold pad_or_trim_to, np_pad_right.
  repeat split.
  - intros Hlong. apply Nat.ltb_lt in Hlong. now rewrite Hlong.
  - intros Hshort.
    assert (Hnl : (L <? length signal) = false) by (apply Nat.ltb_ge; lia).
    apply Nat.ltb_lt in Hshort. now rewrite Hnl, Hshort.
  - intros <-. now rewrite Nat.ltb_irrefl.
Qed.

(** Claim C7.  The length-fixing step is idempotent: fixing the length of an
    already fixed signal changes nothing. *)
Theorem pad_or_trim_idempotent :
  forall (A : Type) (zero : A) (signal : list A),
    pad_or_trim zero (pad_or_trim zero signal) = pad_or_trim zero signal.
Proof.
  intros A zero signal. unfold pad_or_trim.
  apply pad_or_trim_to_exact, pad_or_trim_to_length.
Qed.

(* ===================================================================== *)
(** ** Wavelet feature extraction *)
(* ===================================================================== *)

Section ExtractionProofs.

Context {numerics : Numerics} {pywt : PyWavelets} {filesystem : FileSystem}.

(** *** The decomposition yields [level + 1] non-empty bands *)

Lemma dwt_coeff_len_pos (w : Wavelet) (n : nat) :
  2 <= dec_len w -> 1 <= n -> 1 <= dwt_coeff_len w n.
Proof.
  intros Hw Hn. unfold dwt_coeff_len.
  apply (Nat.div_le_lower_bound _ 2 1); lia.
Qed.

Lemma nonempty_length {A : Type} (a : list A) : a <> [] <-> 1 <= length a.
Proof.
  destruct a; simpl; split; intros H; try congruence; try lia.
Qed.

Lemma wavedec_loop_bands (w : Wavelet) :
  wavelet_sized w ->
  forall level a coeffs_list,
    a <> [] ->
    Forall (fun c => c <> []) coeffs_list ->
    exists a' cl,
      wavedec_loop w level a coeffs_list = Ok (a', cl)
      /\ a' <> []
      /\ Forall (fun c => c <> []) cl
      /\ length cl = length coeffs_list + level.
Proof.
  intros [Htaps Hlen]. induction level as [|level IH]; intros a cl Ha Hcl.
  - exists a, cl. simpl. repeat split; auto.
  - simpl. unfold pywt_dwt.
    destruct a as [|x a]; [congruence|]. simpl.
    destruct (Hlen (x :: a) Ha) as [Hfst Hsnd].
    assert (Hpos : 1 <= dwt_coeff_len w (length (x :: a))).
    { apply dwt_coeff_len_pos; [assumption|simpl; lia]. }
    destruct (IH (fst (dwt_single w (x :: a)))
                 (cl ++ [snd (dwt_single w (x :: a))])) as (a' & cl' & E & Ha' & Hcl' & Hn).
    + apply nonempty_length. lia.
    + apply Forall_app. split; [assumption|].
      constructor; [|constructor]. apply nonempty_length. lia.
    + exists a', cl'. repeat split; auto.
      rewrite Hn, length_app. simpl. lia.
Qed.

Lemma wavedec_bands (w : Wavelet) (level : nat) (data : list float) :
  wavelet_sized w -> 1 <= length data ->
  exists coeffs,
    wavedec data w level = Ok coeffs
    /\ Forall (fun c => c <> []) coeffs
    /\ length coeffs = level + 1.
Proof.
  intros Hw Hdata. unfold wavedec.
  destruct (wavedec_loop_bands w Hw level data [])
    as (a & cl & E & Ha & Hcl & Hn).
  - now apply nonempty_length.
  - constructor.
  - rewrite E. simpl. eexists. split; [reflexivity|]. split.
    + apply Forall_rev, Forall_app. split; [assumption|]. now constructor.
    + rewrite length_rev, length_app, Hn. simpl. lia.
Qed.

(** *** Twelve numbers per band *)

Lemma band_features_length (coef : list float) :
  coef <> [] ->
  exists fs, band_features coef = Ok fs /\ length fs = 12.
Proof.
  intros Hne. destruct coef as [|x coef]; [congruence|].
  unfold band_features. simpl. eexists. split; reflexivity.
Qed.

Lemma extend_features_length (coeffs : list (list float)) :
  Forall (fun c => c <> []) coeffs ->
  forall features,
  exists fs,
    extend_features coeffs features = Ok fs
    /\ length fs = length features + 12 * length coeffs.
Proof.
  induction 1 as [|coef coeffs Hc _ IH]; intros features.
  - exists features. simpl. split; [reflexivity|lia].
  - destruct (band_features_length coef Hc) as (fs & E & Hfs).
    simpl. rewrite E. simpl.
    destruct (IH (features ++ fs)) as (out & Eout & Hout).
    exists out. split; [assumption|].
    rewrite Hout, length_app, Hfs. lia.
Qed.

(** The length of the feature vector, for any wavelet and level. *)
Lemma extract_wavelet_features_length (w : Wavelet) (level : nat)
    (signal : list float) :
  wavelet_sized w -> 1 <= length signal ->
  exists features,
    extract_wavelet_features signal w level = Ok features
    /\ length features = 12 * (level + 1).
Proof.
  intros Hw Hsig. unfold extract_wavelet_features.
  destruct (wavedec_bands w level signal Hw Hsig) as (coeffs & E & Hne & Hn).
  rewrite E. simpl.
  destruct (extend_features_length coeffs Hne []) as (fs & Efs & Hfs).
  exists fs. split; [assumption|]. rewrite Hfs, Hn. simpl. lia.
Qed.

(** *** Bands of zeros *)

Lemma np_abs_zeros (k : nat) : np_abs (repeat 0%float k) = repeat 0%float k.
Proof. unfold np_abs. now rewrite map_repeat. Qed.

Lemma special_entr_nan : special_entr nan = nan.
Proof. reflexivity. Qed.

(** The entropy of a band of zeros: the sum is zero, every normalised
    entry is [0/0], and the sum of their [entr] is a NaN. *)
Lemma stats_entropy_zeros (k : nat) :
  sum_of_constants -> 1 <= k ->
  stats_entropy (np_abs (repeat 0%float k)) = nan.
Proof.
  intros [Hzero Hnan] Hk. rewrite np_abs_zeros. unfold stats_entropy.
  rewrite Hzero, map_repeat.
  change (1 * 0 / 0)%float with nan.
  rewrite map_repeat, special_entr_nan. now apply Hnan.
Qed.

Lemma band_features_zeros (c : list float) :
  sum_of_constants -> zero_band c ->
  exists fs,
    band_features c = Ok fs /\ length fs = 12 /\ nth 10 fs 0%float = nan.
Proof.
  intros Hsum (k & Hk & ->).
  pose proof (stats_entropy_zeros k Hsum Hk) as Hent.
  destruct k as [|k]; [lia|].
  unfold band_features, percentile, np_max, np_min. cbn [repeat Py.rbind].
  eexists. split; [reflexivity|]. split; [reflexivity|]. exact Hent.
Qed.

Lemma wavedec_loop_zeros (w : Wavelet) :
  wavelet_sized w -> wavelet_zero_preserving w ->
  forall level a coeffs_list,
    zero_band a ->
    Forall zero_band coeffs_list ->
    exists a' cl,
      wavedec_loop w level a coeffs_list = Ok (a', cl)
      /\ zero_band a'
      /\ Forall zero_band cl
      /\ length cl = length coeffs_list + level.
Proof.
  intros [Htaps _] Hzero. induction level as [|level IH]; intros a cl Ha Hcl.
  - exists a, cl. simpl. repeat split; auto.
  - destruct Ha as (n & Hn & ->).
    assert (Hm : 1 <= dwt_coeff_len w n) by now apply dwt_coeff_len_pos.
    assert (Hband : zero_band (repeat 0%float (dwt_coeff_len w n))).
    { now exists (dwt_coeff_len w n). }
    assert (E : pywt_dwt w (repeat 0%float n)
                = Ok (repeat 0%float (dwt_coeff_len w n),
                      repeat 0%float (dwt_coeff_len w n))).
    { unfold pywt_dwt. rewrite (Hzero n Hn).
      destruct n; [lia|reflexivity]. }
    cbn [wavedec_loop]. rewrite E. cbn [Py.rbind fst snd].
    destruct (IH (repeat 0%float (dwt_coeff_len w n))
                 (cl ++ [repeat 0%float (dwt_coeff_len w n)]))
      as (a' & cl' & E' & Ha' & Hcl' & Hlen); auto.
    + apply Forall_app. split; [assumption|]. now constructor.
    + exists a', cl'. repeat split; auto.
      rewrite Hlen, length_app. simpl. lia.
Qed.

Lemma wavedec_zeros (w : Wavelet) (level n : nat) :
  wavelet_sized w -> wavelet_zero_preserving w -> 1 <= n ->
  exists coeffs,
    wavedec (repeat 0%float n) w level = Ok coeffs
    /\ Forall zero_band coeffs
    /\ length coeffs = level + 1.
Proof.
  intros Hw Hz Hn. unfold wavedec.
  destruct (wavedec_loop_zeros w Hw Hz level (repeat 0%float n) [])
    as (a & cl & E & Ha & Hcl & Hlen).
  - now exists n.
  - constructor.
  - rewrite E. simpl. eexists. split; [reflexivity|]. split.
    + apply Forall_rev, Forall_app. split; [assumption|]. now constructor.
    + rewrite length_rev, length_app, Hlen. simpl. lia.
Qed.

(** In the vector built from bands of zeros the eleventh statistic of
    every band, the entropy, is a NaN. *)
Lemma extend_features_zeros (coeffs : list (list float)) :
  sum_of_constants ->
  Forall zero_band coeffs ->
  forall features,
  exists fs,
    extend_features coeffs features = Ok fs
    /\ length fs = length features + 12 * length coeffs
    /\ (forall i, i < length features ->
          nth i fs 0%float = nth i features 0%float)
    /\ (forall band, band < length coeffs ->
          nth (length features + 12 * band + 10) fs 0%float = nan).
Proof.
  intros Hsum. induction 1 as [|coef coeffs Hc _ IH]; intros features.
  - exists features. simpl. repeat split; auto; intros; lia.
  - destruct (band_features_zeros coef Hsum Hc) as (fc & E & Hfc & Hent).
    cbn [extend_features]. rewrite E. cbn [Py.rbind].
    destruct (IH (features ++ fc)) as (fs & Efs & Hlen & Hkeep & Hnan).
    rewrite length_app, Hfc in Hlen, Hkeep, Hnan.
    exists fs. split; [assumption|]. split; [simpl; lia|]. split.
    + intros i Hi. rewrite Hkeep by lia. now apply app_nth1.
    + intros [|band] Hband.
      * rewrite Hkeep by lia.
        replace (length features + 12 * 0 + 10) with (length features + 10) by lia.
        now rewrite app_nth2_plus.
      * replace (length features + 12 * S band + 10)
          with (length features + 12 + 12 * band + 10) by lia.
        apply Hnan. simpl in Hband. lia.
Qed.

(** Claim C1.  Under the reference configuration (the db4 wavelet, four
    decomposition levels) the extractor returns, for every waveform of at
    least one sample, a feature vector of exactly 12 x (4 + 1) = 60
    numbers. *)
Theorem extract_wavelet_features_reference_length :
  wavelet_sized db4 ->
  forall signal : list float,
    1 <= length signal ->
    exists features,
      extract_wavelet_features signal db4 4 = Ok features
      /\ length features = 12 * (4 + 1)
      /\ length features = 60.
Proof.
  intros Hw signal Hsig.
  destruct (extract_wavelet_features_length db4 4 signal Hw Hsig)
    as (features & E & Hlen).
  exists features. repeat split; assumption.
Qed.

(** Claim C2, as the code has it.  For a waveform of zeros the extractor
    raises nothing and returns its 60 numbers, but the Shannon entropy of
    each of the five bands, the statistic at position 10 of the band, is
    a NaN and not 0: [scipy.stats.entropy] divides the band by its sum,
    which is zero.  No band with elements, degenerate or not, makes the
    extractor raise: each yields its twelve statistics. *)
Theorem zero_waveform_entropy_is_nan :
  wavelet_sized db4 -> wavelet_zero_preserving db4 -> sum_of_constants ->
  (forall n : nat,
     1 <= n ->
     exists features,
       extract_wavelet_features (repeat 0%float n) db4 4 = Ok features
       /\ length features = 60
       /\ forall band, band < 5 ->
            nth (12 * band + 10) features 0%float = nan)
  /\ (forall coef : list float,
        coef <> [] ->
        exists fs, band_features coef = Ok fs /\ length fs = 12).
Proof.
  intros Hw Hz Hsum. split; [|exact band_features_length].
  intros n Hn. unfold extract_wavelet_features.
  destruct (wavedec_zeros db4 4 n Hw Hz Hn) as (coeffs & E & Hbands & Hlen).
  rewrite E. cbn [Py.rbind].
  destruct (extend_features_zeros coeffs Hsum Hbands [])
    as (fs & Efs & Hfs & _ & Hnan).
  exists fs. split; [assumption|]. split.
  - rewrite Hfs, Hlen. reflexivity.
  - intros band Hband. apply (Hnan band). lia.
Qed.

(* --------------------------------------------------------------------- *)
(** *** Batch extraction: the loop appends exactly the outcomes, in order *)
(* --------------------------------------------------------------------- *)

Lemma extract_wavelet_features_ok_length (w : Wavelet) (level : nat)
    (signal features : list float) :
  wavelet_sized w ->
  extract_wavelet_features signal w level = Ok features ->
  length features = 12 * (level + 1).
Proof.
  intros Hw E. destruct signal as [|x signal].
  - destruct level; discriminate E.
  - destruct (extract_wavelet_features_length w level (x :: signal) Hw)
      as (f & Ef & Hf); [simpl; lia|].
    congruence.
Qed.

Lemma outcomes_cons (data_path : string) (row : LabelRow)
    (rows : list LabelRow) :
  outcomes data_path (row :: rows)
  = outcomes data_path [row] ++ outcomes data_path rows.
Proof. unfold outcomes. simpl. now rewrite app_nil_r. Qed.

Lemma outcomes_In (data_path : string) (arrivals_df : list LabelRow)
    (row : LabelRow) (f : list float) :
  In (row, f) (outcomes data_path arrivals_df)
  <-> In row arrivals_df /\ row_features data_path row = Ok f.
Proof.
  unfold outcomes. rewrite in_flat_map. split.
  - intros (r & Hr & Hin).
    destruct (row_features data_path r) as [g|e] eqn:E; simpl in Hin.
    + destruct Hin as [Heq|[]]. inversion Heq; subst. auto.
    + contradiction.
  - intros [Hr E]. exists row. split; [assumption|].
    rewrite E. now left.
Qed.

Lemma outcomes_rows (data_path : string) (arrivals_df : list LabelRow) :
  map fst (outcomes data_path arrivals_df)
  = filter (processed data_path) arrivals_df.
Proof.
  induction arrivals_df as [|row rows IH]; [reflexivity|].
  rewrite outcomes_cons, map_app, IH. unfold outcomes, processed. simpl.
  destruct (row_features data_path row); reflexivity.
Qed.

Lemma outcomes_features_length (data_path : string)
    (arrivals_df : list LabelRow) :
  wavelet_sized db4 ->
  Forall (fun f => length f = 60) (map snd (outcomes data_path arrivals_df)).
Proof.
  intros Hw. apply Forall_forall. intros f Hf.
  apply in_map_iff in Hf. destruct Hf as ([row g] & <- & Hin).
  apply outcomes_In in Hin. destruct Hin as [_ E].
  unfold row_features in E.
  destruct (obspy_read _) as [st|]; cbn [Py.rbind] in E; [|discriminate E].
  destruct (stream_first st) as [tr|]; cbn [Py.rbind] in E; [|discriminate E].
  now apply (extract_wavelet_features_ok_length db4 4) in E.
Qed.

Lemma process_row_run (data_path : string) (row : LabelRow) (s : BatchStore) :
  exists s',
    process_row data_path row s = (Ok tt, s')
    /\ features_list s'
       = features_list s ++ map snd (outcomes data_path [row])
    /\ arrival_times s'
       = arrival_times s
         ++ map (fun rf => arrival_time (fst rf)) (outcomes data_path [row])
    /\ file_names s'
       = file_names s ++ map (fun rf => file (fst rf)) (outcomes data_path [row]).
Proof.
  unfold process_row, outcomes, row_features, Py.try_except, Py.bind, Py.lift.
  cbn [flat_map].
  destruct (obspy_read (os_path_join data_path (file row))) as [st|e];
    cbn [Py.rbind].
  - destruct (stream_first st) as [tr|e]; cbn [Py.rbind].
    + destruct (extract_wavelet_features (tr_data tr) db4 4) as [f|e].
      * eexists. split; [reflexivity|]. simpl. repeat split.
      * eexists. split; [reflexivity|]. simpl.
        now rewrite !app_nil_r.
    + eexists. split; [reflexivity|]. simpl. now rewrite !app_nil_r.
  - eexists. split; [reflexivity|]. simpl. now rewrite !app_nil_r.
Qed.

Lemma process_rows_run (data_path : string) (arrivals_df : list LabelRow) :
  forall s,
  exists s',
    Py.for_each arrivals_df (process_row data_path) s = (Ok tt, s')
    /\ features_list s'
       = features_list s ++ map snd (outcomes data_path arrivals_df)
    /\ arrival_times s'
       = arrival_times s
         ++ map (fun rf => arrival_time (fst rf)) (outcomes data_path arrivals_df)
    /\ file_names s'
       = file_names s
         ++ map (fun rf => file (fst rf)) (outcomes data_path arrivals_df).
Proof.
  induction arrivals_df as [|row rows IH]; intros s.
  - exists s. simpl. now rewrite !app_nil_r.
  - destruct (process_row_run data_path row s) as (s1 & E1 & Hf1 & Ha1 & Hn1).
    destruct (IH s1) as (s2 & E2 & Hf2 & Ha2 & Hn2).
    exists s2. split.
    + cbn [Py.for_each]. unfold Py.bind at 1. now rewrite E1.
    + rewrite outcomes_cons, !map_app, !app_assoc.
      rewrite <- Hf1, <- Ha1, <- Hn1. auto.
Qed.

Lemma np_array_2d_uniform (k : nat) (rows : list (list float)) :
  Forall (fun f => length f = k) rows -> np_array_2d rows = Ok rows.
Proof.
  intros H. destruct rows as [|r rs]; [reflexivity|].
  inversion H as [|? ? Hr Hrs]; subst. unfold np_array_2d.
  replace (forallb _ rs) with true; [reflexivity|].
  symmetry. apply forallb_forall. intros x Hx.
  rewrite Forall_forall in Hrs. apply Nat.eqb_eq. now rewrite (Hrs x Hx).
Qed.

(** The three arrays the batch returns, read off the outcomes. *)
Lemma process_seismic_files_run (data_path : string)
    (arrivals_df : list LabelRow) :
  wavelet_sized db4 ->
  fst (process_seismic_files data_path arrivals_df)
  = Ok (map snd (outcomes data_path arrivals_df),
        map (fun rf => arrival_time (fst rf)) (outcomes data_path arrivals_df),
        map (fun rf => file (fst rf)) (outcomes data_path arrivals_df)).
Proof.
  intros Hw. unfold process_seismic_files.
  unfold Py.bind at 1. cbn [print Py.modify].
  set (s0 := {| features_list := _ |}).
  destruct (process_rows_run data_path arrivals_df s0)
    as (s' & E & Hf & Ha & Hn).
  unfold Py.bind at 1. rewrite E.
  unfold Py.bind, Py.get, Py.lift, Py.ret.
  subst s0. simpl in Hf, Ha, Hn. rewrite Hf, Ha, Hn.
  rewrite (np_array_2d_uniform 60); [reflexivity|].
  now apply outcomes_features_length.
Qed.

Lemma Forall2_fst_snd {A B : Type} (R : A -> B -> Prop) (l : list (A * B)) :
  (forall p, In p l -> R (fst p) (snd p)) ->
  Forall2 R (map fst l) (map snd l).
Proof.
  induction l as [|p l IH]; intros H; simpl; constructor.
  - apply H. now left.
  - apply IH. intros q Hq. apply H. now right.
Qed.

Lemma outcomes_app (data_path : string) (df1 df2 : list LabelRow) :
  outcomes data_path (df1 ++ df2)
  = outcomes data_path df1 ++ outcomes data_path df2.
Proof. unfold outcomes. apply flat_map_app. Qed.

(** A row that cannot be processed leaves no trace in the outcomes. *)
Lemma outcomes_skip (data_path : string) (before after : list LabelRow)
    (row : LabelRow) (e : exn) :
  row_features data_path row = Raise e ->
  outcomes data_path (before ++ row :: after)
  = outcomes data_path (before ++ after).
Proof.
  intros Hrow. rewrite !outcomes_app, (outcomes_cons data_path row after).
  unfold outcomes at 2. cbn [flat_map]. now rewrite Hrow.
Qed.

(** Claim C3.  Whatever the reader does on each file, the batch is not
    aborted: it returns its three arrays.  They have the same length, and
    at every index the file name, the arrival time and the feature vector
    come from one and the same row of the table, a row whose file was read
    and processed.  No failure costs another row its place: every row that
    can be processed is in the arrays, whatever happened to the rows before
    it, so the arrays have as many entries as the table has rows that can
    be processed; and a row that fails is skipped, the batch returning what
    it returns for the table without that row. *)
Theorem process_seismic_files_aligned :
  wavelet_sized db4 ->
  forall (data_path : string) (arrivals_df : list LabelRow),
  exists X y files,
    fst (process_seismic_files data_path arrivals_df) = Ok (X, y, files)
    /\ length X = length files
    /\ length y = length files
    /\ (forall i f,
          nth_error files i = Some f ->
          exists row features,
            In row arrivals_df
            /\ file row = f
            /\ row_features data_path row = Ok features
            /\ nth_error y i = Some (arrival_time row)
            /\ nth_error X i = Some features)
    /\ (forall row features,
          In row arrivals_df ->
          row_features data_path row = Ok features ->
          exists i,
            nth_error files i = Some (file row)
            /\ nth_error y i = Some (arrival_time row)
            /\ nth_error X i = Some features)
    /\ length files = length (filter (processed data_path) arrivals_df)
    /\ (forall before row after e,
          arrivals_df = before ++ row :: after ->
          row_features data_path row = Raise e ->
          fst (process_seismic_files data_path (before ++ after))
          = Ok (X, y, files)).
Proof.
  intros Hw data_path arrivals_df.
  do 3 eexists. split; [now apply process_seismic_files_run|].
  rewrite !length_map. split; [reflexivity|]. split; [reflexivity|].
  split; [|split; [|split]].
  - intros i f Hi. rewrite nth_error_map in Hi. rewrite !nth_error_map.
    destruct (nth_error (outcomes data_path arrivals_df) i)
      as [[row g]|] eqn:E; [|discriminate].
    simpl in Hi. injection Hi as <-.
    apply nth_error_In, outcomes_In in E. destruct E as [Hin Hrow].
    exists row, g. simpl. auto.
  - intros row features Hin Hrow.
    assert (Hout : In (row, features) (outcomes data_path arrivals_df))
      by now apply outcomes_In.
    apply In_nth_error in Hout as (i & Hi). exists i.
    rewrite !nth_error_map, Hi. repeat split.
  - rewrite <- (length_map fst), outcomes_rows. reflexivity.
  - intros before row after e -> Hrow.
    rewrite (process_seismic_files_run data_path (before ++ after) Hw).
    now rewrite (outcomes_skip data_path before after row e Hrow).
Qed.

(** Claim C10.  The rows that are processed appear in the three returned
    arrays in the order of the label table: the outputs are read off the
    table with the skipped rows filtered out and nothing moved. *)
Theorem process_seismic_files_keeps_table_order :
  wavelet_sized db4 ->
  forall (data_path : string) (arrivals_df : list LabelRow),
  exists X y files,
    fst (process_seismic_files data_path arrivals_df) = Ok (X, y, files)
    /\ files = map file (filter (processed data_path) arrivals_df)
    /\ y = map arrival_time (filter (processed data_path) arrivals_df)
    /\ Forall2 (fun row features => row_features data_path row = Ok features)
         (filter (processed data_path) arrivals_df) X.
Proof.
  intros Hw data_path arrivals_df.
  do 3 eexists. split; [now apply process_seismic_files_run|].
  rewrite <- outcomes_rows, !map_map. repeat split.
  apply Forall2_fst_snd. intros [row f] Hin.
  now apply outcomes_In in Hin.
Qed.

End ExtractionProofs.

(* ===================================================================== *)
(** ** Arrival-time matching *)
(* ===================================================================== *)

Section MatchingProofs.

Import Matching.

Context {filesystem : FileSystem} {builtins : Builtins}.

Lemma match_arrival_times_matched (directory_path output_path : string)
    (df : list PickRow) :
  match_arrival_times directory_path df output_path
  = match os_listdir directory_path with
    | Ok files =>
        match mseed_numbers files [] with
        | Ok mseed_files =>
            emit_matched directory_path output_path
              (filter (isin mseed_files) df)
        | Raise e => (Raise e, empty_store)
        end
    | Raise e => (Raise e, empty_store)
    end.
Proof.
  unfold match_arrival_times, emit_matched, Py.bind, Py.lift.
  destruct (os_listdir directory_path) as [files|e]; [|reflexivity].
  destruct (mseed_numbers files []); reflexivity.
Qed.

(** *** The numbers kept are numbers of files of the directory *)

Lemma mseed_numbers_In (files : list string) :
  forall mseed_files numbers,
    mseed_numbers files mseed_files = Ok numbers ->
    forall z, In z numbers ->
      In z mseed_files
      \/ exists file,
           In file files
           /\ endswith file ".mseed" = true
           /\ py_int (replace file ".mseed" "") = Ok z.
Proof.
  induction files as [|file files IH]; intros acc numbers E z Hz.
  - simpl in E. injection E as <-. now left.
  - cbn [mseed_numbers] in E.
    destruct (endswith file ".mseed") eqn:Hsuffix.
    + destruct (py_int (replace file ".mseed" "")) as [n|e] eqn:Hint;
        cbn [Py.rbind] in E; [|discriminate E].
      destruct (IH _ _ E z Hz) as [Hacc|(f & Hf & Hs & Hi)].
      * apply in_app_or in Hacc. destruct Hacc as [Hacc|[<-|[]]].
        -- now left.
        -- right. exists file. split; [now left|]. now split.
      * right. exists f. split; [now right|]. now split.
    + destruct (IH _ _ E z Hz) as [Hacc|(f & Hf & Hs & Hi)].
      * now left.
      * right. exists f. split; [now right|]. now split.
Qed.

Lemma isin_has_waveform (directory_path : string) (files : list string)
    (numbers : list Z) (row : PickRow) :
  os_listdir directory_path = Ok files ->
  mseed_numbers files [] = Ok numbers ->
  isin numbers row = true ->
  has_waveform directory_path row.
Proof.
  intros Hdir Hnum Hin. unfold isin in Hin.
  apply existsb_exists in Hin. destruct Hin as (z & Hz & Heq).
  apply Z.eqb_eq in Heq. subst z.
  destruct (mseed_numbers_In files [] numbers Hnum _ Hz)
    as [[]|(file & Hf & Hs & Hi)].
  exists files, file. auto.
Qed.

(** *** The loop appends exactly the picks, in order *)

Lemma picks_cons (directory_path : string) (row : PickRow)
    (rows : list PickRow) :
  picks directory_path (row :: rows)
  = pick directory_path row ++ picks directory_path rows.
Proof. reflexivity. Qed.

Lemma picks_In (directory_path : string) (rows : list PickRow)
    (f : string) (t : float) :
  In (f, t) (picks directory_path rows) ->
  exists row st tr,
    In row rows
    /\ f = (format_08d (archivo row) ++ ".mseed")%string
    /\ obspy_read (os_path_join directory_path f) = Ok st
    /\ stream_first st = Ok tr
    /\ t = (lec_p row - tr_starttime tr)%float.
Proof.
  unfold picks. rewrite in_flat_map. intros (row & Hrow & Hin).
  unfold pick in Hin.
  destruct (obspy_read _) as [st|e] eqn:Hread; cbn [Py.rbind] in Hin;
    [|contradiction].
  destruct (stream_first st) as [tr|e] eqn:Hfirst; [|contradiction].
  destruct Hin as [Heq|[]]. injection Heq as <- <-.
  exists row, st, tr. auto.
Qed.

Lemma match_row_run (directory_path : string) (row : PickRow) (s : Store) :
  exists s',
    match_row directory_path row s = (Ok tt, s')
    /\ filenames s' = filenames s ++ map fst (pick directory_path row)
    /\ arrival_times s'
       = arrival_times s ++ map snd (pick directory_path row).
Proof.
  unfold match_row, pick, Py.try_except, Py.bind, Py.lift.
  destruct (obspy_read _) as [st|e]; cbn [Py.rbind].
  - destruct (stream_first st) as [tr|e].
    + eexists. split; [reflexivity|]. simpl. split; reflexivity.
    + eexists. split; [reflexivity|]. simpl. now rewrite !app_nil_r.
  - eexists. split; [reflexivity|]. simpl. now rewrite !app_nil_r.
Qed.

Lemma match_rows_run (directory_path : string) (rows : list PickRow) :
  forall s,
  exists s',
    Py.for_each rows (match_row directory_path) s = (Ok tt, s')
    /\ filenames s' = filenames s ++ map fst (picks directory_path rows)
    /\ arrival_times s'
       = arrival_times s ++ map snd (picks directory_path rows).
Proof.
  induction rows as [|row rows IH]; intros s.
  - exists s. simpl. now rewrite !app_nil_r.
  - destruct (match_row_run directory_path row s) as (s1 & E1 & Hf1 & Ha1).
    destruct (IH s1) as (s2 & E2 & Hf2 & Ha2).
    exists s2. split.
    + cbn [Py.for_each]. unfold Py.bind at 1. now rewrite E1.
    + rewrite picks_cons, !map_app, !app_assoc, <- Hf1, <- Ha1. auto.
Qed.

Lemma data_frame_pairs (l : list (string * float)) :
  data_frame (map fst l) (map snd l) = Ok l.
Proof.
  unfold data_frame. rewrite !length_map, Nat.eqb_refl. f_equal.
  induction l as [|[f t] l IH]; simpl; congruence.
Qed.

(** The table the step returns, once the directory has been listed. *)
Lemma match_arrival_times_run (directory_path output_path : string)
    (df : list PickRow) (files : list string) (numbers : list Z) :
  os_listdir directory_path = Ok files ->
  mseed_numbers files [] = Ok numbers ->
  fst (match_arrival_times directory_path df output_path)
  = Ok (picks directory_path (filter (isin numbers) df)).
Proof.
  intros Hdir Hnum. unfold match_arrival_times.
  unfold Py.bind at 1. unfold Py.lift at 1. rewrite Hdir.
  unfold Py.bind at 1. unfold Py.lift at 1. rewrite Hnum.
  destruct (match_rows_run directory_path (filter (isin numbers) df) empty_store)
    as (s' & E & Hf & Ha).
  unfold Py.bind at 1. rewrite E.
  unfold Py.bind at 1. unfold Py.get at 1.
  unfold Py.bind at 1. unfold Py.lift at 1.
  rewrite Hf, Ha. simpl. rewrite data_frame_pairs. reflexivity.
Qed.

(** Claim C4, as the code has it.  Every label the matching step emits is
    the pick time of a catalogue row minus the window start of the
    waveform file named after that row; the step compares the label with
    nothing, so it lies between 0 and the window duration only when the
    catalogued pick lies inside the window. *)
Theorem arrival_label_is_pick_minus_start :
  forall (directory_path output_path : string) (df : list PickRow)
         (result_df : Frame),
    fst (match_arrival_times directory_path df output_path) = Ok result_df ->
    forall (f : string) (t : float),
      In (f, t) result_df ->
      exists row st tr,
        In row df
        /\ f = (format_08d (archivo row) ++ ".mseed")%string
        /\ obspy_read (os_path_join directory_path f) = Ok st
        /\ stream_first st = Ok tr
        /\ t = (lec_p row - tr_starttime tr)%float.
Proof.
  intros directory_path output_path df result_df Hrun f t Hin.
  destruct (os_listdir directory_path) as [files|e] eqn:Hdir.
  - destruct (mseed_numbers files []) as [numbers|e] eqn:Hnum.
    + rewrite (match_arrival_times_run _ _ _ _ _ Hdir Hnum) in Hrun.
      injection Hrun as <-.
      destruct (picks_In _ _ _ _ Hin) as (row & st & tr & Hrow & Hrest).
      apply filter_In in Hrow. destruct Hrow as [Hrow _].
      exists row, st, tr. auto.
    + unfold match_arrival_times, Py.bind, Py.lift in Hrun.
      rewrite Hdir, Hnum in Hrun. discriminate Hrun.
  - unfold match_arrival_times, Py.bind, Py.lift in Hrun.
    rewrite Hdir in Hrun. discriminate Hrun.
Qed.

(** Claim C8.  A catalogue row without a waveform file in the directory
    leaves no trace: the run with the row and the run without it return
    the same table, write the same CSV file and print the same lines, none
    of them an error about the row; and once the directory has been
    listed, the table returned is built from the other rows alone. *)
Theorem unmatched_row_is_dropped :
  forall (directory_path output_path : string) (pre post : list PickRow)
         (row : PickRow),
    ~ has_waveform directory_path row ->
    match_arrival_times directory_path (pre ++ row :: post) output_path
    = match_arrival_times directory_path (pre ++ post) output_path
    /\ forall files numbers,
         os_listdir directory_path = Ok files ->
         mseed_numbers files [] = Ok numbers ->
         fst (match_arrival_times directory_path (pre ++ row :: post)
                output_path)
         = Ok (picks directory_path (filter (isin numbers) (pre ++ post))).
Proof.
  intros directory_path output_path pre post row Hnone.
  assert (Hfilter : forall files numbers,
             os_listdir directory_path = Ok files ->
             mseed_numbers files [] = Ok numbers ->
             filter (isin numbers) (pre ++ row :: post)
             = filter (isin numbers) (pre ++ post)).
  { intros files numbers Hdir Hnum. rewrite !filter_app. cbn [filter].
    destruct (isin numbers row) eqn:Hin; [|reflexivity].
    exfalso. apply Hnone. eapply isin_has_waveform; eassumption. }
  split.
  - rewrite !match_arrival_times_matched.
    destruct (os_listdir directory_path) as [files|e] eqn:Hdir;
      [|reflexivity].
    destruct (mseed_numbers files []) as [numbers|e] eqn:Hnum;
      [|reflexivity].
    now rewrite (Hfilter files numbers).
  - intros files numbers Hdir Hnum.
    rewrite (match_arrival_times_run _ _ _ _ _ Hdir Hnum).
    now rewrite (Hfilter files numbers).
Qed.

End MatchingProofs.

(* ===================================================================== *)
(** ** Train/test split *)
(* ===================================================================== *)

Section SplitProofs.

Import Split.

Context {rng : RandomState}.

(** *** Indexing by a permutation keeps every row once *)

Lemma safe_indexing_in_range {A : Type} (d : A) (df : list A)
    (indices : list nat) :
  (forall i, In i indices -> i < length df) ->
  safe_indexing df indices = Ok (map (fun i => nth i df d) indices).
Proof.
  induction indices as [|i indices IH]; intros Hrange; [reflexivity|].
  cbn [safe_indexing map].
  rewrite (nth_error_nth' df d) by (apply Hrange; now left).
  rewrite IH by (intros j Hj; apply Hrange; now right).
  reflexivity.
Qed.

Lemma map_nth_seq {A : Type} (d : A) (df : list A) :
  map (fun i => nth i df d) (seq 0 (length df)) = df.
Proof.
  induction df as [|x df IH]; [reflexivity|].
  cbn [length seq map nth]. f_equal.
  rewrite <- seq_shift, map_map. exact IH.
Qed.

Lemma NoDup_app_disjoint {A : Type} (l1 l2 : list A) :
  NoDup (l1 ++ l2) -> forall x, In x l1 -> ~ In x l2.
Proof.
  induction l1 as [|a l1 IH]; intros Hnd x Hx; [contradiction|].
  inversion Hnd as [|? ? Ha Hrest]; subst. destruct Hx as [<-|Hx].
  - intros H2. apply Ha, in_or_app. now right.
  - now apply IH.
Qed.

Lemma ceil_fifth_below (n : nat) : 2 <= n -> ceil_fraction 1 5 n < n.
Proof.
  intros Hn. unfold ceil_fraction.
  apply Nat.Div0.div_lt_upper_bound. lia.
Qed.

(** The two parts of a split of at least two rows: every row of the table
    is in the training part or in the test part, as often as in the
    table. *)
Lemma train_test_split_fifth {A : Type} (df : list A) (random_state : Z) :
  shuffles -> 2 <= length df ->
  exists train test,
    train_test_split df (1, 5) random_state = Ok (train, test)
    /\ Permutation (train ++ test) df
    /\ length test = ceil_fraction 1 5 (length df).
Proof.
  intros Hperm Hn.
  destruct df as [|d df'] eqn:Hdf; [simpl in Hn; lia|]. rewrite <- Hdf in *.
  pose proof (ceil_fifth_below (length df) Hn) as Htest.
  set (n := length df) in *.
  set (p := rng_permutation random_state n).
  assert (Hp : Permutation p (seq 0 n)) by apply Hperm.
  assert (Hrange : forall i, In i p -> i < n).
  { intros i Hi. apply (Permutation_in _ Hp), in_seq in Hi. lia. }
  assert (Hlen : length p = n).
  { rewrite (Permutation_length Hp). apply length_seq. }
  unfold train_test_split, validate_shuffle_split. fold n. fold p.
  cbn [Nat.eqb Nat.leb orb].
  destruct (n - ceil_fraction 1 5 n =? 0) eqn:Hz;
    [apply Nat.eqb_eq in Hz; lia|].
  cbn [Py.rbind fst snd].
  rewrite firstn_all2 by (rewrite length_skipn; lia).
  rewrite (safe_indexing_in_range d).
  2:{ intros i Hi. apply Hrange.
      rewrite <- (firstn_skipn (ceil_fraction 1 5 n) p).
      apply in_or_app. now right. }
  rewrite (safe_indexing_in_range d).
  2:{ intros i Hi. apply Hrange.
      rewrite <- (firstn_skipn (ceil_fraction 1 5 n) p).
      apply in_or_app. now left. }
  cbn [Py.rbind]. do 2 eexists. split; [reflexivity|]. split.
  - rewrite <- map_app, <- (map_nth_seq d df) at 1. fold n.
    apply Permutation_map.
    rewrite Permutation_app_comm, firstn_skipn. exact Hp.
  - rewrite length_map, length_firstn. lia.
Qed.

(** Claim C5, as the code has it.  For a directory of at least two files
    the split returns its two parts, and they hold every row of the corpus
    exactly once: the training part followed by the test part is a
    reordering of the list of source identities, so together they are the
    whole corpus.  An identity is in both parts only if two files of the
    corpus have it; the parts are disjoint over identities when the
    identities are pairwise distinct.  (Distinct file names do not make
    them so: the extension is removed wherever it occurs in a name.  With
    fewer than two files scikit-learn raises, for the training part would
    be empty.) *)
Theorem split_dataset_partitions :
  shuffles ->
  forall files : list string,
    2 <= length files ->
    exists train test,
      split_dataset files = Ok (train, test)
      /\ Permutation (train ++ test) (source_identities files)
      /\ (forall id, In id (source_identities files)
                     <-> In id train \/ In id test)
      /\ (forall id,
            In id train -> In id test ->
            2 <= count_occ string_dec (source_identities files) id)
      /\ (NoDup (source_identities files) ->
          forall id, In id train -> ~ In id test).
Proof.
  intros Hperm files Hn. unfold split_dataset.
  destruct (train_test_split_fifth (source_identities files) 42 Hperm)
    as (train & test & E & Hall & _).
  { unfold source_identities. now rewrite length_map. }
  exists train, test. split; [assumption|]. split; [assumption|].
  split; [|split].
  - intros id. rewrite <- in_app_iff. split; intros H.
    + eapply Permutation_in; [symmetry; eassumption|assumption].
    + eapply Permutation_in; eassumption.
  - intros id Htrain Htest.
    rewrite <- (proj1 (Permutation_count_occ string_dec _ _) Hall id),
      count_occ_app.
    apply (count_occ_In string_dec) in Htrain.
    apply (count_occ_In string_dec) in Htest. lia.
  - intros Hnodup. apply NoDup_app_disjoint.
    eapply Permutation_NoDup; [symmetry; eassumption|assumption].
Qed.

End SplitProofs.

(* ===================================================================== *)
(** ** Timestamp reconstruction *)
(* ===================================================================== *)

Section ReconstructionProofs.

Import Reconstruction.

Context {builtins : Builtins} {locale : Locale}.

Lemma py_datetime_year (y mo d h mi : Z) (dt : datetime) :
  py_datetime y mo d h mi = Ok dt -> year dt = y.
Proof.
  unfold py_datetime. intros H.
  repeat match type of H with
         | (if ?c then _ else _) = _ => destruct c; [discriminate H|]
         end.
  injection H as <-. reflexivity.
Qed.

Lemma extract_datetime_year (filename : string) (dt : datetime) :
  extract_datetime filename = Ok dt -> year dt = 2024.
Proof.
  unfold extract_datetime. intros H.
  repeat match type of H with
         | Py.rbind ?r _ = _ =>
             destruct r; cbn [Py.rbind] in H; [|discriminate H]
         end.
  now apply py_datetime_year in H.
Qed.

(** Claim C9, as the code has it.  For every prediction row the absolute
    timestamp is the epoch seconds of the parsed window start plus the
    predicted relative time, and the window start is always parsed in the
    year 2024: the code is the specified reconstruction at the reference
    year 2024, a constant of the code and not an input. *)
Theorem lec_p_is_reconstruction_in_2024 :
  forall row : Prediction,
    lec_p row = reconstruct_spec 2024 row
    /\ forall t,
         lec_p row = Ok t ->
         exists start,
           extract_datetime (file row) = Ok start
           /\ year start = 2024
           /\ t = (timestamp start + predicted_time row)%float.
Proof.
  intros row. split; [reflexivity|].
  intros t H. unfold lec_p in H.
  destruct (extract_datetime (file row)) as [start|e] eqn:E;
    cbn [Py.rbind] in H; [|discriminate H].
  injection H as <-. exists start.
  split; [reflexivity|]. split; [|reflexivity].
  now apply extract_datetime_year with (filename := file row).
Qed.

End ReconstructionProofs.

(* ===================================================================== *)
(** ** The reference numerics meet the documented behaviour *)
(* ===================================================================== *)

Lemma reference_db4_sized : wavelet_sized Reference.db4_wavelet.
Proof.
  split; [simpl; lia|]. intros a _.
  unfold Reference.db4_wavelet, dwt_coeff_len, Reference.filter_down.
  cbn [dwt_single dec_len fst snd]. rewrite !length_map, !length_seq.
  split; reflexivity.
Qed.

Lemma symmetric_ext_zeros (n : nat) (i : Z) :
  Reference.symmetric_ext (repeat 0%float n) i = 0%float.
Proof. unfold Reference.symmetric_ext. apply nth_repeat. Qed.

Lemma filter_down_zeros (filter : list float) (n : nat) :
  Reference.dot filter (repeat 0%float (length filter)) = 0%float ->
  Reference.filter_down filter (repeat 0%float n)
  = repeat 0%float ((n + length filter - 1) / 2).
Proof.
  intros Hdot. unfold Reference.filter_down. rewrite repeat_length.
  erewrite map_ext.
  2:{ intros k. erewrite map_ext.
      2:{ intros j. apply symmetric_ext_zeros. }
      rewrite map_const, length_seq. exact Hdot. }
  now rewrite map_const, length_seq.
Qed.

Lemma reference_db4_zero_preserving :
  wavelet_zero_preserving Reference.db4_wavelet.
Proof.
  intros n _. unfold Reference.db4_wavelet, dwt_coeff_len.
  cbn [dwt_single dec_len].
  rewrite !filter_down_zeros by reflexivity. reflexivity.
Qed.

Lemma reference_sum_of_constants :
  sum_of_constants (numerics := Reference.numerics).
Proof.
  unfold sum_of_constants. cbn [np_sum Reference.numerics].
  unfold Reference.seq_sum. split.
  - induction n as [|n IH]; [reflexivity|]. simpl.
    change (0 + 0)%float with 0%float. exact IH.
  - intros [|n] Hn; [lia|]. simpl. change (0 + nan)%float with nan.
    clear Hn. induction n as [|n IH]; [reflexivity|]. simpl.
    change (nan + nan)%float with nan. exact IH.
Qed.

Lemma demo_rng_shuffles : Split.shuffles (rng := demo_rng).
Proof. intros seed n. symmetry. apply Permutation_rev. Qed.

(* ===================================================================== *)
(** ** The model on concrete data *)
(* ===================================================================== *)

Example demo_extract_one_sample :
  option_map (@length float)
    (match Reference.extract [1%float] with Ok f => Some f | Raise _ => None end)
  = Some 60.
Proof. vm_compute. reflexivity. Qed.

Example demo_extract_empty_raises :
  Reference.extract []
  = Raise (ValueError "Value of data_len must be greater than zero.").
Proof. reflexivity. Qed.

Example demo_batch_labels_and_files :
  exists X,
    fst demo_batch
    = Ok (X, [30.6; 29.5]%float, ["01010056.mseed"; "01020312.mseed"])
    /\ map (@length float) X = [60; 60].
Proof. eexists. split; vm_compute; reflexivity. Qed.

Example demo_batch_reports_the_missing_file :
  stdout (snd demo_batch)
  = [ "Extracting wavelet features...";
      "Error processing testing/01011111.mseed: No such file or directory: testing/01011111.mseed" ].
Proof. vm_compute. reflexivity. Qed.

Example format_08d_file : Matching.format_08d 1010056 = "01010056".
Proof. reflexivity. Qed.

Example format_08d_wide : Matching.format_08d 123456789 = "123456789".
Proof. reflexivity. Qed.

Example demo_matching_table :
  fst (demo_match demo_catalogue)
  = Ok [ ("01010056.mseed", 30.5%float); ("01020312.mseed", (-60)%float) ].
Proof. vm_compute. reflexivity. Qed.

Example demo_matching_output :
  Matching.stdout (snd (demo_match demo_catalogue))
  = ["Se guardaron 2 coincidencias en features/test_arrival_times.csv"]
  /\ Matching.written (snd (demo_match demo_catalogue))
     = [ ("features/test_arrival_times.csv",
          [ ("01010056.mseed", 30.5%float);
            ("01020312.mseed", (-60)%float) ]) ].
Proof. split; vm_compute; reflexivity. Qed.

Example demo_split_six_files :
  demo_split demo_files
  = Ok ([ "04190209"; "04301304"; "01220330"; "01062222" ],
        [ "03050711"; "02131016" ]).
Proof. vm_compute. reflexivity. Qed.

Example demo_extract_datetime :
  Reconstruction.extract_datetime (builtins := Reference.builtins)
    "01011426.mseed"
  = Ok {| Reconstruction.year := 2024; Reconstruction.month := 1;
          Reconstruction.day := 1; Reconstruction.hour := 14;
          Reconstruction.minute := 26 |}.
Proof. reflexivity. Qed.

Example demo_lec_p_value : demo_lec_p demo_prediction = Ok 1704137190.5%float.
Proof. vm_compute. reflexivity. Qed.

Example demo_reconstruct_table :
  Reconstruction.reconstruct (builtins := Reference.builtins)
    (locale := demo_locale) [demo_prediction]
  = Ok [("01011426", 1704137190.5%float)].
Proof. vm_compute. reflexivity. Qed.

Example demo_leap_day :
  exists dt,
    Reconstruction.extract_datetime (builtins := Reference.builtins)
      "02291200.mseed" = Ok dt
    /\ Reconstruction.window_start_spec (builtins := Reference.builtins)
         2025 "02291200.mseed"
       = Raise (ValueError "day is out of range for month").
Proof. eexists. split; reflexivity. Qed.

(* ===================================================================== *)
(** ** The theorems at concrete inputs *)
(* ===================================================================== *)

Lemma extract_wavelet_features_reference_length_witness :
  exists features,
    Reference.extract [1; 2; 3]%float = Ok features
    /\ length features = 12 * (4 + 1)
    /\ length features = 60.
Proof.
  apply (extract_wavelet_features_reference_length
           (numerics := Reference.numerics) (pywt := Reference.pywt)).
  - exact reference_db4_sized.
  - simpl. lia.
Defined.

Lemma zero_waveform_entropy_is_nan_witness :
  (forall n : nat,
     1 <= n ->
     exists features,
       Reference.extract (repeat 0%float n) = Ok features
       /\ length features = 60
       /\ forall band, band < 5 ->
            nth (12 * band + 10) features 0%float = nan)
  /\ (forall coef : list float,
        coef <> [] ->
        exists fs,
          band_features (numerics := Reference.numerics) coef = Ok fs
          /\ length fs = 12).
Proof.
  apply (zero_waveform_entropy_is_nan
           (numerics := Reference.numerics) (pywt := Reference.pywt)).
  - exact reference_db4_sized.
  - exact reference_db4_zero_preserving.
  - exact reference_sum_of_constants.
Defined.

(** Claim C2 fails as stated: on a waveform of sixteen zeros the extractor
    returns, and the entropy of the approximation band (position 10) is a
    NaN, an undefined value and different from 0. *)
Lemma zero_waveform_entropy_not_zero :
  exists features,
    Reference.extract (repeat 0%float 16) = Ok features
    /\ PrimFloat.is_nan (nth 10 features 0%float) = true
    /\ nth 10 features 0%float <> 0%float.
Proof.
  eexists. split; [vm_compute; reflexivity|]. split.
  - vm_compute. reflexivity.
  - intros H. apply (f_equal PrimFloat.is_nan) in H.
    vm_compute in H. discriminate H.
Qed.

Lemma process_seismic_files_aligned_witness :
  exists X y files,
    fst demo_batch = Ok (X, y, files)
    /\ length X = length files
    /\ length y = length files
    /\ (forall i f,
          nth_error files i = Some f ->
          exists row features,
            In row demo_table
            /\ file row = f
            /\ row_features (numerics := Reference.numerics)
                 (pywt := Reference.pywt) (filesystem := demo_filesystem)
                 "testing" row = Ok features
            /\ nth_error y i = Some (arrival_time row)
            /\ nth_error X i = Some features)
    /\ (forall row features,
          In row demo_table ->
          row_features (numerics := Reference.numerics)
            (pywt := Reference.pywt) (filesystem := demo_filesystem)
            "testing" row = Ok features ->
          exists i,
            nth_error files i = Some (file row)
            /\ nth_error y i = Some (arrival_time row)
            /\ nth_error X i = Some features)
    /\ length files
       = length (filter (processed (numerics := Reference.numerics)
                           (pywt := Reference.pywt)
                           (filesystem := demo_filesystem) "testing")
                        demo_table)
    /\ (forall before row after e,
          demo_table = before ++ row :: after ->
          row_features (numerics := Reference.numerics)
            (pywt := Reference.pywt) (filesystem := demo_filesystem)
            "testing" row = Raise e ->
          fst (process_seismic_files (numerics := Reference.numerics)
                 (pywt := Reference.pywt) (filesystem := demo_filesystem)
                 "testing" (before ++ after))
          = Ok (X, y, files)).
Proof.
  apply (process_seismic_files_aligned
           (numerics := Reference.numerics) (pywt := Reference.pywt)
           (filesystem := demo_filesystem)).
  exact reference_db4_sized.
Defined.

Lemma process_seismic_files_keeps_table_order_witness :
  exists X y files,
    fst demo_batch = Ok (X, y, files)
    /\ files = map file
         (filter (processed (numerics := Reference.numerics)
                    (pywt := Reference.pywt) (filesystem := demo_filesystem)
                    "testing") demo_table)
    /\ y = map arrival_time
         (filter (processed (numerics := Reference.numerics)
                    (pywt := Reference.pywt) (filesystem := demo_filesystem)
                    "testing") demo_table)
    /\ Forall2
         (fun row features =>
            row_features (numerics := Reference.numerics)
              (pywt := Reference.pywt) (filesystem := demo_filesystem)
              "testing" row = Ok features)
         (filter (processed (numerics := Reference.numerics)
                    (pywt := Reference.pywt) (filesystem := demo_filesystem)
                    "testing") demo_table) X.
Proof.
  apply (process_seismic_files_keeps_table_order
           (numerics := Reference.numerics) (pywt := Reference.pywt)
           (filesystem := demo_filesystem)).
  exact reference_db4_sized.
Defined.

Lemma arrival_label_is_pick_minus_start_witness :
  exists row st tr,
    In row demo_catalogue
    /\ "01010056.mseed"
       = (Matching.format_08d (Matching.archivo row) ++ ".mseed")%string
    /\ demo_read (os_path_join "testing" "01010056.mseed") = Ok st
    /\ stream_first st = Ok tr
    /\ 30.5%float = (Matching.lec_p row - tr_starttime tr)%float.
Proof.
  apply (arrival_label_is_pick_minus_start
           (filesystem := demo_filesystem) (builtins := Reference.builtins)
           "testing" "features/test_arrival_times.csv" demo_catalogue
           [ ("01010056.mseed", 30.5%float);
             ("01020312.mseed", (-60)%float) ]).
  - vm_compute. reflexivity.
  - left. reflexivity.
Defined.

(** Claim C4 fails as stated: the catalogue has a pick one minute before
    the start of its window, and the step emits the label -60 for it,
    which is below 0 whatever the window duration. *)
Lemma arrival_label_below_zero :
  exists result_df,
    fst (demo_match demo_catalogue) = Ok result_df
    /\ In ("01020312.mseed", (-60)%float) result_df
    /\ (-60 <? 0)%float = true.
Proof.
  eexists. split; [vm_compute; reflexivity|]. split.
  - right. left. reflexivity.
  - reflexivity.
Qed.

Lemma demo_pick_has_no_waveform :
  ~ Matching.has_waveform (filesystem := demo_filesystem)
      (builtins := Reference.builtins) "testing" demo_pick_no_file.
Proof.
  intros (files & file & Hdir & Hin & Hsuffix & Hint).
  vm_compute in Hdir. injection Hdir as <-.
  destruct Hin as [<-|[<-|[<-|[]]]];
    vm_compute in Hsuffix; vm_compute in Hint; discriminate.
Qed.

Lemma unmatched_row_is_dropped_witness :
  demo_match [demo_pick_inside; demo_pick_no_file; demo_pick_before]
  = demo_match [demo_pick_inside; demo_pick_before]
  /\ forall files numbers,
       demo_listdir "testing" = Ok files ->
       Matching.mseed_numbers (builtins := Reference.builtins) files []
       = Ok numbers ->
       fst (demo_match [demo_pick_inside; demo_pick_no_file; demo_pick_before])
       = Ok (Matching.picks (filesystem := demo_filesystem) "testing"
               (filter (Matching.isin numbers)
                       [demo_pick_inside; demo_pick_before])).
Proof.
  apply (unmatched_row_is_dropped
           (filesystem := demo_filesystem) (builtins := Reference.builtins)
           "testing" "features/test_arrival_times.csv"
           [demo_pick_inside] [demo_pick_before] demo_pick_no_file).
  exact demo_pick_has_no_waveform.
Defined.

Lemma split_dataset_partitions_witness :
  exists train test,
    demo_split demo_files = Ok (train, test)
    /\ Permutation (train ++ test) (Split.source_identities demo_files)
    /\ (forall id, In id (Split.source_identities demo_files)
                   <-> In id train \/ In id test)
    /\ (forall id,
          In id train -> In id test ->
          2 <= count_occ string_dec (Split.source_identities demo_files) id)
    /\ (NoDup (Split.source_identities demo_files) ->
        forall id, In id train -> ~ In id test).
Proof.
  apply (split_dataset_partitions (rng := demo_rng) demo_rng_shuffles
           demo_files).
  simpl. lia.
Defined.

(** Claim C5 fails as stated, twice.  A corpus of one file is not split at
    all: scikit-learn raises because the training part would be empty.
    And two files of one directory, [a.mseed] and [a], have different
    names and the same source identity [a], which the split places in the
    training part and in the test part. *)
Lemma split_dataset_fails_to_partition :
  demo_split ["01062222.mseed"]
  = Raise (ValueError "the resulting train set will be empty")
  /\ NoDup ["a.mseed"; "a"]
  /\ exists train test,
       demo_split ["a.mseed"; "a"] = Ok (train, test)
       /\ In "a" train
       /\ In "a" test.
Proof.
  split; [reflexivity|]. split.
  - constructor; [intros [H|[]]; discriminate H|].
    constructor; [intros []|constructor].
  - exists ["a"], ["a"]. split; [reflexivity|]. split; left; reflexivity.
Qed.

(** Claim C9 fails as stated: with the reference year 2025 the specified
    reconstruction of a prediction for the file 01011426 is a timestamp in
    2025, while the code has no such input and returns the timestamp in
    2024. *)
Lemma reference_year_is_not_an_input :
  demo_reconstruct_spec 2025 demo_prediction = Ok 1735759590.5%float
  /\ demo_lec_p demo_prediction = Ok 1704137190.5%float
  /\ demo_lec_p demo_prediction <> demo_reconstruct_spec 2025 demo_prediction.
Proof.
  split; [vm_compute; reflexivity|]. split; [vm_compute; reflexivity|].
  intros H.
  apply (f_equal (fun r => match r with
                           | Ok t => (t <? 1720000000)%float
                           | Raise _ => false
                           end)) in H.
  vm_compute in H. discriminate H.
Qed.

(* ===================================================================== *)
(** ** More on the extractor *)
(* ===================================================================== *)

Section ExtractionMore.

Context {numerics : Numerics} {pywt : PyWavelets} {filesystem : FileSystem}.

(** Property X1.
    A waveform without samples makes the extractor raise, whatever the
    wavelet and the level.  With one level or more the transform refuses
    the empty array with a [ValueError].  With no level at all the only
    band is the empty waveform itself, and the first statistic that cannot
    take it is [np.percentile], which raises an [IndexError]; [np.max],
    which would raise as well, is not reached. *)
Theorem extract_wavelet_features_empty_raises :
  forall w : Wavelet,
    (exists msg,
        extract_wavelet_features [] w 0 = Raise (IndexError msg)
        /\ percentile [] 75 = Raise (IndexError msg))
    /\ (forall level : nat,
          extract_wavelet_features [] w (S level)
          = Raise (ValueError "Value of data_len must be greater than zero.")).
Proof.
  intros w. split.
  - eexists. split; reflexivity.
  - intros level. reflexivity.
Qed.

Lemma band_features_stats (coef : list float) :
  coef <> [] -> band_features coef = Ok (band_stats coef).
Proof. destruct coef; [congruence|reflexivity]. Qed.

Lemma extend_features_flat_map (coeffs : list (list float)) :
  Forall (fun c => c <> []) coeffs ->
  forall features,
    extend_features coeffs features
    = Ok (features ++ flat_map band_stats coeffs).
Proof.
  induction 1 as [|coef coeffs Hc _ IH]; intros features.
  - simpl. now rewrite app_nil_r.
  - cbn [extend_features flat_map]. rewrite (band_features_stats coef Hc).
    cbn [Py.rbind]. rewrite IH. now rewrite app_assoc.
Qed.

Lemma flat_map_band_stats_length (coeffs : list (list float)) :
  length (flat_map band_stats coeffs) = 12 * length coeffs.
Proof.
  induction coeffs as [|c coeffs IH]; [reflexivity|].
  cbn [flat_map]. rewrite length_app, IH. cbn [band_stats length]. lia.
Qed.

(** Property X2.
    The feature vector for any wavelet and any number of levels: a
    waveform of at least one sample gives [level + 1] bands and
    [12 * (level + 1)] features, the bands in the order of [wavedec],
    coarsest first, and for each band its twelve statistics in the order
    of the code, so that statistic [j] of band [b] is at position
    [12 * b + j]. *)
Theorem extract_wavelet_features_layout :
  forall (w : Wavelet) (level : nat) (signal : list float),
    wavelet_sized w ->
    1 <= length signal ->
    exists coeffs features,
      wavedec signal w level = Ok coeffs
      /\ extract_wavelet_features signal w level = Ok features
      /\ length coeffs = level + 1
      /\ length features = 12 * (level + 1)
      /\ features = flat_map band_stats coeffs
      /\ forall b coef j,
           nth_error coeffs b = Some coef -> j < 12 ->
           nth_error features (12 * b + j) = nth_error (band_stats coef) j.
Proof.
  intros w level signal Hw Hsig.
  destruct (wavedec_bands w level signal Hw Hsig) as (coeffs & E & Hne & Hn).
  exists coeffs, (flat_map band_stats coeffs).
  split; [assumption|]. split.
  - unfold extract_wavelet_features. rewrite E. cbn [Py.rbind].
    now rewrite (extend_features_flat_map coeffs Hne).
  - split; [exact Hn|].
    split; [now rewrite flat_map_band_stats_length, Hn|].
    split; [reflexivity|]. clear E Hne Hn.
    induction coeffs as [|c coeffs IH]; intros b coef j Hb Hj.
    + destruct b; discriminate Hb.
    + cbn [flat_map]. destruct b as [|b].
      * injection Hb as ->. rewrite Nat.mul_0_r. cbn [Nat.add].
        apply nth_error_app1. exact Hj.
      * cbn [nth_error] in Hb.
        replace (12 * S b + j) with (12 + (12 * b + j)) by lia.
        rewrite nth_error_app2 by (cbn [band_stats length]; lia).
        replace (12 + (12 * b + j) - length (band_stats c))
          with (12 * b + j) by (cbn [band_stats length]; lia).
        now apply IH.
Qed.

Lemma wavedec_loop_sizes (w : Wavelet) :
  wavelet_sized w ->
  forall level a coeffs_list,
    a <> [] ->
    exists a' cl,
      wavedec_loop w level a coeffs_list = Ok (a', cl)
      /\ length a' = approx_len w level (length a)
      /\ map (@length float) cl
         = map (@length float) coeffs_list
           ++ map (fun k => approx_len w (S k) (length a)) (seq 0 level).
Proof.
  intros [Htaps Hlen]. induction level as [|level IH]; intros a cl Ha.
  - exists a, cl. simpl. now rewrite app_nil_r.
  - destruct a as [|x a]; [congruence|].
    destruct (Hlen (x :: a) Ha) as [Hfst Hsnd].
    destruct (IH (fst (dwt_single w (x :: a)))
                 (cl ++ [snd (dwt_single w (x :: a))]))
      as (a' & cl' & E & Ha' & Hcl').
    { apply nonempty_length. rewrite Hfst.
      apply dwt_coeff_len_pos; [assumption|simpl; lia]. }
    exists a', cl'. split; [exact E|]. split.
    + rewrite Ha', Hfst. reflexivity.
    + rewrite Hcl', map_app, <- app_assoc. f_equal.
      cbn [map length app seq]. rewrite Hsnd, Hfst. f_equal.
      rewrite <- seq_shift, map_map. reflexivity.
Qed.

(** Property X3.
    The sizes of the bands of a decomposition: each transform takes [n]
    coefficients to [floor((n + dec_len - 1) / 2)], and the bands come
    back coarsest first. *)
Theorem wavedec_band_sizes :
  forall (w : Wavelet) (level : nat) (data : list float),
    wavelet_sized w ->
    1 <= length data ->
    exists coeffs,
      wavedec data w level = Ok coeffs
      /\ map (@length float) coeffs = band_sizes w level (length data).
Proof.
  intros w level data Hw Hdata. unfold wavedec.
  destruct (wavedec_loop_sizes w Hw level data [])
    as (a & cl & E & Ha & Hcl).
  { now apply nonempty_length. }
  rewrite E. cbn [Py.rbind fst snd]. eexists. split; [reflexivity|].
  rewrite map_rev, map_app, Hcl. cbn [map app].
  rewrite rev_app_distr. cbn [rev app]. unfold band_sizes.
  now rewrite Ha.
Qed.

End ExtractionMore.

Example reference_band_sizes_8000 :
  band_sizes Reference.db4_wavelet 4 8000 = [506; 506; 1006; 2005; 4003].
Proof. vm_compute. reflexivity. Qed.

(* ===================================================================== *)
(** ** More on the batch extraction *)
(* ===================================================================== *)

Section BatchMore.

Context {numerics : Numerics} {pywt : PyWavelets} {filesystem : FileSystem}.

Lemma error_lines_cons (data_path : string) (row : LabelRow)
    (rows : list LabelRow) :
  error_lines data_path (row :: rows)
  = error_lines data_path [row] ++ error_lines data_path rows.
Proof. unfold error_lines. simpl. now rewrite app_nil_r. Qed.

(** The store after one row, field by field. *)
Lemma process_row_store (data_path : string) (row : LabelRow)
    (s : BatchStore) :
  process_row data_path row s
  = (Ok tt,
     {| features_list := features_list s ++ map snd (outcomes data_path [row]);
        arrival_times :=
          arrival_times s
          ++ map (fun rf => arrival_time (fst rf)) (outcomes data_path [row]);
        file_names :=
          file_names s
          ++ map (fun rf => file (fst rf)) (outcomes data_path [row]);
        stdout := stdout s ++ error_lines data_path [row] |}).
Proof.
  destruct s as [fl ats fns out].
  unfold process_row, outcomes, error_lines, row_features, Py.try_except,
    Py.bind, Py.lift.
  cbn [flat_map].
  destruct (obspy_read (os_path_join data_path (file row))) as [st|e];
    cbn [Py.rbind].
  - destruct (stream_first st) as [tr|e]; cbn [Py.rbind].
    + destruct (extract_wavelet_features (tr_data tr) db4 4) as [f|e];
        simpl; now rewrite ?app_nil_r.
    + simpl. now rewrite ?app_nil_r.
  - simpl. now rewrite ?app_nil_r.
Qed.

Lemma process_rows_store (data_path : string) (arrivals_df : list LabelRow) :
  forall s,
    Py.for_each arrivals_df (process_row data_path) s
    = (Ok tt,
       {| features_list :=
            features_list s ++ map snd (outcomes data_path arrivals_df);
          arrival_times :=
            arrival_times s
            ++ map (fun rf => arrival_time (fst rf))
                   (outcomes data_path arrivals_df);
          file_names :=
            file_names s
            ++ map (fun rf => file (fst rf)) (outcomes data_path arrivals_df);
          stdout := stdout s ++ error_lines data_path arrivals_df |}).
Proof.
  induction arrivals_df as [|row rows IH]; intros s.
  - destruct s. simpl. now rewrite !app_nil_r.
  - cbn [Py.for_each]. unfold Py.bind at 1.
    rewrite process_row_store, IH. cbn [features_list arrival_times
      file_names stdout].
    rewrite (outcomes_cons data_path row rows),
      (error_lines_cons data_path row rows), !map_app, !app_assoc.
    reflexivity.
Qed.

Lemma outcomes_or_error (data_path : string) (arrivals_df : list LabelRow) :
  length (outcomes data_path arrivals_df)
  + length (error_lines data_path arrivals_df)
  = length arrivals_df.
Proof.
  induction arrivals_df as [|row rows IH]; [reflexivity|].
  rewrite (outcomes_cons data_path row rows),
    (error_lines_cons data_path row rows), !length_app.
  unfold outcomes at 1, error_lines at 1. cbn [flat_map].
  destruct (row_features data_path row); simpl in *; lia.
Qed.

Lemma process_seismic_files_accounts_for_rows_aux :
  wavelet_sized db4 ->
  forall (data_path : string) (arrivals_df : list LabelRow),
    fst (process_seismic_files data_path arrivals_df)
    = Ok (map snd (outcomes data_path arrivals_df),
          map (fun rf => arrival_time (fst rf))
              (outcomes data_path arrivals_df),
          map (fun rf => file (fst rf)) (outcomes data_path arrivals_df))
    /\ stdout (snd (process_seismic_files data_path arrivals_df))
       = "Extracting wavelet features..."
         :: error_lines data_path arrivals_df.
Proof.
  intros Hw data_path arrivals_df.
  split; [now apply process_seismic_files_run|].
  unfold process_seismic_files.
  unfold Py.bind at 1. cbn [print Py.modify].
  unfold Py.bind at 1. rewrite process_rows_store.
  unfold Py.bind, Py.get, Py.lift, Py.ret.
  cbn [features_list arrival_times file_names stdout empty_store app].
  rewrite (np_array_2d_uniform 60)
    by now apply outcomes_features_length.
  reflexivity.
Qed.

(** Property X4.
    Every row of the table is accounted for: it is either in the returned
    arrays or reported by one printed line, in table order after the
    heading, so that returned plus reported is the number of rows. *)
Theorem process_seismic_files_accounts_for_rows :
  wavelet_sized db4 ->
  forall (data_path : string) (arrivals_df : list LabelRow),
  exists X y files,
    fst (process_seismic_files data_path arrivals_df) = Ok (X, y, files)
    /\ stdout (snd (process_seismic_files data_path arrivals_df))
       = "Extracting wavelet features..."
         :: error_lines data_path arrivals_df
    /\ length files + length (error_lines data_path arrivals_df)
       = length arrivals_df.
Proof.
  intros Hw data_path arrivals_df.
  destruct (process_seismic_files_accounts_for_rows_aux Hw data_path
              arrivals_df) as [Hfst Hout].
  do 3 eexists. split; [exact Hfst|]. split; [exact Hout|].
  rewrite length_map. apply outcomes_or_error.
Qed.

(** Property X5.
    Processing a table in two parts and joining the results gives what
    processing the whole table gives: rows do not influence each other. *)
Theorem process_seismic_files_app :
  wavelet_sized db4 ->
  forall (data_path : string) (df1 df2 : list LabelRow),
  exists X1 y1 files1 X2 y2 files2,
    fst (process_seismic_files data_path df1) = Ok (X1, y1, files1)
    /\ fst (process_seismic_files data_path df2) = Ok (X2, y2, files2)
    /\ fst (process_seismic_files data_path (df1 ++ df2))
       = Ok (X1 ++ X2, y1 ++ y2, files1 ++ files2).
Proof.
  intros Hw data_path df1 df2. do 6 eexists.
  split; [now apply process_seismic_files_run|].
  split; [now apply process_seismic_files_run|].
  rewrite (process_seismic_files_run data_path (df1 ++ df2) Hw).
  now rewrite outcomes_app, !map_app.
Qed.

Lemma outcomes_all_processed (data_path : string)
    (arrivals_df : list LabelRow) :
  (forall row, In row arrivals_df -> processed data_path row = true) ->
  map fst (outcomes data_path arrivals_df) = arrivals_df
  /\ error_lines data_path arrivals_df = [].
Proof.
  intros Hall. split.
  - rewrite outcomes_rows. induction arrivals_df as [|row rows IH];
      [reflexivity|].
    cbn [filter]. rewrite (Hall row) by now left.
    f_equal. apply IH. intros r Hr. apply Hall. now right.
  - induction arrivals_df as [|row rows IH]; [reflexivity|].
    rewrite (error_lines_cons data_path row rows), IH
      by (intros r Hr; apply Hall; now right).
    unfold error_lines. cbn [flat_map].
    specialize (Hall row (or_introl eq_refl)). unfold processed in Hall.
    destruct (row_features data_path row); [reflexivity|discriminate].
Qed.

(** Property X6.
    When every file of the table can be read and its first trace has
    samples, nothing is skipped: the file names and the arrival times
    returned are the two columns of the table, and only the heading is
    printed. *)
Theorem process_seismic_files_nothing_skipped :
  wavelet_sized db4 ->
  forall (data_path : string) (arrivals_df : list LabelRow),
    (forall row, In row arrivals_df ->
       exists st tr,
         obspy_read (os_path_join data_path (file row)) = Ok st
         /\ stream_first st = Ok tr
         /\ 1 <= length (tr_data tr)) ->
    exists X,
      fst (process_seismic_files data_path arrivals_df)
      = Ok (X, map arrival_time arrivals_df, map file arrivals_df)
      /\ length X = length arrivals_df
      /\ stdout (snd (process_seismic_files data_path arrivals_df))
         = ["Extracting wavelet features..."].
Proof.
  intros Hw data_path arrivals_df Hread.
  assert (Hall : forall row, In row arrivals_df ->
                   processed data_path row = true).
  { intros row Hrow. destruct (Hread row Hrow) as (st & tr & E1 & E2 & Hn).
    unfold processed, row_features. rewrite E1. cbn [Py.rbind].
    rewrite E2. cbn [Py.rbind].
    destruct (extract_wavelet_features_length db4 4 (tr_data tr) Hw Hn)
      as (f & Ef & _).
    now rewrite Ef. }
  destruct (outcomes_all_processed data_path arrivals_df Hall) as [Hrows Herr].
  destruct (process_seismic_files_accounts_for_rows_aux Hw data_path
              arrivals_df) as [Hfst Hout].
  assert (Ha : map (fun rf => arrival_time (fst rf))
                   (outcomes data_path arrivals_df)
               = map arrival_time arrivals_df).
  { now rewrite <- (map_map fst arrival_time), Hrows. }
  assert (Hf : map (fun rf => file (fst rf)) (outcomes data_path arrivals_df)
               = map file arrivals_df).
  { now rewrite <- (map_map fst file), Hrows. }
  eexists. split; [|split].
  - rewrite Hfst, Ha, Hf. reflexivity.
  - rewrite length_map, <- (length_map fst), Hrows. reflexivity.
  - now rewrite Hout, Herr.
Qed.

Lemma process_file_store (arrival : string -> float) (data_path f : string)
    (s : BatchStore) :
  process_file data_path f s
  = (Ok tt,
     {| features_list :=
          features_list s
          ++ map snd (outcomes data_path (table_of arrival [f]));
        arrival_times := arrival_times s;
        file_names :=
          file_names s
          ++ map (fun rf => file (fst rf))
                 (outcomes data_path (table_of arrival [f]));
        stdout := stdout s ++ error_lines data_path (table_of arrival [f]) |}).
Proof.
  destruct s as [fl ats fns out].
  unfold process_file, outcomes, error_lines, row_features, Py.try_except,
    Py.bind, Py.lift.
  cbn [table_of map flat_map file].
  destruct (obspy_read (os_path_join data_path f)) as [st|e];
    cbn [Py.rbind].
  - destruct (stream_first st) as [tr|e]; cbn [Py.rbind].
    + destruct (extract_wavelet_features (tr_data tr) db4 4) as [g|e];
        simpl; now rewrite ?app_nil_r.
    + simpl. now rewrite ?app_nil_r.
  - simpl. now rewrite ?app_nil_r.
Qed.

Lemma process_files_store (arrival : string -> float) (data_path : string)
    (files : list string) :
  forall s,
    Py.for_each files (process_file data_path) s
    = (Ok tt,
       {| features_list :=
            features_list s
            ++ map snd (outcomes data_path (table_of arrival files));
          arrival_times := arrival_times s;
          file_names :=
            file_names s
            ++ map (fun rf => file (fst rf))
                   (outcomes data_path (table_of arrival files));
          stdout :=
            stdout s ++ error_lines data_path (table_of arrival files) |}).
Proof.
  induction files as [|f files IH]; intros s.
  - destruct s. simpl. now rewrite !app_nil_r.
  - cbn [Py.for_each]. unfold Py.bind at 1.
    rewrite (process_file_store arrival), IH.
    cbn [features_list arrival_times file_names stdout].
    change (table_of arrival (f :: files))
      with (table_of arrival [f] ++ table_of arrival files).
    rewrite outcomes_app, !map_app, !app_assoc.
    unfold error_lines at 3. rewrite flat_map_app. fold (error_lines data_path).
    rewrite !app_assoc. reflexivity.
Qed.

(** Property X7.
    The extraction without arrival times does to the [.mseed] files of a
    directory what the batch does to a table that lists them: the same
    feature array, the same file names and the same printed lines,
    whatever arrival times the table gives.  A directory that cannot be
    listed aborts it before anything is printed. *)
Theorem process_seismic_files_no_times_as_table :
  wavelet_sized db4 ->
  forall data_path : string,
    (forall files arrival,
       os_listdir data_path = Ok files ->
       exists X y names,
         fst (process_seismic_files data_path
                (table_of arrival
                   (filter (fun f => endswith f ".mseed") files)))
         = Ok (X, y, names)
         /\ fst (process_seismic_files_no_times data_path) = Ok (X, names)
         /\ stdout (snd (process_seismic_files_no_times data_path))
            = stdout (snd (process_seismic_files data_path
                             (table_of arrival
                                (filter (fun f => endswith f ".mseed")
                                        files)))))
    /\ (forall e,
          os_listdir data_path = Raise e ->
          process_seismic_files_no_times data_path = (Raise e, empty_store)).
Proof.
  intros Hw data_path. split.
  - intros files arrival Hdir.
    set (rows := table_of arrival
                   (filter (fun f => endswith f ".mseed") files)).
    destruct (process_seismic_files_accounts_for_rows_aux Hw data_path rows)
      as [Hfst Hout].
    assert (Hrun :
      process_seismic_files_no_times data_path
      = (Ok (map snd (outcomes data_path rows),
             map (fun rf => file (fst rf)) (outcomes data_path rows)),
         {| features_list := map snd (outcomes data_path rows);
            arrival_times := [];
            file_names :=
              map (fun rf => file (fst rf)) (outcomes data_path rows);
            stdout := "Extracting wavelet features..."
                      :: error_lines data_path rows |})).
    { unfold process_seismic_files_no_times.
      unfold Py.bind at 1. unfold Py.lift at 1. rewrite Hdir.
      unfold Py.bind at 1. cbn [print Py.modify].
      unfold Py.bind at 1. rewrite (process_files_store arrival).
      unfold Py.bind, Py.get, Py.lift, Py.ret.
      cbn [features_list arrival_times file_names stdout empty_store app].
      fold rows.
      rewrite (np_array_2d_uniform 60)
        by now apply outcomes_features_length.
      reflexivity. }
    do 3 eexists. split; [exact Hfst|].
    rewrite Hrun, Hout. split; reflexivity.
  - intros e Hdir. unfold process_seismic_files_no_times, Py.bind, Py.lift.
    now rewrite Hdir.
Qed.

End BatchMore.

(* ===================================================================== *)
(** ** More on the arrival-time matching *)
(* ===================================================================== *)

Section MatchingMore.

Import Matching.

Context {filesystem : FileSystem} {builtins : Builtins}.

Lemma mseed_numbers_raises (files : list string) (file : string) (e : exn) :
  In file files ->
  endswith file ".mseed" = true ->
  py_int (replace file ".mseed" "") = Raise e ->
  forall mseed_files, exists e', mseed_numbers files mseed_files = Raise e'.
Proof.
  induction files as [|f files IH]; intros Hin Hs Hi acc; [contradiction|].
  cbn [mseed_numbers]. destruct Hin as [->|Hin].
  - rewrite Hs, Hi. eexists. reflexivity.
  - destruct (endswith f ".mseed"); [|now apply IH].
    destruct (py_int (replace f ".mseed" "")) as [n|e0]; cbn [Py.rbind].
    + now apply IH.
    + eexists. reflexivity.
Qed.

(** Property X8.
    One file of the directory that ends in [.mseed] and whose name is not
    a number aborts the whole step: [int] raises outside any [try], no row
    is looked at, nothing is printed and no CSV file is written. *)
Theorem match_arrival_times_aborts_on_bad_file_name :
  forall (directory_path output_path : string) (df : list PickRow)
         (files : list string) (file : string) (e : exn),
    os_listdir directory_path = Ok files ->
    In file files ->
    endswith file ".mseed" = true ->
    py_int (replace file ".mseed" "") = Raise e ->
    exists e',
      match_arrival_times directory_path df output_path
      = (Raise e', empty_store).
Proof.
  intros directory_path output_path df files file e Hdir Hin Hs Hi.
  destruct (mseed_numbers_raises files file e Hin Hs Hi []) as (e' & E).
  exists e'. rewrite match_arrival_times_matched, Hdir, E. reflexivity.
Qed.

Lemma mseed_numbers_complete (files : list string) (z : Z) :
  forall mseed_files numbers,
    mseed_numbers files mseed_files = Ok numbers ->
    In z mseed_files
    \/ (exists file,
          In file files
          /\ endswith file ".mseed" = true
          /\ py_int (replace file ".mseed" "") = Ok z) ->
    In z numbers.
Proof.
  induction files as [|f files IH]; intros acc numbers E H.
  - simpl in E. injection E as <-.
    destruct H as [H|(file & [] & _)]. exact H.
  - cbn [mseed_numbers] in E.
    destruct (endswith f ".mseed") eqn:Hs.
    + destruct (py_int (replace f ".mseed" "")) as [n|e] eqn:Hi;
        cbn [Py.rbind] in E; [|discriminate E].
      apply (IH _ _ E). destruct H as [H|(file & [->|Hin] & Hs' & Hi')].
      * left. apply in_or_app. now left.
      * left. apply in_or_app. right. left. congruence.
      * right. exists file. auto.
    + apply (IH _ _ E). destruct H as [H|(file & [->|Hin] & Hs' & Hi')].
      * now left.
      * congruence.
      * right. exists file. auto.
Qed.

Lemma has_waveform_isin (directory_path : string) (files : list string)
    (numbers : list Z) (row : PickRow) :
  os_listdir directory_path = Ok files ->
  mseed_numbers files [] = Ok numbers ->
  has_waveform directory_path row ->
  isin numbers row = true.
Proof.
  intros Hdir Hnum (files' & file & Hdir' & Hin & Hs & Hi).
  rewrite Hdir in Hdir'. injection Hdir' as <-.
  unfold isin. apply existsb_exists. exists (archivo row).
  split; [|apply Z.eqb_refl].
  apply (mseed_numbers_complete files (archivo row) [] numbers Hnum).
  right. exists file. auto.
Qed.

(** The same for the step on integer rows. *)
Lemma matching_emits_readable_row (directory_path output_path : string)
    (df : list PickRow) (files : list string) (numbers : list Z)
    (row : PickRow) (st : Stream) (tr : Trace) :
  os_listdir directory_path = Ok files ->
  mseed_numbers files [] = Ok numbers ->
  In row df ->
  has_waveform directory_path row ->
  obspy_read (os_path_join directory_path
                (format_08d (archivo row) ++ ".mseed")%string) = Ok st ->
  stream_first st = Ok tr ->
  In ((format_08d (archivo row) ++ ".mseed")%string,
      (lec_p row - tr_starttime tr)%float)
     (picks directory_path (filter (isin numbers) df)).
Proof.
  intros Hdir Hnum Hrow Hwave Hread Hfirst.
  unfold picks. apply in_flat_map. exists row. split.
  - apply filter_In. split; [assumption|].
    now apply (has_waveform_isin directory_path files).
  - unfold pick. rewrite Hread. cbn [Py.rbind]. rewrite Hfirst. now left.
Qed.

Lemma match_error_lines_cons (directory_path : string) (row : PickRow)
    (rows : list PickRow) :
  match_error_lines directory_path (row :: rows)
  = match_error_lines directory_path [row]
    ++ match_error_lines directory_path rows.
Proof. unfold match_error_lines. simpl. now rewrite app_nil_r. Qed.

Lemma match_row_store (directory_path : string) (row : PickRow) (s : Store) :
  match_row directory_path row s
  = (Ok tt,
     {| arrival_times :=
          arrival_times s ++ map snd (pick directory_path row);
        filenames := filenames s ++ map fst (pick directory_path row);
        stdout := stdout s ++ match_error_lines directory_path [row];
        written := written s |}).
Proof.
  destruct s as [ats fns out wr].
  unfold match_row, pick, match_error_lines, Py.try_except, Py.bind, Py.lift.
  cbn [flat_map].
  destruct (obspy_read _) as [st|e]; cbn [Py.rbind].
  - destruct (stream_first st) as [tr|e]; simpl; now rewrite ?app_nil_r.
  - simpl. now rewrite ?app_nil_r.
Qed.

Lemma match_rows_store (directory_path : string) (rows : list PickRow) :
  forall s,
    Py.for_each rows (match_row directory_path) s
    = (Ok tt,
       {| arrival_times :=
            arrival_times s ++ map snd (picks directory_path rows);
          filenames := filenames s ++ map fst (picks directory_path rows);
          stdout := stdout s ++ match_error_lines directory_path rows;
          written := written s |}).
Proof.
  induction rows as [|row rows IH]; intros s.
  - destruct s. simpl. now rewrite !app_nil_r.
  - cbn [Py.for_each]. unfold Py.bind at 1.
    rewrite match_row_store, IH.
    cbn [arrival_times filenames stdout written].
    rewrite picks_cons, (match_error_lines_cons directory_path row rows),
      !map_app, !app_assoc.
    reflexivity.
Qed.

Lemma picks_or_error (directory_path : string) (rows : list PickRow) :
  length (picks directory_path rows)
  + length (match_error_lines directory_path rows)
  = length rows.
Proof.
  induction rows as [|row rows IH]; [reflexivity|].
  rewrite picks_cons, (match_error_lines_cons directory_path row rows),
    !length_app.
  assert (Hone : length (pick directory_path row)
                 + length (match_error_lines directory_path [row]) = 1).
  { unfold pick, match_error_lines. cbn [flat_map].
    destruct (obspy_read _) as [st|e]; cbn [Py.rbind];
      [destruct (stream_first st)|]; reflexivity. }
  cbn [length]. lia.
Qed.

Lemma emit_matched_store (directory_path output_path : string)
    (rows : list PickRow) :
  emit_matched directory_path output_path rows
  = (Ok (picks directory_path rows),
     {| arrival_times := map snd (picks directory_path rows);
        filenames := map fst (picks directory_path rows);
        stdout :=
          match_error_lines directory_path rows
          ++ [("Se guardaron "
               ++ NilZero.string_of_uint
                    (Nat.to_uint (length (picks directory_path rows)))
               ++ " coincidencias en " ++ output_path)%string];
        written := [(output_path, picks directory_path rows)] |}).
Proof.
  unfold emit_matched. unfold Py.bind at 1. rewrite match_rows_store.
  unfold Py.bind, Py.get, Py.lift, Py.ret, to_csv, print, Py.modify.
  cbn [arrival_times filenames stdout written empty_store app].
  rewrite data_frame_pairs. reflexivity.
Qed.

(** The whole run of the step on integer rows, once the directory has
    been listed. *)
Lemma match_arrival_times_store (directory_path output_path : string)
    (df : list PickRow) (files : list string) (numbers : list Z) :
  os_listdir directory_path = Ok files ->
  mseed_numbers files [] = Ok numbers ->
  match_arrival_times directory_path df output_path
  = emit_matched directory_path output_path (filter (isin numbers) df).
Proof.
  intros Hdir Hnum. now rewrite match_arrival_times_matched, Hdir, Hnum.
Qed.

End MatchingMore.

(* ===================================================================== *)
(** ** The matching on any catalogue *)
(* ===================================================================== *)

Section CatalogueMatchingProofs.

Import Matching.
Import Catalogue.

Context {filesystem : FileSystem} {builtins : Builtins} {output : Output}.

(** On integer rows the loop body is the one of [Matching]. *)
Lemma match_rows_int (directory_path : string) (rows : list PickRow) :
  forall s,
    Py.for_each rows (CatalogueMatching.match_row false directory_path) s
    = Py.for_each rows (Matching.match_row directory_path) s.
Proof.
  intros s. reflexivity.
Qed.

(** On float rows the first row ends the loop, before its file is
    read. *)
Lemma match_rows_float (directory_path : string) (rows : list PickRow)
    (s : Store) :
  rows <> [] ->
  Py.for_each rows (CatalogueMatching.match_row true directory_path) s
  = (Raise (ValueError "Unknown format code 'd' for object of type 'float'"),
     s).
Proof. destruct rows as [|row rows]; [congruence|reflexivity]. Qed.

(** The run on a catalogue whose loop goes through: the run of
    [Matching] when the CSV file can be written, and otherwise the
    exception of the write, after the loop and before the summary. *)
Lemma catalogue_match_arrival_times_run (upcast : bool)
    (directory_path output_path : string) (df : list PickRow)
    (files : list string) (numbers : list Z) :
  os_listdir directory_path = Ok files ->
  mseed_numbers files [] = Ok numbers ->
  upcast = false \/ filter (isin numbers) df = [] ->
  CatalogueMatching.match_arrival_times upcast directory_path df output_path
  = match csv_writable output_path with
    | Ok _ => Matching.match_arrival_times directory_path df output_path
    | Raise e =>
        (Raise e,
         {| arrival_times :=
              map snd (picks directory_path (filter (isin numbers) df));
            filenames :=
              map fst (picks directory_path (filter (isin numbers) df));
            stdout :=
              match_error_lines directory_path (filter (isin numbers) df);
            written := [] |})
    end.
Proof.
  intros Hdir Hnum Hloop.
  rewrite (match_arrival_times_store directory_path output_path df files
             numbers Hdir Hnum), emit_matched_store.
  unfold CatalogueMatching.match_arrival_times.
  unfold Py.bind at 1. unfold Py.lift at 1. rewrite Hdir.
  unfold Py.bind at 1. unfold Py.lift at 1. rewrite Hnum.
  unfold Py.bind at 1.
  assert (Hrows :
    Py.for_each (filter (isin numbers) df)
      (CatalogueMatching.match_row upcast directory_path) empty_store
    = Py.for_each (filter (isin numbers) df)
        (Matching.match_row directory_path) empty_store).
  { destruct Hloop as [->| ->]; [apply match_rows_int|reflexivity]. }
  rewrite Hrows, match_rows_store.
  unfold Py.bind at 1. unfold Py.get at 1.
  unfold Py.bind at 1. unfold Py.lift at 1.
  cbn [arrival_times filenames stdout written empty_store app].
  rewrite data_frame_pairs.
  unfold Py.bind at 1. unfold CatalogueMatching.to_csv.
  unfold Py.bind at 1. unfold Py.lift at 1.
  destruct (csv_writable output_path) as [[]|e]; reflexivity.
Qed.

(** Property X9.
    Completeness of the matching.  In a directory whose [.mseed] names
    are all numbers, on a catalogue whose rows arrive with integer file
    numbers and with an output path that can be written, a catalogue row
    that has a waveform file in the directory is emitted as soon as the
    file named after it can be read: with that name and with the label
    pick time minus window start. *)
Theorem matched_readable_row_is_emitted :
  forall (directory_path output_path : string) (df : list PickRow)
         (files : list string) (numbers : list Z) (row : PickRow)
         (st : Stream) (tr : Trace),
    os_listdir directory_path = Ok files ->
    mseed_numbers files [] = Ok numbers ->
    csv_writable output_path = Ok tt ->
    In row df ->
    has_waveform directory_path row ->
    obspy_read (os_path_join directory_path
                  (format_08d (archivo row) ++ ".mseed")%string) = Ok st ->
    stream_first st = Ok tr ->
    exists result_df,
      fst (CatalogueMatching.match_arrival_times false directory_path df
             output_path) = Ok result_df
      /\ In ((format_08d (archivo row) ++ ".mseed")%string,
             (lec_p row - tr_starttime tr)%float) result_df.
Proof.
  intros directory_path output_path df files numbers row st tr
    Hdir Hnum Hcsv Hrow Hwave Hread Hfirst.
  rewrite (catalogue_match_arrival_times_run false directory_path
             output_path df files numbers Hdir Hnum (or_introl eq_refl)).
  rewrite Hcsv.
  eexists. split;
    [now apply (match_arrival_times_run _ _ _ files numbers)|].
  now apply (matching_emits_readable_row directory_path output_path df files
               numbers row st tr).
Qed.

(** Property X10.
    What the step writes, once the directory has been listed and its
    [.mseed] names read as numbers.  If the rows arrive with float file
    numbers and one of them is matched, the format of the file name
    raises a [ValueError] before any file is read: nothing is printed and
    nothing is written.  Otherwise the loop goes through, printing one
    error line for each matched row it cannot read, and then: if the CSV
    file cannot be written the call raises that exception, no file is
    written and there is no summary line; if it can, exactly one CSV file
    is written, at the output path, its content is the table returned,
    the summary line gives the number of rows of the table, and every
    matched row is in the table or behind one of the error lines. *)
Theorem match_arrival_times_writes_what_it_returns :
  forall (upcast : bool) (directory_path output_path : string)
         (df : list PickRow) (files : list string) (numbers : list Z),
    os_listdir directory_path = Ok files ->
    mseed_numbers files [] = Ok numbers ->
    (upcast = true ->
     filter (isin numbers) df <> [] ->
     exists msg,
       CatalogueMatching.match_arrival_times upcast directory_path df
         output_path
       = (Raise (ValueError msg), empty_store))
    /\ (upcast = false \/ filter (isin numbers) df = [] ->
        forall e,
          csv_writable output_path = Raise e ->
          fst (CatalogueMatching.match_arrival_times upcast directory_path
                 df output_path) = Raise e
          /\ written (snd (CatalogueMatching.match_arrival_times upcast
                             directory_path df output_path)) = []
          /\ stdout (snd (CatalogueMatching.match_arrival_times upcast
                            directory_path df output_path))
             = match_error_lines directory_path (filter (isin numbers) df))
    /\ (upcast = false \/ filter (isin numbers) df = [] ->
        csv_writable output_path = Ok tt ->
        exists result_df,
          fst (CatalogueMatching.match_arrival_times upcast directory_path
                 df output_path) = Ok result_df
          /\ written (snd (CatalogueMatching.match_arrival_times upcast
                             directory_path df output_path))
             = [(output_path, result_df)]
          /\ stdout (snd (CatalogueMatching.match_arrival_times upcast
                            directory_path df output_path))
             = match_error_lines directory_path (filter (isin numbers) df)
               ++ [("Se guardaron "
                    ++ NilZero.string_of_uint
                         (Nat.to_uint (length result_df))
                    ++ " coincidencias en " ++ output_path)%string]
          /\ length result_df
             + length (match_error_lines directory_path
                         (filter (isin numbers) df))
             = length (filter (isin numbers) df)).
Proof.
  intros upcast directory_path output_path df files numbers Hdir Hnum.
  split; [|split].
  - intros -> Hrows. eexists.
    unfold CatalogueMatching.match_arrival_times.
    unfold Py.bind at 1. unfold Py.lift at 1. rewrite Hdir.
    unfold Py.bind at 1. unfold Py.lift at 1. rewrite Hnum.
    unfold Py.bind at 1.
    rewrite (match_rows_float directory_path _ empty_store Hrows).
    reflexivity.
  - intros Hloop e Hcsv.
    rewrite (catalogue_match_arrival_times_run upcast directory_path
               output_path df files numbers Hdir Hnum Hloop), Hcsv.
    repeat split.
  - intros Hloop Hcsv.
    rewrite (catalogue_match_arrival_times_run upcast directory_path
               output_path df files numbers Hdir Hnum Hloop), Hcsv.
    exists (picks directory_path (filter (isin numbers) df)).
    rewrite (match_arrival_times_store directory_path output_path df files
               numbers Hdir Hnum), emit_matched_store.
    cbn [fst snd written stdout].
    repeat split. apply picks_or_error.
Qed.

End CatalogueMatchingProofs.

(* ===================================================================== *)
(** ** File names and file numbers *)
(* ===================================================================== *)

Lemma string_length_append (s t : string) :
  String.length (s ++ t) = String.length s + String.length t.
Proof. induction s as [|c s IH]; simpl; [reflexivity|now rewrite IH]. Qed.

Lemma substring_whole (t : string) : substring 0 (String.length t) t = t.
Proof. induction t as [|c t IH]; simpl; [reflexivity|now rewrite IH]. Qed.

Lemma substring_after (s t : string) :
  substring (String.length s) (String.length t) (s ++ t) = t.
Proof. induction s as [|c s IH]; simpl; [apply substring_whole|exact IH]. Qed.

Lemma endswith_append (s suffix : string) :
  endswith (s ++ suffix) suffix = true.
Proof.
  unfold endswith. rewrite string_length_append.
  replace (String.length s + String.length suffix - String.length suffix)
    with (String.length s) by lia.
  rewrite substring_after, String.eqb_refl, andb_true_r.
  apply Nat.leb_le. lia.
Qed.

(** The digits of a decimal number, with [k] zeros in front. *)
Lemma zeros_then_digits (k : nat) (d : Decimal.uint) :
  (string_of_list_ascii (repeat "0"%char k) ++ NilEmpty.string_of_uint d)%string
  = NilEmpty.string_of_uint (Nat.iter k Decimal.D0 d).
Proof. induction k as [|k IH]; simpl; [reflexivity|now rewrite IH]. Qed.

Lemma iter_D0_nonnil (k : nat) (d : Decimal.uint) :
  d <> Decimal.Nil -> Nat.iter k Decimal.D0 d <> Decimal.Nil.
Proof. intros Hd. destruct k; simpl; [exact Hd|discriminate]. Qed.

Lemma of_uint_iter_D0 (k : nat) (d : Decimal.uint) :
  Pos.of_uint (Nat.iter k Decimal.D0 d) = Pos.of_uint d.
Proof. induction k as [|k IH]; simpl; [reflexivity|exact IH]. Qed.

Lemma to_uint_nonnil (n : N) : N.to_uint n <> Decimal.Nil.
Proof.
  destruct n; simpl; [discriminate|apply Unsigned.to_uint_nonnil].
Qed.

Lemma nilzero_string_of_uint (d : Decimal.uint) :
  d <> Decimal.Nil -> NilZero.string_of_uint d = NilEmpty.string_of_uint d.
Proof. destruct d; [congruence|reflexivity..]. Qed.

Lemma int_of_digit_string (d : Decimal.uint) :
  d <> Decimal.Nil ->
  NilZero.int_of_string (NilEmpty.string_of_uint d) = Some (Decimal.Pos d)
  /\ NilZero.int_of_string (String "-" (NilEmpty.string_of_uint d))
     = Some (Decimal.Neg d).
Proof.
  intros Hd. destruct d; [congruence|..];
    (split; simpl; rewrite NilEmpty.usu; reflexivity).
Qed.

Lemma replace_digit_string (d : Decimal.uint) :
  replace (NilEmpty.string_of_uint d ++ ".mseed") ".mseed" ""
  = NilEmpty.string_of_uint d.
Proof.
  unfold replace. induction d; simpl; [reflexivity|now rewrite IHd..].
Qed.

(** The shape of a formatted file number. *)
Lemma format_08d_digits (z : Z) :
  exists d,
    d <> Decimal.Nil
    /\ Pos.of_uint d = Z.abs_N z
    /\ Matching.format_08d z
       = if (z <? 0)%Z then String "-" (NilEmpty.string_of_uint d)
         else NilEmpty.string_of_uint d.
Proof.
  unfold Matching.format_08d.
  set (digits := NilZero.string_of_uint (N.to_uint (Z.abs_N z))).
  set (sign := if (z <? 0)%Z then "-" else "").
  set (k := 8 - String.length sign - String.length digits).
  exists (Nat.iter k Decimal.D0 (N.to_uint (Z.abs_N z))).
  split; [apply iter_D0_nonnil, to_uint_nonnil|]. split.
  - rewrite of_uint_iter_D0. apply (DecimalN.Unsigned.of_to (Z.abs_N z)).
  - subst digits. rewrite nilzero_string_of_uint by apply to_uint_nonnil.
    rewrite zeros_then_digits. subst sign. destruct (z <? 0)%Z; reflexivity.
Qed.

Lemma int_decimal_format_08d (z : Z) :
  Reference.int_decimal
    (replace (Matching.format_08d z ++ ".mseed") ".mseed" "") = Ok z.
Proof.
  destruct (format_08d_digits z) as (d & Hd & Hval & ->).
  destruct (int_of_digit_string d Hd) as [Hpos Hneg].
  unfold Reference.int_decimal.
  destruct (z <? 0)%Z eqn:Hz.
  - change (replace (String "-" (NilEmpty.string_of_uint d) ++ ".mseed")
              ".mseed" "")
      with (String "-" (replace (NilEmpty.string_of_uint d ++ ".mseed")
                          ".mseed" "")).
    rewrite replace_digit_string, Hneg. f_equal.
    cbn [Z.of_int]. unfold Z.of_uint. rewrite Hval.
    apply Z.ltb_lt in Hz. rewrite N2Z.inj_abs_N. lia.
  - rewrite replace_digit_string, Hpos. f_equal.
    cbn [Z.of_int]. unfold Z.of_uint. rewrite Hval.
    apply Z.ltb_ge in Hz. rewrite N2Z.inj_abs_N. lia.
Qed.

Lemma listed_file_has_waveform (filesystem : FileSystem)
    (directory_path : string) (files : list string) (row : Matching.PickRow) :
  os_listdir directory_path = Ok files ->
  In (Matching.format_08d (Matching.archivo row) ++ ".mseed")%string files ->
  Matching.has_waveform (builtins := Reference.builtins) directory_path row.
Proof.
  intros Hdir Hin.
  exists files, (Matching.format_08d (Matching.archivo row) ++ ".mseed")%string.
  repeat split; try assumption.
  - apply endswith_append.
  - apply int_decimal_format_08d.
Qed.

(** Property X11.
    Reading back a file name written with [:08d]: the name ends in
    [.mseed], and the number [int] reads in it once the extension is
    removed is the number that was written.  So a catalogue row has a
    waveform file in every directory that lists the file named after
    it. *)
Theorem file_name_round_trip :
  forall z : Z,
    endswith (Matching.format_08d z ++ ".mseed") ".mseed" = true
    /\ Reference.int_decimal
         (replace (Matching.format_08d z ++ ".mseed") ".mseed" "") = Ok z
    /\ forall (filesystem : FileSystem) (directory_path : string)
              (files : list string) (row : Matching.PickRow),
         Matching.archivo row = z ->
         os_listdir directory_path = Ok files ->
         In (Matching.format_08d z ++ ".mseed")%string files ->
         Matching.has_waveform (builtins := Reference.builtins)
           directory_path row.
Proof.
  intros z.
  split; [apply endswith_append|]. split; [apply int_decimal_format_08d|].
  intros filesystem directory_path files row <- Hdir Hin.
  now apply (listed_file_has_waveform filesystem directory_path files).
Qed.

(* ===================================================================== *)
(** ** Arrival times without the directory listing *)
(* ===================================================================== *)

Section ArrivalTimesProofs.

Import Matching.

Context {filesystem : FileSystem}.

Lemma arrival_row_store (data_path : string) (row : PickRow)
    (s : ArrivalTimes.Store) :
  ArrivalTimes.arrival_row data_path row s
  = (Ok tt,
     {| ArrivalTimes.test_times_df :=
          ArrivalTimes.test_times_df s ++ pick data_path row;
        ArrivalTimes.stdout := ArrivalTimes.stdout s;
        ArrivalTimes.csv_written := ArrivalTimes.csv_written s;
        ArrivalTimes.npy_written := ArrivalTimes.npy_written s |}).
Proof.
  destruct s as [df out csv npy].
  unfold ArrivalTimes.arrival_row, pick, Py.try_except, Py.bind, Py.lift.
  destruct (obspy_read _) as [st|e]; cbn [Py.rbind].
  - destruct (stream_first st) as [tr|e]; simpl; now rewrite ?app_nil_r.
  - simpl. now rewrite ?app_nil_r.
Qed.

Lemma arrival_rows_store (data_path : string) (rows : list PickRow) :
  forall s,
    Py.for_each rows (ArrivalTimes.arrival_row data_path) s
    = (Ok tt,
       {| ArrivalTimes.test_times_df :=
            ArrivalTimes.test_times_df s ++ picks data_path rows;
          ArrivalTimes.stdout := ArrivalTimes.stdout s;
          ArrivalTimes.csv_written := ArrivalTimes.csv_written s;
          ArrivalTimes.npy_written := ArrivalTimes.npy_written s |}).
Proof.
  induction rows as [|row rows IH]; intros s.
  - destruct s. simpl. now rewrite app_nil_r.
  - cbn [Py.for_each]. unfold Py.bind at 1.
    rewrite arrival_row_store, IH.
    cbn [ArrivalTimes.test_times_df ArrivalTimes.stdout
         ArrivalTimes.csv_written ArrivalTimes.npy_written].
    rewrite picks_cons, app_assoc. reflexivity.
Qed.

Lemma process_arrival_times_run (features_path : string)
    (test_df : list PickRow) (data_path data_name : string) :
  ArrivalTimes.process_arrival_times features_path test_df data_path data_name
  = (Ok (picks data_path test_df),
     {| ArrivalTimes.test_times_df := picks data_path test_df;
        ArrivalTimes.stdout :=
          ["Procesando tiempos de llegada del conjunto de prueba...";
           ("Tiempos de llegada guardados en " ++ data_path ++ "/"
            ++ data_name ++ ".csv")%string;
           ("y " ++ features_path ++ "/test_arrival_times.npy")%string];
        ArrivalTimes.csv_written :=
          [(os_path_join features_path (data_name ++ ".csv")%string,
            picks data_path test_df)];
        ArrivalTimes.npy_written :=
          [(if endswith (os_path_join features_path data_name) ".npy"
            then os_path_join features_path data_name
            else (os_path_join features_path data_name ++ ".npy")%string,
            map snd (picks data_path test_df))] |}).
Proof.
  unfold ArrivalTimes.process_arrival_times.
  unfold Py.bind at 1. unfold ArrivalTimes.print at 1, Py.modify at 1.
  unfold Py.bind at 1. rewrite arrival_rows_store.
  reflexivity.
Qed.

Lemma picks_length (data_path : string) (rows : list PickRow) :
  length (picks data_path rows) <= length rows.
Proof.
  induction rows as [|row rows IH]; [reflexivity|].
  rewrite picks_cons, length_app. cbn [length].
  assert (length (pick data_path row) <= 1).
  { unfold pick. destruct (obspy_read _) as [st|e]; cbn [Py.rbind];
      [destruct (stream_first st)|]; simpl; lia. }
  lia.
Qed.

Lemma picks_filter_incl (directory_path : string) (keep : PickRow -> bool)
    (rows : list PickRow) :
  incl (picks directory_path (filter keep rows)) (picks directory_path rows).
Proof.
  intros entry. unfold picks. rewrite !in_flat_map.
  intros (row & Hrow & Hentry). exists row. split; [|exact Hentry].
  now apply filter_In in Hrow.
Qed.

Lemma picks_filter_all (directory_path : string) (keep : PickRow -> bool)
    (rows : list PickRow) :
  (forall row, In row rows -> pick directory_path row <> [] ->
               keep row = true) ->
  picks directory_path (filter keep rows) = picks directory_path rows.
Proof.
  induction rows as [|row rows IH]; intros Hkeep; [reflexivity|].
  cbn [filter]. destruct (keep row) eqn:Hk.
  - rewrite !(picks_cons directory_path row). f_equal.
    apply IH. intros r Hr. apply Hkeep. now right.
  - rewrite (picks_cons directory_path row rows).
    destruct (pick directory_path row) as [|entry entries] eqn:Hp.
    + apply IH. intros r Hr. apply Hkeep. now right.
    + assert (keep row = true); [|congruence].
      apply Hkeep; [now left|]. rewrite Hp. discriminate.
Qed.

(** Property X13.
    The two ways the notebook labels a directory, side by side.  Once
    the directory has been listed and its [.mseed] names read as numbers,
    every entry of the table [match_arrival_times] builds is an entry of
    the table [process_arrival_times] builds for the same directory and
    catalogue; and the two tables are the same when the listing shows
    every file that can be read. *)
Theorem match_arrival_times_within_process_arrival_times :
  forall (directory_path output_path features_path data_name : string)
         (df : list PickRow) (files : list string) (numbers : list Z),
    os_listdir directory_path = Ok files ->
    mseed_numbers (builtins := Reference.builtins) files [] = Ok numbers ->
    exists matched every,
      fst (match_arrival_times (builtins := Reference.builtins)
             directory_path df output_path) = Ok matched
      /\ fst (ArrivalTimes.process_arrival_times
                features_path df directory_path data_name) = Ok every
      /\ incl matched every
      /\ ((forall row,
              In row df -> pick directory_path row <> [] ->
              In (format_08d (archivo row) ++ ".mseed")%string files) ->
          matched = every).
Proof.
  intros directory_path output_path features_path data_name df files numbers
    Hdir Hnum.
  exists (picks directory_path (filter (isin numbers) df)),
         (picks directory_path df).
  split; [now apply (match_arrival_times_run (builtins := Reference.builtins)
                       _ _ _ files numbers)|].
  split; [now rewrite process_arrival_times_run|].
  split; [apply picks_filter_incl|].
  intros Hlisted. apply picks_filter_all. intros row Hrow Hread.
  apply (has_waveform_isin (builtins := Reference.builtins)
           directory_path files numbers row Hdir Hnum).
  apply (listed_file_has_waveform filesystem directory_path files row Hdir).
  now apply Hlisted.
Qed.

End ArrivalTimesProofs.

(* ===================================================================== *)
(** ** Arrival times on any catalogue *)
(* ===================================================================== *)

Section CatalogueArrivalTimesProofs.

Import Matching.
Import Catalogue.

Context {filesystem : FileSystem} {output : Output}.

Lemma arrival_rows_int (data_path : string) (rows : list PickRow) :
  forall s,
    Py.for_each rows (CatalogueArrivalTimes.arrival_row false data_path) s
    = Py.for_each rows (ArrivalTimes.arrival_row data_path) s.
Proof. intros s. reflexivity. Qed.

Lemma arrival_rows_float (data_path : string) (rows : list PickRow)
    (s : ArrivalTimes.Store) :
  rows <> [] ->
  Py.for_each rows (CatalogueArrivalTimes.arrival_row true data_path) s
  = (Raise (ValueError "Unknown format code 'd' for object of type 'float'"),
     s).
Proof. destruct rows as [|row rows]; [congruence|reflexivity]. Qed.

(** The run on a catalogue whose loop goes through. *)
Lemma catalogue_process_arrival_times_run (upcast : bool)
    (features_path data_path data_name : string) (test_df : list PickRow) :
  upcast = false \/ test_df = [] ->
  CatalogueArrivalTimes.process_arrival_times upcast features_path test_df
    data_path data_name
  = let csv := os_path_join features_path (data_name ++ ".csv")%string in
    let npy :=
      CatalogueArrivalTimes.npy_path (os_path_join features_path data_name) in
    let df := picks data_path test_df in
    let heading :=
      "Procesando tiempos de llegada del conjunto de prueba..." in
    match csv_writable csv with
    | Raise e =>
        (Raise e,
         {| ArrivalTimes.test_times_df := df;
            ArrivalTimes.stdout := [heading];
            ArrivalTimes.csv_written := [];
            ArrivalTimes.npy_written := [] |})
    | Ok _ =>
        match npy_writable npy with
        | Raise e =>
            (Raise e,
             {| ArrivalTimes.test_times_df := df;
                ArrivalTimes.stdout := [heading];
                ArrivalTimes.csv_written := [(csv, df)];
                ArrivalTimes.npy_written := [] |})
        | Ok _ =>
            (Ok df,
             {| ArrivalTimes.test_times_df := df;
                ArrivalTimes.stdout :=
                  [heading;
                   ("Tiempos de llegada guardados en " ++ data_path ++ "/"
                    ++ data_name ++ ".csv")%string;
                   ("y " ++ features_path
                    ++ "/test_arrival_times.npy")%string];
                ArrivalTimes.csv_written := [(csv, df)];
                ArrivalTimes.npy_written := [(npy, map snd df)] |})
        end
    end.
Proof.
  intros Hloop. unfold CatalogueArrivalTimes.process_arrival_times.
  unfold Py.bind at 1. unfold ArrivalTimes.print at 1, Py.modify at 1.
  unfold Py.bind at 1.
  match goal with
  | |- context [Py.for_each test_df ?body ?s] =>
      assert (Hrows : Py.for_each test_df body s
                      = Py.for_each test_df
                          (ArrivalTimes.arrival_row data_path) s)
        by (destruct Hloop as [->| ->];
            [apply arrival_rows_int|reflexivity]);
      rewrite Hrows
  end.
  rewrite arrival_rows_store.
  unfold Py.bind at 1. unfold Py.get at 1.
  cbn [ArrivalTimes.test_times_df ArrivalTimes.stdout
       ArrivalTimes.csv_written ArrivalTimes.npy_written
       ArrivalTimes.empty_store app].
  unfold Py.bind at 1. unfold CatalogueArrivalTimes.to_csv.
  unfold Py.bind at 1. unfold Py.lift at 1. cbn zeta.
  destruct (csv_writable _) as [[]|e]; [|reflexivity].
  unfold ArrivalTimes.to_csv, Py.modify at 1.
  unfold Py.bind at 1. unfold CatalogueArrivalTimes.np_save.
  unfold Py.bind at 1. unfold Py.lift at 1.
  destruct (npy_writable _) as [[]|e]; reflexivity.
Qed.

(** Property X12.
    No unreadable file makes the catalogue pass raise or print: a row
    whose file cannot be read is passed over without a word.  The pass
    raises in three places only, all outside the [try].  If the rows
    arrive with float file numbers, the format of the first file name
    raises a [ValueError] before any file is read and nothing is written.
    Otherwise the loop goes through and the table has, in catalogue
    order, one entry for each row whose file can be read, labelled pick
    time minus window start; then the CSV write or the [.npy] write may
    raise, and what was written before stays.  When both writes succeed
    the table is returned, the CSV file under [features_path] holds it
    and the [.npy] file its label column, and the two closing lines are
    printed, the first naming [data_path] and the second
    [test_arrival_times.npy], whatever [data_name] is. *)
Theorem process_arrival_times_saves_what_it_returns :
  forall (upcast : bool) (features_path data_path data_name : string)
         (test_df : list PickRow),
    (upcast = true ->
     test_df <> [] ->
     exists msg,
       CatalogueArrivalTimes.process_arrival_times upcast features_path
         test_df data_path data_name
       = (Raise (ValueError msg),
          {| ArrivalTimes.test_times_df := [];
             ArrivalTimes.stdout :=
               ["Procesando tiempos de llegada del conjunto de prueba..."];
             ArrivalTimes.csv_written := [];
             ArrivalTimes.npy_written := [] |}))
    /\ (upcast = false \/ test_df = [] ->
        ArrivalTimes.test_times_df
          (snd (CatalogueArrivalTimes.process_arrival_times upcast
                  features_path test_df data_path data_name))
        = picks data_path test_df
        /\ length (picks data_path test_df) <= length test_df
        /\ (forall e,
              csv_writable
                (os_path_join features_path (data_name ++ ".csv")%string)
              = Raise e ->
              CatalogueArrivalTimes.process_arrival_times upcast
                features_path test_df data_path data_name
              = (Raise e,
                 {| ArrivalTimes.test_times_df := picks data_path test_df;
                    ArrivalTimes.stdout :=
                      ["Procesando tiempos de llegada del conjunto de prueba..."];
                    ArrivalTimes.csv_written := [];
                    ArrivalTimes.npy_written := [] |}))
        /\ (forall e,
              csv_writable
                (os_path_join features_path (data_name ++ ".csv")%string)
              = Ok tt ->
              npy_writable
                (CatalogueArrivalTimes.npy_path
                   (os_path_join features_path data_name))
              = Raise e ->
              CatalogueArrivalTimes.process_arrival_times upcast
                features_path test_df data_path data_name
              = (Raise e,
                 {| ArrivalTimes.test_times_df := picks data_path test_df;
                    ArrivalTimes.stdout :=
                      ["Procesando tiempos de llegada del conjunto de prueba..."];
                    ArrivalTimes.csv_written :=
                      [(os_path_join features_path
                          (data_name ++ ".csv")%string,
                        picks data_path test_df)];
                    ArrivalTimes.npy_written := [] |}))
        /\ (csv_writable
              (os_path_join features_path (data_name ++ ".csv")%string)
            = Ok tt ->
            npy_writable
              (CatalogueArrivalTimes.npy_path
                 (os_path_join features_path data_name))
            = Ok tt ->
            CatalogueArrivalTimes.process_arrival_times upcast
              features_path test_df data_path data_name
            = (Ok (picks data_path test_df),
               {| ArrivalTimes.test_times_df := picks data_path test_df;
                  ArrivalTimes.stdout :=
                    ["Procesando tiempos de llegada del conjunto de prueba...";
                     ("Tiempos de llegada guardados en " ++ data_path
                      ++ "/" ++ data_name ++ ".csv")%string;
                     ("y " ++ features_path
                      ++ "/test_arrival_times.npy")%string];
                  ArrivalTimes.csv_written :=
                    [(os_path_join features_path
                        (data_name ++ ".csv")%string,
                      picks data_path test_df)];
                  ArrivalTimes.npy_written :=
                    [(CatalogueArrivalTimes.npy_path
                        (os_path_join features_path data_name),
                      map snd (picks data_path test_df))] |}))).
Proof.
  intros upcast features_path data_path data_name test_df. split.
  - intros -> Hrows. eexists.
    unfold CatalogueArrivalTimes.process_arrival_times.
    unfold Py.bind at 1. unfold ArrivalTimes.print at 1, Py.modify at 1.
    unfold Py.bind at 1.
    rewrite (arrival_rows_float data_path test_df _ Hrows). reflexivity.
  - intros Hloop.
    rewrite (catalogue_process_arrival_times_run upcast features_path
               data_path data_name test_df Hloop). cbn zeta.
    split; [|split; [apply picks_length|split; [|split]]].
    + destruct (csv_writable _) as [[]|e]; [|reflexivity].
      destruct (npy_writable _) as [[]|e]; reflexivity.
    + intros e ->. reflexivity.
    + intros e -> ->. reflexivity.
    + intros -> ->. reflexivity.
Qed.

End CatalogueArrivalTimesProofs.

(* ===================================================================== *)
(** ** More on the train/test split *)
(* ===================================================================== *)

Section SplitMore.

Import Split.

Context {rng : RandomState}.

(** Property X14.
    The sizes of the two parts, whatever the file names are: the test part
    has a fifth of the files, rounded up, and the training part has the
    rest, so the training part is never the smaller one and no file is
    lost. *)
Theorem split_dataset_sizes :
  shuffles ->
  forall files : list string,
    2 <= length files ->
    exists train test,
      split_dataset files = Ok (train, test)
      /\ length test = ceil_fraction 1 5 (length files)
      /\ length train + length test = length files
      /\ length files <= 5 * length test < length files + 5
      /\ length test <= length train.
Proof.
  intros Hperm files Hn. unfold split_dataset.
  assert (Hlen : length (source_identities files) = length files).
  { unfold source_identities. apply length_map. }
  destruct (train_test_split_fifth (source_identities files) 42 Hperm)
    as (train & test & E & Hall & Htest); [lia|].
  apply Permutation_length in Hall. rewrite length_app, Hlen in Hall.
  rewrite Hlen in Htest.
  exists train, test. split; [assumption|].
  assert (Hceil : length files <= 5 * ceil_fraction 1 5 (length files)
                  < length files + 5).
  { unfold ceil_fraction.
    pose proof (Nat.div_mod_eq (length files * 1 + 5 - 1) 5) as Hd.
    pose proof (Nat.mod_upper_bound (length files * 1 + 5 - 1) 5) as Hm.
    lia. }
  repeat split; try lia.
Qed.

(** Property X15.
    A corpus of fewer than two files is not split: the call raises, for
    the training part would be empty, and the generator is not asked for a
    permutation. *)
Theorem split_dataset_needs_two_files :
  forall files : list string,
    length files < 2 ->
    split_dataset files
    = Raise (ValueError "the resulting train set will be empty").
Proof.
  intros files Hn. unfold split_dataset, train_test_split, source_identities.
  rewrite length_map.
  destruct files as [|f [|g files]]; [reflexivity..|simpl in Hn; lia].
Qed.

End SplitMore.

(* ===================================================================== *)
(** ** Moving the files of a part *)
(* ===================================================================== *)

Section OrganizeProofs.

Import Organize.

Context {shutil : Shutil}.

Variables source_path dest_path : string.

(** One row: nothing happens to a missing file but a line of output; a
    file that is there is moved, and the line is printed if the move
    returns. *)
Lemma move_row_run (filename : string) (s : Store) :
  move_row source_path dest_path filename s
  = let src := source_file source_path filename in
    let dst := dest_file dest_path filename in
    if os_path_exists src (disk s) then
      match shutil_move src dst (disk s) with
      | (Ok _, d) =>
          (Ok tt,
           {| disk := d;
              stdout :=
                stdout s
                ++ [("Moved " ++ src ++ " to " ++ dst)%string] |})
      | (Raise e, d) => (Raise e, {| disk := d; stdout := stdout s |})
      end
    else
      (Ok tt,
       {| disk := disk s;
          stdout :=
            stdout s ++ [("File " ++ src ++ " does not exist")%string] |}).
Proof.
  unfold move_row, Py.bind, Py.get, on_disk, print, Py.modify. cbn zeta.
  destruct (os_path_exists _ (disk s)); [|reflexivity].
  destruct (shutil_move _ _ (disk s)) as [[[]|e] d]; reflexivity.
Qed.

Lemma move_files_cons (filename : string) (df : list string) (s : Store) :
  move_files (filename :: df) source_path dest_path s
  = match move_row source_path dest_path filename s with
    | (Ok _, s') => move_files df source_path dest_path s'
    | (Raise e, s') => (Raise e, s')
    end.
Proof. reflexivity. Qed.



(** When none of the files is at the source, nothing is moved. *)
Lemma move_files_missing (df : list string) :
  forall s,
    (forall filename,
        In filename df ->
        os_path_exists (source_file source_path filename) (disk s) = false) ->
    move_files df source_path dest_path s
    = (Ok tt,
       {| disk := disk s;
          stdout := stdout s ++ missing_lines df source_path |}).
Proof.
  unfold missing_lines.
  induction df as [|filename df IH]; intros s Hmissing.
  - destruct s. simpl. now rewrite app_nil_r.
  - rewrite move_files_cons, move_row_run. cbn zeta.
    rewrite Hmissing by now left.
    rewrite IH by (intros f Hf; apply Hmissing; now right).
    cbn [disk stdout map]. now rewrite <- app_assoc.
Qed.

Hypothesis Hmoves : moves_plain_files.

(** A path that is not there and is not a destination is still not there
    after the loop. *)
Lemma move_files_keeps_absent (p : string) (df : list string) :
  forall s s',
    move_files df source_path dest_path s = (Ok tt, s') ->
    (forall filename, In filename df -> p <> dest_file dest_path filename) ->
    os_path_exists p (disk s) = false ->
    os_path_exists p (disk s') = false.
Proof.
  induction df as [|filename df IH]; intros s s' Hrun Hdest Habsent.
  - injection Hrun as <-. exact Habsent.
  - rewrite move_files_cons, move_row_run in Hrun. cbn zeta in Hrun.
    assert (Hp : p <> dest_file dest_path filename) by (apply Hdest; now left).
    destruct (os_path_exists _ (disk s)) eqn:Hthere.
    + destruct (shutil_move _ _ _) as [[[]|e] d] eqn:Hmove;
        [|discriminate Hrun].
      destruct (Hmoves _ _ _ _ Hmove) as (_ & Hgone & Hframe).
      apply (IH _ _ Hrun); [intros f Hf; apply Hdest; now right|].
      cbn [disk].
      destruct (string_dec p (source_file source_path filename))
        as [->|Hne].
      * apply Hgone. exact Hp.
      * rewrite Hframe by assumption. exact Habsent.
    + apply (IH _ _ Hrun); [intros f Hf; apply Hdest; now right|].
      exact Habsent.
Qed.

(** A path that is there and is not a source is still there after the
    loop. *)
Lemma move_files_keeps_present (p : string) (df : list string) :
  forall s s',
    move_files df source_path dest_path s = (Ok tt, s') ->
    (forall filename,
        In filename df -> p <> source_file source_path filename) ->
    os_path_exists p (disk s) = true ->
    os_path_exists p (disk s') = true.
Proof.
  induction df as [|filename df IH]; intros s s' Hrun Hsrc Hpresent.
  - injection Hrun as <-. exact Hpresent.
  - rewrite move_files_cons, move_row_run in Hrun. cbn zeta in Hrun.
    assert (Hp : p <> source_file source_path filename)
      by (apply Hsrc; now left).
    destruct (os_path_exists _ (disk s)) eqn:Hthere.
    + destruct (shutil_move _ _ _) as [[[]|e] d] eqn:Hmove;
        [|discriminate Hrun].
      destruct (Hmoves _ _ _ _ Hmove) as (Harrived & _ & Hframe).
      apply (IH _ _ Hrun); [intros f Hf; apply Hsrc; now right|].
      cbn [disk].
      destruct (string_dec p (dest_file dest_path filename)) as [->|Hne].
      * exact Harrived.
      * rewrite Hframe by assumption. exact Hpresent.
    + apply (IH _ _ Hrun); [intros f Hf; apply Hsrc; now right|].
      exact Hpresent.
Qed.

Lemma paths_apart_tail (row : string) (df : list string) :
  paths_apart (row :: df) source_path dest_path ->
  paths_apart df source_path dest_path.
Proof. intros Hapart f g Hf Hg. apply Hapart; now right. Qed.

(** After the loop no row has a file at its source. *)
Lemma move_files_sources_gone (df : list string) :
  forall s s',
    paths_apart df source_path dest_path ->
    move_files df source_path dest_path s = (Ok tt, s') ->
    forall filename,
      In filename df ->
      os_path_exists (source_file source_path filename) (disk s') = false.
Proof.
  induction df as [|row df IH]; intros s s' Hapart Hrun filename Hin;
    [contradiction|].
  pose proof (paths_apart_tail row df Hapart) as Hrest.
  rewrite move_files_cons, move_row_run in Hrun. cbn zeta in Hrun.
  destruct Hin as [<-|Hin].
  - destruct (os_path_exists _ (disk s)) eqn:Hthere.
    + destruct (shutil_move _ _ _) as [[[]|e] d] eqn:Hmove;
        [|discriminate Hrun].
      destruct (Hmoves _ _ _ _ Hmove) as (_ & Hgone & _).
      apply (move_files_keeps_absent _ df _ _ Hrun).
      * intros g Hg. apply Hapart; [now left|now right].
      * cbn [disk]. apply Hgone. apply Hapart; now left.
    + apply (move_files_keeps_absent _ df _ _ Hrun).
      * intros g Hg. apply Hapart; [now left|now right].
      * exact Hthere.
  - destruct (os_path_exists _ (disk s)).
    + destruct (shutil_move _ _ _) as [[[]|e] d]; [|discriminate Hrun].
      now apply (IH _ _ Hrest Hrun).
    + now apply (IH _ _ Hrest Hrun).
Qed.

(** Property X17.
    What the loop does to the files, when every move returns and no
    source path is a destination path: each file of the table that was at
    its source when the loop began, listed once, is at its destination
    when it ends, and no row has a file left at its source. *)
Theorem move_files_moves_every_file :
  forall (df : list string) (s s' : Store),
    NoDup (map (source_file source_path) df) ->
    paths_apart df source_path dest_path ->
    move_files df source_path dest_path s = (Ok tt, s') ->
    forall filename,
      In filename df ->
      os_path_exists (source_file source_path filename) (disk s') = false
      /\ (os_path_exists (source_file source_path filename) (disk s) = true ->
          os_path_exists (dest_file dest_path filename) (disk s') = true).
Proof.
  intros df s s' Hnodup Hapart Hrun filename Hin.
  split; [now apply (move_files_sources_gone df s s')|].
  revert s Hnodup Hapart Hrun Hin.
  induction df as [|row df IH]; intros s Hnodup Hapart Hrun Hin Hthere;
    [contradiction|].
  pose proof (paths_apart_tail row df Hapart) as Hrest.
  inversion Hnodup as [|? ? Hfresh Hnodup']; subst.
  rewrite move_files_cons, move_row_run in Hrun. cbn zeta in Hrun.
  destruct Hin as [<-|Hin].
  - rewrite Hthere in Hrun.
    destruct (shutil_move _ _ _) as [[[]|e] d] eqn:Hmove;
      [|discriminate Hrun].
    destruct (Hmoves _ _ _ _ Hmove) as (Harrived & _ & _).
    apply (move_files_keeps_present _ df _ _ Hrun).
    + intros g Hg E. apply (Hapart g row); [now right|now left|now symmetry].
    + exact Harrived.
  - assert (Hne : source_file source_path filename
                  <> source_file source_path row).
    { intros E. apply Hfresh. rewrite <- E. now apply in_map. }
    destruct (os_path_exists _ (disk s)).
    + destruct (shutil_move _ _ _) as [[[]|e] d] eqn:Hmove;
        [|discriminate Hrun].
      destruct (Hmoves _ _ _ _ Hmove) as (_ & _ & Hframe).
      apply (IH _ Hnodup' Hrest Hrun Hin). cbn [disk].
      rewrite Hframe; [exact Hthere|exact Hne|].
      apply Hapart; [now right|now left].
    + now apply (IH _ Hnodup' Hrest Hrun Hin).
Qed.

(** Property X18.
    Running the cell a second time moves nothing, when [shutil.move]
    behaves as documented for plain files and no source path of the table
    is a destination path of it (the two directories differ): after a run
    in which every move returned, the same call leaves the disk as it is
    and reports every row as missing.  (With the same directory as source
    and destination every run moves every file onto itself again.) *)
Theorem move_files_second_run_moves_nothing :
  forall (df : list string) (s s' : Store),
    paths_apart df source_path dest_path ->
    move_files df source_path dest_path s = (Ok tt, s') ->
    move_files df source_path dest_path s'
    = (Ok tt,
       {| disk := disk s';
          stdout := stdout s' ++ missing_lines df source_path |}).
Proof.
  intros df s s' Hapart Hrun. apply move_files_missing.
  now apply (move_files_sources_gone df s s').
Qed.

End OrganizeProofs.

(* ===================================================================== *)
(** ** More on the fixed-length window *)
(* ===================================================================== *)

Lemma pad_or_trim_to_nth_error {A : Type} (zero : A) (L : nat)
    (signal : list A) (i : nat) :
  nth_error (pad_or_trim_to zero L signal) i
  = if i <? L then Some (nth i signal zero) else None.
Proof.
  destruct (i <? L) eqn:Hi;
    [apply Nat.ltb_lt in Hi|apply Nat.ltb_ge in Hi].
  - unfold pad_or_trim_to, np_pad_right.
    destruct (L <? length signal) eqn:Hlong;
      [apply Nat.ltb_lt in Hlong|apply Nat.ltb_ge in Hlong].
    + rewrite nth_error_firstn.
      assert (Hlt : (i <? L) = true) by now apply Nat.ltb_lt.
      rewrite Hlt. apply nth_error_nth'. lia.
    + destruct (length signal <? L) eqn:Hshort;
        [apply Nat.ltb_lt in Hshort|apply Nat.ltb_ge in Hshort].
      * rewrite (nth_error_nth' _ zero)
          by (rewrite length_app, repeat_length; lia).
        f_equal. destruct (Nat.lt_ge_cases i (length signal)) as [Hin|Hout].
        -- now apply app_nth1.
        -- rewrite app_nth2 by exact Hout.
           rewrite (nth_overflow signal) by exact Hout.
           apply nth_repeat.
      * apply nth_error_nth'. lia.
  - apply nth_error_None. rewrite pad_or_trim_to_length. exact Hi.
Qed.

(** Property X19.
    The window sample by sample, for any target length: position [i] of
    the window holds sample [i] of the signal where the signal has one and
    zero where it has none, and the window has no position from
    [target_length] on. *)
Theorem pad_or_trim_to_samples :
  forall (A : Type) (zero : A) (target_length : nat) (signal : list A)
         (i : nat),
    nth_error (pad_or_trim_to zero target_length signal) i
    = if i <? target_length then
        Some (if i <? length signal then nth i signal zero else zero)
      else None.
Proof.
  intros A zero L signal i. rewrite pad_or_trim_to_nth_error.
  destruct (i <? L); [|reflexivity].
  destruct (i <? length signal) eqn:Hi; [reflexivity|].
  apply Nat.ltb_ge in Hi. now rewrite nth_overflow.
Qed.

(** Property X20.
    Fixing the length twice, the second time to a shorter or equal
    target, is fixing it once to that target. *)
Theorem pad_or_trim_to_twice :
  forall (A : Type) (zero : A) (m n : nat) (signal : list A),
    m <= n ->
    pad_or_trim_to zero m (pad_or_trim_to zero n signal)
    = pad_or_trim_to zero m signal.
Proof.
  intros A zero m n signal Hmn. apply nth_error_ext. intros i.
  rewrite !pad_or_trim_to_nth_error.
  destruct (i <? m) eqn:Hi; [|reflexivity]. apply Nat.ltb_lt in Hi.
  f_equal.
  pose proof (pad_or_trim_to_nth_error zero n signal i) as Hn.
  assert (Hlt : (i <? n) = true) by (apply Nat.ltb_lt; lia).
  rewrite Hlt in Hn. now apply nth_error_nth.
Qed.

(** Property X21.
    Zeros at the end of a recording do not show in the window: a signal
    and the same signal followed by zeros are given the same window. *)
Theorem pad_or_trim_to_ignores_trailing_zeros :
  forall (A : Type) (zero : A) (target_length k : nat) (signal : list A),
    pad_or_trim_to zero target_length (signal ++ repeat zero k)
    = pad_or_trim_to zero target_length signal.
Proof.
  intros A zero L k signal. apply nth_error_ext. intros i.
  rewrite !pad_or_trim_to_nth_error.
  destruct (i <? L); [|reflexivity]. f_equal.
  destruct (Nat.lt_ge_cases i (length signal)) as [Hin|Hout].
  - now apply app_nth1.
  - rewrite app_nth2 by exact Hout.
    rewrite (nth_overflow signal) by exact Hout. apply nth_repeat.
Qed.

(* ===================================================================== *)
(** ** Loading the data for inference *)
(* ===================================================================== *)

Section InferenceProofs.

Import Inference.

Context {filesystem : FileSystem} {npy : NpyFiles}.

Lemma default_target_length_pos : default_target_length <> 0.
Proof. vm_compute. discriminate. Qed.

Lemma window_shape (tr : Trace) :
  length (window tr) = default_target_length
  /\ Forall (fun sample => length sample = 1) (window tr).
Proof.
  unfold window, pad_or_trim. split.
  - rewrite length_map. apply pad_or_trim_to_length.
  - apply Forall_forall. intros sample Hin.
    apply in_map_iff in Hin as (x & <- & _). reflexivity.
Qed.

Lemma load_signal_run (data_path file : string) (s : Store) :
  load_signal data_path file s
  = match first_trace data_path file with
    | Ok tr => (Ok tt, append_signal (pad_or_trim 0%float (tr_data tr)) s)
    | Raise e => (Raise e, s)
    end.
Proof.
  unfold load_signal, first_trace, Py.bind, Py.lift, Py.modify.
  destruct (obspy_read _) as [st|e]; cbn [Py.rbind]; [|reflexivity].
  destruct (stream_first st); reflexivity.
Qed.

Lemma load_signals_run (data_path : string) (files : list string) :
  forall s,
    Py.for_each files (load_signal data_path) s
    = (match snd (first_traces data_path files) with
       | None => Ok tt
       | Some e => Raise e
       end,
       {| raw_signals :=
            raw_signals s
            ++ map (fun tr => pad_or_trim 0%float (tr_data tr))
                   (fst (first_traces data_path files));
          stdout := stdout s |}).
Proof.
  induction files as [|file files IH]; intros s.
  - destruct s. simpl. now rewrite app_nil_r.
  - cbn [Py.for_each first_traces]. unfold Py.bind at 1.
    rewrite load_signal_run.
    destruct (first_trace data_path file) as [tr|e].
    + rewrite IH. destruct (first_traces data_path files) as [traces stop].
      cbn [fst snd map append_signal raw_signals stdout].
      now rewrite <- app_assoc.
    + destruct s. simpl. now rewrite app_nil_r.
Qed.

Lemma first_traces_all (data_path : string) (files : list string) :
  snd (first_traces data_path files) = None ->
  Forall2 (fun file tr => first_trace data_path file = Ok tr)
          files (fst (first_traces data_path files)).
Proof.
  induction files as [|file files IH]; intros Hnone; [constructor|].
  cbn [first_traces] in *.
  destruct (first_trace data_path file) as [tr|e] eqn:Hfile;
    [|discriminate Hnone].
  destruct (first_traces data_path files) as [traces stop].
  cbn [fst snd] in *. constructor; [exact Hfile|now apply IH].
Qed.

Lemma first_traces_readable (data_path : string) (files : list string)
    (traces : list Trace) :
  Forall2 (fun file tr => first_trace data_path file = Ok tr) files traces ->
  first_traces data_path files = (traces, None).
Proof.
  induction 1 as [|file tr files traces Hfile _ IH]; [reflexivity|].
  cbn [first_traces]. now rewrite Hfile, IH.
Qed.

Lemma first_traces_stop (data_path : string) (before after : list string)
    (file : string) (traces : list Trace) (e : exn) :
  Forall2 (fun file tr => first_trace data_path file = Ok tr) before traces ->
  first_trace data_path file = Raise e ->
  first_traces data_path (before ++ file :: after) = (traces, Some e).
Proof.
  intros Hbefore Hfile.
  induction Hbefore as [|f tr before traces Hf _ IH].
  - cbn [app first_traces]. now rewrite Hfile.
  - cbn [app first_traces]. now rewrite Hf, IH.
Qed.

Lemma windows_uniform (traces : list Trace) :
  Forall (fun signal => length signal = default_target_length)
         (map (fun tr => pad_or_trim 0%float (tr_data tr)) traces).
Proof.
  apply Forall_forall. intros signal Hin.
  apply in_map_iff in Hin as (tr & <- & _). apply pad_or_trim_to_length.
Qed.

Lemma np_reshape_channels_windows (traces : list Trace) :
  traces <> [] ->
  np_reshape_channels
    (map (fun tr => pad_or_trim 0%float (tr_data tr)) traces)
  = Ok (map window traces).
Proof.
  intros Hne. destruct traces as [|tr traces]; [congruence|].
  unfold np_reshape_channels.
  destruct (length (concat _) =? 0) eqn:Hz.
  - apply Nat.eqb_eq in Hz. cbn [map concat] in Hz.
    rewrite length_app in Hz.
    pose proof (pad_or_trim_to_length 0%float default_target_length
                  (tr_data tr)) as Hlen.
    pose proof default_target_length_pos. unfold pad_or_trim in Hz. lia.
  - now rewrite map_map.
Qed.

Lemma np_reshape_channels_ok (X : list (list float))
    (X' : list (list (list float))) :
  np_reshape_channels X = Ok X' -> X <> [].
Proof.
  unfold np_reshape_channels. intros H ->. discriminate H.
Qed.

(** The run of the loader in terms of the traces it reads. *)
Lemma load_inference_data_run (data_path : string) (files_df : list string) :
  load_inference_data data_path files_df
  = let traces := fst (first_traces data_path files_df) in
    let s := {| raw_signals :=
                  map (fun tr => pad_or_trim 0%float (tr_data tr)) traces;
                stdout := [("Cargando señales desde " ++ data_path
                            ++ "...")%string] |} in
    match snd (first_traces data_path files_df) with
    | Some e => (Raise e, s)
    | None =>
        match np_reshape_channels (raw_signals s) with
        | Raise e => (Raise e, s)
        | Ok X_raw =>
            match np_load (os_path_join data_path "wavelet_features.npy") with
            | Raise e => (Raise e, s)
            | Ok X_wavelets => (Ok (X_raw, X_wavelets, files_df), s)
            end
        end
    end.
Proof.
  unfold load_inference_data.
  unfold Py.bind at 1. unfold print at 1, Py.modify at 1.
  unfold Py.bind at 1. rewrite load_signals_run.
  cbn [raw_signals stdout empty_store app].
  destruct (snd (first_traces data_path files_df)); [reflexivity|].
  unfold Py.bind at 1. unfold Py.get at 1.
  unfold Py.bind at 1. unfold Py.lift at 1. cbn [raw_signals].
  rewrite (np_array_2d_uniform default_target_length)
    by apply windows_uniform.
  unfold Py.bind at 1. unfold Py.lift at 1.
  destruct (np_reshape_channels _); [|reflexivity].
  unfold Py.bind, Py.lift, Py.ret.
  destruct (np_load _); reflexivity.
Qed.

Lemma load_inference_data_readable (data_path : string)
    (files_df : list string) (traces : list Trace)
    (X_wavelets : list (list float)) :
  files_df <> [] ->
  Forall2 (fun file tr => first_trace data_path file = Ok tr)
          files_df traces ->
  np_load (os_path_join data_path "wavelet_features.npy") = Ok X_wavelets ->
  load_inference_data data_path files_df
  = (Ok (map window traces, X_wavelets, files_df),
     {| raw_signals :=
          map (fun tr => pad_or_trim 0%float (tr_data tr)) traces;
        stdout := [("Cargando señales desde " ++ data_path
                    ++ "...")%string] |}).
Proof.
  intros Hne Hall Hload.
  rewrite load_inference_data_run.
  rewrite (first_traces_readable data_path files_df traces Hall).
  cbn [fst snd raw_signals].
  assert (Htraces : traces <> []).
  { intros ->. inversion Hall. congruence. }
  now rewrite (np_reshape_channels_windows traces Htraces), Hload.
Qed.

(** Property X22.
    When the table has a row, every file of it has a first trace and the
    feature matrix can be loaded, the loader returns: one window per row
    of the table, in table order, each of 8000 samples with one channel
    per sample, beside the feature matrix as stored and the table
    itself; and it has printed its one line. *)
Theorem load_inference_data_loads :
  forall (data_path : string) (files_df : list string)
         (traces : list Trace) (X_wavelets : list (list float)),
    files_df <> [] ->
    Forall2 (fun file tr => first_trace data_path file = Ok tr)
            files_df traces ->
    np_load (os_path_join data_path "wavelet_features.npy") = Ok X_wavelets ->
    fst (load_inference_data data_path files_df)
    = Ok (map window traces, X_wavelets, files_df)
    /\ length (map window traces) = length files_df
    /\ Forall (fun w => length w = 8000
                        /\ Forall (fun sample => length sample = 1) w)
              (map window traces)
    /\ stdout (snd (load_inference_data data_path files_df))
       = [("Cargando señales desde " ++ data_path ++ "...")%string].
Proof.
  intros data_path files_df traces X_wavelets Hne Hall Hload.
  rewrite (load_inference_data_readable data_path files_df traces X_wavelets
             Hne Hall Hload).
  cbn [fst snd stdout]. split; [reflexivity|]. split; [|split].
  - rewrite length_map. symmetry. exact (Forall2_length Hall).
  - apply Forall_forall. intros w Hin.
    apply in_map_iff in Hin as (tr & <- & _). apply window_shape.
  - reflexivity.
Qed.

(** Property X23.
    The loader has no [try]: the first file of the table that cannot be
    read, or whose stream is empty, ends the call with that exception;
    the files after it are not read and the feature matrix is not
    loaded, whatever they hold. *)
Theorem load_inference_data_aborts_on_unreadable_file :
  forall (data_path : string) (before after : list string) (file : string)
         (traces : list Trace) (e : exn),
    Forall2 (fun file tr => first_trace data_path file = Ok tr)
            before traces ->
    first_trace data_path file = Raise e ->
    load_inference_data data_path (before ++ file :: after)
    = (Raise e,
       {| raw_signals :=
            map (fun tr => pad_or_trim 0%float (tr_data tr)) traces;
          stdout := [("Cargando señales desde " ++ data_path
                      ++ "...")%string] |}).
Proof.
  intros data_path before after file traces e Hbefore Hfile.
  rewrite load_inference_data_run.
  now rewrite (first_traces_stop data_path before after file traces e).
Qed.

(** Property X24.
    Conversely, whenever the loader returns, the table has a row, every
    file of it has a first trace, and the arrays returned are the windows
    of those traces and the stored feature matrix: an empty table makes
    [reshape] raise, and nothing is skipped. *)
Theorem load_inference_data_returns_only_whole_tables :
  forall (data_path : string) (files_df files : list string)
         (X_raw : list (list (list float))) (X_wavelets : list (list float)),
    fst (load_inference_data data_path files_df)
    = Ok (X_raw, X_wavelets, files) ->
    files = files_df
    /\ files_df <> []
    /\ np_load (os_path_join data_path "wavelet_features.npy") = Ok X_wavelets
    /\ exists traces,
         Forall2 (fun file tr => first_trace data_path file = Ok tr)
                 files_df traces
         /\ X_raw = map window traces.
Proof.
  intros data_path files_df files X_raw X_wavelets.
  rewrite load_inference_data_run. cbn zeta.
  destruct (snd (first_traces data_path files_df)) eqn:Hstop;
    [discriminate|].
  pose proof (first_traces_all data_path files_df Hstop) as Hall.
  cbn [raw_signals].
  destruct (np_reshape_channels _) as [X|e] eqn:Hreshape; [|discriminate].
  destruct (np_load _) as [W|e]; [|discriminate].
  cbn [fst]. intros H. injection H as <- <- <-.
  assert (Htraces : fst (first_traces data_path files_df) <> []).
  { intros E. rewrite E in Hreshape. discriminate Hreshape. }
  rewrite (np_reshape_channels_windows _ Htraces) in Hreshape.
  injection Hreshape as <-.
  split; [reflexivity|]. split; [|split; [reflexivity|]].
  - intros ->. apply Htraces. reflexivity.
  - eexists. split; [exact Hall|reflexivity].
Qed.

End InferenceProofs.

(* ===================================================================== *)
(** ** From the extraction to the inference loader *)
(* ===================================================================== *)

Section ExtractionToInference.

Import Inference.

Context {numerics : Numerics} {pywt : PyWavelets} {filesystem : FileSystem}
        {npy : NpyFiles}.

Lemma row_features_first_trace (data_path : string) (row : LabelRow)
    (f : list float) :
  row_features data_path row = Ok f ->
  exists tr,
    first_trace data_path (file row) = Ok tr
    /\ extract_wavelet_features (tr_data tr) db4 4 = Ok f.
Proof.
  unfold row_features, first_trace. intros H.
  destruct (obspy_read _) as [st|e]; cbn [Py.rbind] in H |- *;
    [|discriminate H].
  destruct (stream_first st) as [tr|e]; cbn [Py.rbind] in H;
    [|discriminate H].
  exists tr. split; [reflexivity|exact H].
Qed.

Lemma outcomes_traces (data_path : string)
    (o : list (LabelRow * list float)) :
  (forall rf, In rf o -> row_features data_path (fst rf) = Ok (snd rf)) ->
  exists traces,
    Forall2 (fun file tr => first_trace data_path file = Ok tr)
            (map (fun rf => file (fst rf)) o) traces
    /\ Forall2 (fun tr f => extract_wavelet_features (tr_data tr) db4 4 = Ok f)
               traces (map snd o).
Proof.
  induction o as [|rf o IH]; intros Hall.
  - exists []. split; constructor.
  - destruct IH as (traces & Hfiles & Hfeats);
      [intros p Hp; apply Hall; now right|].
    destruct (row_features_first_trace data_path (fst rf) (snd rf))
      as (tr & Htr & Hf); [apply Hall; now left|].
    exists (tr :: traces). split; constructor; assumption.
Qed.

(** Property X25.
    The file list the extraction saves can be given to the inference
    loader as it is.  Every file in it was read when its features were
    extracted, so the loader reads them all without aborting and holds
    one window for each feature vector, in the same order, cut from the
    trace the vector was computed from: window [k] and feature vector [k]
    are of the same recording.  What is left is the load of the stored
    feature matrix, outside any [try]: the loader returns the windows,
    the matrix and the list when the matrix can be loaded, and raises the
    exception of [np.load] when it cannot. *)
Theorem extracted_files_load_aligned :
  wavelet_sized db4 ->
  forall (data_path : string) (arrivals_df : list LabelRow)
         (X : list (list float)) (y : list float) (files : list string),
    fst (process_seismic_files data_path arrivals_df) = Ok (X, y, files) ->
    files <> [] ->
    exists traces,
      Forall2 (fun file tr => first_trace data_path file = Ok tr)
              files traces
      /\ Forall2 (fun tr f =>
                    extract_wavelet_features (tr_data tr) db4 4 = Ok f)
                 traces X
      /\ length (map window traces) = length X
      /\ raw_signals (snd (load_inference_data data_path files))
         = map (fun tr => pad_or_trim 0%float (tr_data tr)) traces
      /\ fst (load_inference_data data_path files)
         = match np_load (os_path_join data_path "wavelet_features.npy") with
           | Ok X_wavelets => Ok (map window traces, X_wavelets, files)
           | Raise e => Raise e
           end.
Proof.
  intros Hw data_path arrivals_df X y files Hrun Hne.
  rewrite (process_seismic_files_run data_path arrivals_df Hw) in Hrun.
  injection Hrun as <- <- <-.
  destruct (outcomes_traces data_path (outcomes data_path arrivals_df))
    as (traces & Hfiles & Hfeats).
  { intros [row f] Hin. now apply outcomes_In in Hin. }
  exists traces.
  split; [exact Hfiles|]. split; [exact Hfeats|].
  split; [rewrite length_map; exact (Forall2_length Hfeats)|].
  rewrite load_inference_data_run.
  rewrite (first_traces_readable data_path _ traces Hfiles).
  cbn [fst snd raw_signals].
  assert (Htraces : traces <> []).
  { intros ->. inversion Hfiles as [E|]. now rewrite <- E in Hne. }
  rewrite (np_reshape_channels_windows traces Htraces).
  destruct (np_load _); split; reflexivity.
Qed.

End ExtractionToInference.

(* ===================================================================== *)
(** ** More on the timestamp reconstruction *)
(* ===================================================================== *)

Section ReconstructionMore.

Import Reconstruction.

Context {builtins : Builtins} {locale : Locale}.

Lemma reconstruct_cons (row : Prediction) (rows : list Prediction) :
  reconstruct (row :: rows)
  = match lec_p row with
    | Ok t =>
        match reconstruct rows with
        | Ok rest => Ok ((replace (file row) ".mseed" "", t) :: rest)
        | Raise e => Raise e
        end
    | Raise e => Raise e
    end.
Proof.
  cbn [reconstruct]. destruct (lec_p row); cbn [Py.rbind]; [|reflexivity].
  destruct (reconstruct rows); reflexivity.
Qed.

Lemma reconstruct_raises (predictions_df : list Prediction)
    (row : Prediction) (e : exn) :
  In row predictions_df ->
  lec_p row = Raise e ->
  exists e', reconstruct predictions_df = Raise e'.
Proof.
  induction predictions_df as [|r rows IH]; intros Hin Hrow; [contradiction|].
  rewrite reconstruct_cons. destruct Hin as [->|Hin].
  - rewrite Hrow. eexists. reflexivity.
  - destruct (lec_p r); [|eexists; reflexivity].
    destruct (IH Hin Hrow) as (e' & ->). eexists. reflexivity.
Qed.

(** Property X26.
    The conversion is all or nothing.  It returns a table exactly when
    every row converts, and the table then has one entry per prediction,
    in the order of the predictions: the file name without its extension
    and the reconstructed timestamp.  One name that is not a date fails
    the whole conversion. *)
Theorem reconstruct_converts_every_row :
  forall (predictions_df : list Prediction),
    (forall table,
        reconstruct predictions_df = Ok table
        <-> Forall2 (fun row entry =>
                       fst entry = replace (file row) ".mseed" ""
                       /\ lec_p row = Ok (snd entry))
                    predictions_df table)
    /\ (forall row e,
          In row predictions_df ->
          lec_p row = Raise e ->
          exists e', reconstruct predictions_df = Raise e').
Proof.
  intros predictions_df. split; [|apply reconstruct_raises].
  induction predictions_df as [|row rows IH]; intros table.
  - cbn [reconstruct]. split.
    + intros H. injection H as <-. constructor.
    + intros H. inversion H. reflexivity.
  - rewrite reconstruct_cons. split.
    + intros H. destruct (lec_p row) as [t|e] eqn:Ht; [|discriminate H].
      destruct (reconstruct rows) as [rest|e] eqn:Hrest; [|discriminate H].
      injection H as <-. constructor; [split; [reflexivity|exact Ht]|].
      now apply IH.
    + intros H. inversion H as [|? [name t] ? rest [Hname Ht] Hrest]; subst.
      cbn [fst snd] in Hname, Ht. rewrite Ht.
      apply IH in Hrest. rewrite Hrest, Hname. reflexivity.
Qed.

End ReconstructionMore.

(** *** Decimal digits *)

Lemma of_uint_acc_value (d : Decimal.uint) :
  forall acc, Zpos (Pos.of_uint_acc d acc) = dec_value d (Zpos acc).
Proof.
  induction d; intros acc; cbn [Pos.of_uint_acc dec_value];
    [reflexivity|rewrite IHd; f_equal; lia..].
Qed.

Lemma of_uint_value (d : Decimal.uint) :
  Z.of_N (Pos.of_uint d) = dec_value d 0.
Proof.
  induction d; cbn [Pos.of_uint dec_value];
    [reflexivity|exact IHd|cbn [Z.of_N]; now rewrite of_uint_acc_value..].
Qed.

Lemma dec_value_digit (n : Z) (d : Decimal.uint) (acc : Z) :
  (0 <= n <= 9)%Z ->
  dec_value (digit n d) acc = dec_value d (10 * acc + n).
Proof.
  intros Hn. destruct n as [|p|p]; [cbn [digit dec_value]; f_equal; lia| |lia].
  repeat (destruct p as [p|p|]; try lia);
    cbn [digit dec_value]; f_equal; lia.
Qed.

Lemma dec_value_two_digits (a : Z) (d : Decimal.uint) (acc : Z) :
  (0 <= a < 100)%Z ->
  dec_value (two_digits a d) acc = dec_value d (100 * acc + a).
Proof.
  intros Ha. unfold two_digits.
  rewrite !dec_value_digit by (Z.div_mod_to_equations; lia).
  f_equal. Z.div_mod_to_equations. lia.
Qed.

Lemma string_of_digit (n : Z) (d : Decimal.uint) :
  NilEmpty.string_of_uint (digit n d)
  = (NilEmpty.string_of_uint (digit n Decimal.Nil)
     ++ NilEmpty.string_of_uint d)%string.
Proof.
  destruct n as [|p|p]; [reflexivity| |reflexivity].
  do 4 (destruct p as [p|p|]; try reflexivity).
Qed.

Lemma string_append_assoc (s t u : string) :
  ((s ++ t) ++ u = s ++ (t ++ u))%string.
Proof. induction s as [|c s IH]; simpl; [reflexivity|now rewrite IH]. Qed.

Lemma string_of_two_digits (a : Z) (d : Decimal.uint) :
  NilEmpty.string_of_uint (two_digits a d)
  = (NilEmpty.string_of_uint (two_digits a Decimal.Nil)
     ++ NilEmpty.string_of_uint d)%string.
Proof.
  unfold two_digits.
  rewrite (string_of_digit (a / 10)), (string_of_digit (a mod 10)).
  rewrite (string_of_digit (a / 10) (digit (a mod 10) Decimal.Nil)).
  now rewrite string_append_assoc.
Qed.

Lemma digit_cases (n : Z) :
  (0 <= n <= 9)%Z ->
  exists c : ascii,
    forall d,
      NilEmpty.string_of_uint (digit n d)
      = String c (NilEmpty.string_of_uint d)
      /\ Decimal.nb_digits (digit n d) = S (Decimal.nb_digits d)
      /\ digit n d <> Decimal.Nil.
Proof.
  intros Hn. destruct n as [|p|p]; [| |lia].
  - eexists. intros d. repeat split. discriminate.
  - repeat (destruct p as [p|p|]; try lia);
      eexists; intros d; (repeat split; discriminate).
Qed.

Lemma two_digits_cases (a : Z) :
  (0 <= a < 100)%Z ->
  (exists c1 c2 : ascii,
      NilEmpty.string_of_uint (two_digits a Decimal.Nil)
      = String c1 (String c2 ""))
  /\ (forall d,
         Decimal.nb_digits (two_digits a d) = S (S (Decimal.nb_digits d)))
  /\ (forall d, two_digits a d <> Decimal.Nil).
Proof.
  intros Ha. unfold two_digits.
  destruct (digit_cases (a / 10)) as (c1 & H1);
    [Z.div_mod_to_equations; lia|].
  destruct (digit_cases (a mod 10)) as (c2 & H2);
    [Z.div_mod_to_equations; lia|].
  split; [|split].
  - exists c1, c2.
    destruct (H1 (digit (a mod 10) Decimal.Nil)) as (-> & _).
    destruct (H2 Decimal.Nil) as (-> & _). reflexivity.
  - intros d. destruct (H1 (digit (a mod 10) d)) as (_ & -> & _).
    destruct (H2 d) as (_ & -> & _). reflexivity.
  - intros d. apply H1.
Qed.

Lemma string_of_uint_length (d : Decimal.uint) :
  String.length (NilEmpty.string_of_uint d) = Decimal.nb_digits d.
Proof. induction d; simpl; congruence. Qed.

Lemma int_decimal_digits (d : Decimal.uint) :
  d <> Decimal.Nil ->
  Reference.int_decimal (NilEmpty.string_of_uint d) = Ok (dec_value d 0).
Proof.
  intros Hd. unfold Reference.int_decimal.
  destruct (int_of_digit_string d Hd) as [-> _].
  cbn [Z.of_int]. unfold Z.of_uint. now rewrite of_uint_value.
Qed.

Lemma int_decimal_two_digits (a : Z) :
  (0 <= a < 100)%Z ->
  Reference.int_decimal (NilEmpty.string_of_uint (two_digits a Decimal.Nil))
  = Ok a.
Proof.
  intros Ha. rewrite int_decimal_digits by now apply two_digits_cases.
  rewrite dec_value_two_digits by exact Ha. cbn [dec_value]. f_equal; lia.
Qed.

Lemma digits_mmddhhmm_value (mo d h mi : Z) :
  (0 <= mo < 100)%Z -> (0 <= d < 100)%Z ->
  (0 <= h < 100)%Z -> (0 <= mi < 100)%Z ->
  dec_value (digits_mmddhhmm mo d h mi) 0 = mmddhhmm mo d h mi.
Proof.
  intros Hmo Hd Hh Hmi. unfold digits_mmddhhmm, mmddhhmm.
  rewrite !dec_value_two_digits by assumption. cbn [dec_value]. lia.
Qed.

(** The name written for the number [MMDDHHMM] is its eight digits. *)
Lemma format_08d_mmddhhmm (mo d h mi : Z) :
  (0 <= mo < 100)%Z -> (0 <= d < 100)%Z ->
  (0 <= h < 100)%Z -> (0 <= mi < 100)%Z ->
  Matching.format_08d (mmddhhmm mo d h mi)
  = NilEmpty.string_of_uint (digits_mmddhhmm mo d h mi).
Proof.
  intros Hmo Hd Hh Hmi.
  set (D := digits_mmddhhmm mo d h mi).
  assert (Hvalue : Z.of_N (Pos.of_uint D) = mmddhhmm mo d h mi).
  { rewrite of_uint_value. now apply digits_mmddhhmm_value. }
  assert (Hnn : D <> Decimal.Nil) by now apply two_digits_cases.
  assert (Hlen : Decimal.nb_digits D = 8).
  { unfold D, digits_mmddhhmm.
    rewrite (proj1 (proj2 (two_digits_cases mo Hmo))),
      (proj1 (proj2 (two_digits_cases d Hd))),
      (proj1 (proj2 (two_digits_cases h Hh))),
      (proj1 (proj2 (two_digits_cases mi Hmi))).
    reflexivity. }
  assert (Hpos : (0 <= mmddhhmm mo d h mi)%Z) by (unfold mmddhhmm; lia).
  unfold Matching.format_08d.
  replace (Z.abs_N (mmddhhmm mo d h mi)) with (Pos.of_uint D)
    by (apply N2Z.inj; rewrite Hvalue, N2Z.inj_abs_N; lia).
  change (N.to_uint (Pos.of_uint D)) with (N.to_uint (N.of_uint D)).
  rewrite (DecimalN.Unsigned.to_of D).
  rewrite nilzero_string_of_uint by apply unorm_nonnil.
  replace (mmddhhmm mo d h mi <? 0)%Z with false
    by (symmetry; apply Z.ltb_ge; exact Hpos).
  cbn [String.length String.append]. rewrite Nat.sub_0_r.
  rewrite zeros_then_digits, string_of_uint_length, <- Hlen.
  now rewrite (iter_D0_unorm D Hnn).
Qed.

Lemma py_datetime_valid (mo d h mi : Z) :
  (1 <= mo <= 12)%Z ->
  (1 <= d <= Reconstruction.days_in_month 2024 mo)%Z ->
  (0 <= h <= 23)%Z ->
  (0 <= mi <= 59)%Z ->
  Reconstruction.py_datetime 2024 mo d h mi
  = Ok {| Reconstruction.year := 2024;
          Reconstruction.month := mo;
          Reconstruction.day := d;
          Reconstruction.hour := h;
          Reconstruction.minute := mi |}.
Proof.
  intros Hmo Hd Hh Hmi. unfold Reconstruction.py_datetime.
  assert (Hle : forall a b : Z, (a <= b)%Z -> (a <=? b)%Z = true)
    by (intros a b; apply Z.leb_le).
  rewrite (Hle 1 2024)%Z, (Hle 2024 9999)%Z by lia.
  rewrite (Hle 1 mo)%Z, (Hle mo 12)%Z by lia.
  rewrite (Hle 1 d)%Z, (Hle d _)%Z by lia.
  rewrite (Hle 0 h)%Z, (Hle h 23)%Z by lia.
  rewrite (Hle 0 mi)%Z, (Hle mi 59)%Z by lia.
  reflexivity.
Qed.

Lemma days_in_month_below (y mo : Z) :
  (Reconstruction.days_in_month y mo <= 31)%Z.
Proof.
  unfold Reconstruction.days_in_month.
  destruct (mo =? 2)%Z; [destruct (Reconstruction.is_leap y); lia|].
  destruct ((mo =? 4) || (mo =? 6) || (mo =? 9) || (mo =? 11))%Z; lia.
Qed.

(** Property X27.
    The file names the matching step writes are read back by the
    reconstruction: the name of the file numbered [MMDDHHMM], for any day
    of the calendar of 2024 (the 29th of February is one) and any minute
    of it, is read as that minute of 2024. *)
Theorem extract_datetime_reads_window_start :
  forall mo d h mi : Z,
    (1 <= mo <= 12)%Z ->
    (1 <= d <= Reconstruction.days_in_month 2024 mo)%Z ->
    (0 <= h <= 23)%Z ->
    (0 <= mi <= 59)%Z ->
    Reconstruction.extract_datetime (builtins := Reference.builtins)
      (Matching.format_08d (mmddhhmm mo d h mi) ++ ".mseed")%string
    = Ok {| Reconstruction.year := 2024;
            Reconstruction.month := mo;
            Reconstruction.day := d;
            Reconstruction.hour := h;
            Reconstruction.minute := mi |}.
Proof.
  intros mo d h mi Hmo Hd Hh Hmi.
  pose proof (days_in_month_below 2024 mo) as Hdays.
  assert (Rmo : (0 <= mo < 100)%Z) by lia.
  assert (Rd : (0 <= d < 100)%Z) by lia.
  assert (Rh : (0 <= h < 100)%Z) by lia.
  assert (Rmi : (0 <= mi < 100)%Z) by lia.
  unfold Reconstruction.extract_datetime.
  rewrite format_08d_mmddhhmm by assumption.
  rewrite replace_digit_string. unfold digits_mmddhhmm.
  rewrite (string_of_two_digits mo), (string_of_two_digits d),
    (string_of_two_digits h).
  pose proof (int_decimal_two_digits mo Rmo) as Imo.
  pose proof (int_decimal_two_digits d Rd) as Id.
  pose proof (int_decimal_two_digits h Rh) as Ih.
  pose proof (int_decimal_two_digits mi Rmi) as Imi.
  destruct (proj1 (two_digits_cases mo Rmo)) as (a1 & a2 & Emo).
  destruct (proj1 (two_digits_cases d Rd)) as (b1 & b2 & Ed).
  destruct (proj1 (two_digits_cases h Rh)) as (c1 & c2 & Eh).
  destruct (proj1 (two_digits_cases mi Rmi)) as (e1 & e2 & Emi).
  rewrite Emo in *. rewrite Ed in *. rewrite Eh in *. rewrite Emi in *.
  cbn [String.append slice Nat.sub substring py_int Reference.builtins].
  rewrite Imo. cbn [Py.rbind]. rewrite Id. cbn [Py.rbind].
  rewrite Ih. cbn [Py.rbind]. rewrite Imi. cbn [Py.rbind].
  now apply py_datetime_valid.
Qed.

(* ===================================================================== *)
(** ** The further theorems at concrete inputs *)
(* ===================================================================== *)

Lemma extract_wavelet_features_layout_witness :
  exists coeffs features,
    wavedec [1; 2; 3]%float Reference.db4_wavelet 2 = Ok coeffs
    /\ extract_wavelet_features (numerics := Reference.numerics)
         [1; 2; 3]%float Reference.db4_wavelet 2 = Ok features
    /\ length coeffs = 2 + 1
    /\ length features = 12 * (2 + 1)
    /\ features
       = flat_map (band_stats (numerics := Reference.numerics)) coeffs
    /\ forall b coef j,
         nth_error coeffs b = Some coef -> j < 12 ->
         nth_error features (12 * b + j)
         = nth_error (band_stats (numerics := Reference.numerics) coef) j.
Proof.
  apply (extract_wavelet_features_layout (numerics := Reference.numerics)
           Reference.db4_wavelet 2 [1; 2; 3]%float reference_db4_sized).
  simpl. lia.
Defined.

Lemma wavedec_band_sizes_witness :
  exists coeffs,
    wavedec [1; 2; 3; 4; 5]%float Reference.db4_wavelet 3 = Ok coeffs
    /\ map (@length float) coeffs
       = band_sizes Reference.db4_wavelet 3 (length [1; 2; 3; 4; 5]%float).
Proof.
  apply (wavedec_band_sizes Reference.db4_wavelet 3 [1; 2; 3; 4; 5]%float
           reference_db4_sized).
  simpl. lia.
Defined.

Lemma process_seismic_files_accounts_for_rows_witness :
  exists X y files,
    fst demo_batch = Ok (X, y, files)
    /\ stdout (snd demo_batch)
       = "Extracting wavelet features..."
         :: error_lines (numerics := Reference.numerics)
              (pywt := Reference.pywt) (filesystem := demo_filesystem)
              "testing" demo_table
    /\ length files
       + length (error_lines (numerics := Reference.numerics)
                   (pywt := Reference.pywt) (filesystem := demo_filesystem)
                   "testing" demo_table)
       = length demo_table.
Proof.
  apply (process_seismic_files_accounts_for_rows
           (numerics := Reference.numerics) (pywt := Reference.pywt)
           (filesystem := demo_filesystem) reference_db4_sized
           "testing" demo_table).
Defined.

Lemma process_seismic_files_app_witness :
  exists X1 y1 files1 X2 y2 files2,
    fst (process_seismic_files (numerics := Reference.numerics)
           (pywt := Reference.pywt) (filesystem := demo_filesystem)
           "testing" (firstn 1 demo_table)) = Ok (X1, y1, files1)
    /\ fst (process_seismic_files (numerics := Reference.numerics)
              (pywt := Reference.pywt) (filesystem := demo_filesystem)
              "testing" (skipn 1 demo_table)) = Ok (X2, y2, files2)
    /\ fst (process_seismic_files (numerics := Reference.numerics)
              (pywt := Reference.pywt) (filesystem := demo_filesystem)
              "testing" (firstn 1 demo_table ++ skipn 1 demo_table))
       = Ok (X1 ++ X2, y1 ++ y2, files1 ++ files2).
Proof.
  apply (process_seismic_files_app
           (numerics := Reference.numerics) (pywt := Reference.pywt)
           (filesystem := demo_filesystem) reference_db4_sized
           "testing" (firstn 1 demo_table) (skipn 1 demo_table)).
Defined.

Lemma process_seismic_files_nothing_skipped_witness :
  exists X,
    fst (process_seismic_files (numerics := Reference.numerics)
           (pywt := Reference.pywt) (filesystem := demo_filesystem)
           "testing"
           [ {| file := "01010056.mseed"; arrival_time := 30.6%float |};
             {| file := "01020312.mseed"; arrival_time := 29.5%float |} ])
    = Ok (X, [30.6; 29.5]%float, ["01010056.mseed"; "01020312.mseed"])
    /\ length X = 2
    /\ stdout
         (snd (process_seismic_files (numerics := Reference.numerics)
                 (pywt := Reference.pywt) (filesystem := demo_filesystem)
                 "testing"
                 [ {| file := "01010056.mseed"; arrival_time := 30.6%float |};
                   {| file := "01020312.mseed";
                      arrival_time := 29.5%float |} ]))
       = ["Extracting wavelet features..."].
Proof.
  apply (process_seismic_files_nothing_skipped
           (numerics := Reference.numerics) (pywt := Reference.pywt)
           (filesystem := demo_filesystem) reference_db4_sized "testing"
           [ {| file := "01010056.mseed"; arrival_time := 30.6%float |};
             {| file := "01020312.mseed"; arrival_time := 29.5%float |} ]).
  intros row [<-|[<-|[]]]; eexists; eexists;
    (split; [reflexivity|split; [reflexivity|simpl; lia]]).
Defined.

Lemma process_seismic_files_no_times_as_table_witness :
  (forall files arrival,
      demo_listdir "testing" = Ok files ->
      exists X y names,
        fst (process_seismic_files (numerics := Reference.numerics)
               (pywt := Reference.pywt) (filesystem := demo_filesystem)
               "testing"
               (table_of arrival
                  (filter (fun f => endswith f ".mseed") files)))
        = Ok (X, y, names)
        /\ fst (process_seismic_files_no_times
                  (numerics := Reference.numerics) (pywt := Reference.pywt)
                  (filesystem := demo_filesystem) "testing")
           = Ok (X, names)
        /\ stdout (snd (process_seismic_files_no_times
                          (numerics := Reference.numerics)
                          (pywt := Reference.pywt)
                          (filesystem := demo_filesystem) "testing"))
           = stdout (snd (process_seismic_files
                            (numerics := Reference.numerics)
                            (pywt := Reference.pywt)
                            (filesystem := demo_filesystem) "testing"
                            (table_of arrival
                               (filter (fun f => endswith f ".mseed")
                                       files)))))
  /\ (forall e,
        demo_listdir "testing" = Raise e ->
        process_seismic_files_no_times (numerics := Reference.numerics)
          (pywt := Reference.pywt) (filesystem := demo_filesystem) "testing"
        = (Raise e, empty_store)).
Proof.
  apply (process_seismic_files_no_times_as_table
           (numerics := Reference.numerics) (pywt := Reference.pywt)
           (filesystem := demo_filesystem) reference_db4_sized "testing").
Defined.

Lemma match_arrival_times_aborts_on_bad_file_name_witness :
  exists e',
    Matching.match_arrival_times (filesystem := demo_untidy_filesystem)
      (builtins := Reference.builtins)
      "testing" demo_catalogue "features/test_arrival_times.csv"
    = (Raise e', Matching.empty_store).
Proof.
  apply (match_arrival_times_aborts_on_bad_file_name
           (filesystem := demo_untidy_filesystem)
           (builtins := Reference.builtins)
           "testing" "features/test_arrival_times.csv" demo_catalogue
           ["01010056.mseed"; "copy.mseed"; "01020312.mseed"] "copy.mseed"
           (ValueError "invalid literal for int() with base 10: 'copy'")).
  - reflexivity.
  - right. left. reflexivity.
  - reflexivity.
  - reflexivity.
Defined.

Lemma matched_readable_row_is_emitted_witness :
  exists result_df,
    fst (demo_catalogue_match false "features/test_arrival_times.csv")
    = Ok result_df
    /\ In ((Matching.format_08d (Matching.archivo demo_pick_before)
            ++ ".mseed")%string,
           (Matching.lec_p demo_pick_before - 1704183120)%float) result_df.
Proof.
  apply (matched_readable_row_is_emitted
           (filesystem := demo_filesystem) (builtins := Reference.builtins)
           (output := demo_output)
           "testing" "features/test_arrival_times.csv" demo_catalogue
           ["01010056.mseed"; "notes.txt"; "01020312.mseed"]
           [1010056; 1020312]%Z demo_pick_before
           [ {| tr_data := [0.5; -0.5; 0.25]%float;
                tr_starttime := 1704183120%float |} ]
           {| tr_data := [0.5; -0.5; 0.25]%float;
              tr_starttime := 1704183120%float |}).
  - reflexivity.
  - reflexivity.
  - reflexivity.
  - right. right. left. reflexivity.
  - apply (listed_file_has_waveform demo_filesystem "testing"
             ["01010056.mseed"; "notes.txt"; "01020312.mseed"]).
    + reflexivity.
    + right. right. left. reflexivity.
  - reflexivity.
  - reflexivity.
Defined.

Lemma match_arrival_times_writes_what_it_returns_witness :
  (false = true ->
   filter (Matching.isin [1010056; 1020312]%Z) demo_catalogue <> [] ->
   exists msg,
     demo_catalogue_match false "features/test_arrival_times.csv"
     = (Raise (ValueError msg), Matching.empty_store))
  /\ (false = false
      \/ filter (Matching.isin [1010056; 1020312]%Z) demo_catalogue = [] ->
      forall e,
        demo_writable "features/test_arrival_times.csv" = Raise e ->
        fst (demo_catalogue_match false "features/test_arrival_times.csv")
        = Raise e
        /\ Matching.written
             (snd (demo_catalogue_match false
                     "features/test_arrival_times.csv")) = []
        /\ Matching.stdout
             (snd (demo_catalogue_match false
                     "features/test_arrival_times.csv"))
           = match_error_lines (filesystem := demo_filesystem) "testing"
               (filter (Matching.isin [1010056; 1020312]%Z) demo_catalogue))
  /\ (false = false
      \/ filter (Matching.isin [1010056; 1020312]%Z) demo_catalogue = [] ->
      demo_writable "features/test_arrival_times.csv" = Ok tt ->
      exists result_df,
        fst (demo_catalogue_match false "features/test_arrival_times.csv")
        = Ok result_df
        /\ Matching.written
             (snd (demo_catalogue_match false
                     "features/test_arrival_times.csv"))
           = [("features/test_arrival_times.csv", result_df)]
        /\ Matching.stdout
             (snd (demo_catalogue_match false
                     "features/test_arrival_times.csv"))
           = match_error_lines (filesystem := demo_filesystem) "testing"
               (filter (Matching.isin [1010056; 1020312]%Z) demo_catalogue)
             ++ [("Se guardaron "
                  ++ NilZero.string_of_uint (Nat.to_uint (length result_df))
                  ++ " coincidencias en "
                  ++ "features/test_arrival_times.csv")%string]
        /\ length result_df
           + length (match_error_lines (filesystem := demo_filesystem)
                       "testing"
                       (filter (Matching.isin [1010056; 1020312]%Z)
                               demo_catalogue))
           = length (filter (Matching.isin [1010056; 1020312]%Z)
                            demo_catalogue)).
Proof.
  apply (match_arrival_times_writes_what_it_returns
           (filesystem := demo_filesystem) (builtins := Reference.builtins)
           (output := demo_output)
           false "testing" "features/test_arrival_times.csv" demo_catalogue
           ["01010056.mseed"; "notes.txt"; "01020312.mseed"]
           [1010056; 1020312]%Z).
  - reflexivity.
  - reflexivity.
Defined.

Lemma match_arrival_times_within_process_arrival_times_witness :
  exists matched every,
    fst (demo_match demo_catalogue) = Ok matched
    /\ fst (ArrivalTimes.process_arrival_times (filesystem := demo_filesystem)
              "features" demo_catalogue "testing" "test_arrival_times")
       = Ok every
    /\ incl matched every
    /\ ((forall row,
            In row demo_catalogue ->
            Matching.pick (filesystem := demo_filesystem) "testing" row
            <> [] ->
            In (Matching.format_08d (Matching.archivo row) ++ ".mseed")%string
               ["01010056.mseed"; "notes.txt"; "01020312.mseed"]) ->
        matched = every).
Proof.
  apply (match_arrival_times_within_process_arrival_times
           (filesystem := demo_filesystem)
           "testing" "features/test_arrival_times.csv" "features"
           "test_arrival_times" demo_catalogue
           ["01010056.mseed"; "notes.txt"; "01020312.mseed"]
           [1010056; 1020312]%Z).
  - reflexivity.
  - reflexivity.
Defined.

Lemma split_dataset_sizes_witness :
  exists train test,
    demo_split demo_files = Ok (train, test)
    /\ length test = Split.ceil_fraction 1 5 (length demo_files)
    /\ length train + length test = length demo_files
    /\ length demo_files <= 5 * length test < length demo_files + 5
    /\ length test <= length train.
Proof.
  apply (split_dataset_sizes (rng := demo_rng) demo_rng_shuffles demo_files).
  simpl. lia.
Defined.

Lemma split_dataset_needs_two_files_witness :
  Split.split_dataset (rng := demo_rng) []
  = Raise (ValueError "the resulting train set will be empty").
Proof.
  apply (split_dataset_needs_two_files (rng := demo_rng) []).
  simpl. lia.
Defined.

Lemma demo_shutil_moves :
  Organize.moves_plain_files (shutil := demo_shutil).
Proof.
  intros src dst d d'. cbn [Organize.shutil_move demo_shutil
                            Organize.os_path_exists].
  destruct (existsb (String.eqb src) d) eqn:Hsrc; [|discriminate].
  intros H. injection H as <-. split; [|split].
  - cbn [existsb]. now rewrite String.eqb_refl.
  - intros Hne. cbn [existsb].
    apply String.eqb_neq in Hne. rewrite Hne. cbn [orb].
    apply Bool.not_true_is_false. intros Hin.
    apply existsb_exists in Hin as (p & Hp & Heq).
    apply String.eqb_eq in Heq. subst p.
    apply filter_In in Hp as [_ Hp]. now rewrite String.eqb_refl in Hp.
  - intros p Hps Hpd. cbn [existsb].
    apply String.eqb_neq in Hpd. rewrite Hpd. cbn [orb].
    induction d as [|q d IH]; [reflexivity|].
    cbn [filter existsb]. destruct (String.eqb q src) eqn:Hq; cbn [negb].
    + apply String.eqb_eq in Hq. subst q.
      apply String.eqb_neq in Hps. rewrite Hps. cbn [orb].
      destruct (existsb (String.eqb src) d) eqn:Hd.
      * now apply IH.
      * clear IH Hsrc. induction d as [|r d IHd]; [reflexivity|].
        cbn [existsb] in Hd. apply Bool.orb_false_elim in Hd as [Hr Hd].
        cbn [filter]. rewrite String.eqb_sym, Hr. cbn [negb existsb].
        now rewrite (IHd Hd).
    + cbn [existsb]. destruct (String.eqb p q); [reflexivity|]. cbn [orb].
      destruct (existsb (String.eqb src) d) eqn:Hd.
      * now apply IH.
      * clear IH Hsrc. induction d as [|r d IHd]; [reflexivity|].
        cbn [existsb] in Hd. apply Bool.orb_false_elim in Hd as [Hr Hd].
        cbn [filter]. rewrite String.eqb_sym, Hr. cbn [negb existsb].
        now rewrite (IHd Hd).
Qed.

Lemma demo_paths_apart :
  Organize.paths_apart demo_train_set "filtered" "training".
Proof.
  intros f g Hf Hg.
  destruct Hf as [<-|[<-|[<-|[]]]]; destruct Hg as [<-|[<-|[<-|[]]]];
    vm_compute; discriminate.
Qed.

Lemma move_files_moves_every_file_witness :
  Organize.os_path_exists (Shutil := demo_shutil)
    (Organize.source_file "filtered" "04301304") demo_moved_disk = false
  /\ (Organize.os_path_exists (Shutil := demo_shutil)
        (Organize.source_file "filtered" "04301304") demo_disk = true ->
      Organize.os_path_exists (Shutil := demo_shutil)
        (Organize.dest_file "training" "04301304") demo_moved_disk = true).
Proof.
  apply (move_files_moves_every_file (shutil := demo_shutil)
           "filtered" "training" demo_shutil_moves demo_train_set
           (demo_store demo_disk [])
           (demo_store demo_moved_disk demo_moved_lines)).
  - vm_compute.
    repeat (constructor;
            [intros H; repeat (destruct H as [H|H]; [discriminate H|]);
             exact H|]).
    constructor.
  - exact demo_paths_apart.
  - reflexivity.
  - right. right. left. reflexivity.
Defined.

Lemma move_files_second_run_moves_nothing_witness :
  Organize.move_files (shutil := demo_shutil) demo_train_set
    "filtered" "training" (demo_store demo_moved_disk demo_moved_lines)
  = (Ok tt,
     demo_store demo_moved_disk
       (demo_moved_lines
        ++ Organize.missing_lines demo_train_set "filtered")).
Proof.
  apply (move_files_second_run_moves_nothing (shutil := demo_shutil)
           "filtered" "training" demo_shutil_moves demo_train_set
           (demo_store demo_disk [])
           (demo_store demo_moved_disk demo_moved_lines)).
  - exact demo_paths_apart.
  - reflexivity.
Defined.

Lemma pad_or_trim_to_twice_witness :
  pad_or_trim_to 0%float 2 (pad_or_trim_to 0%float 5 [1; 2; 3]%float)
  = pad_or_trim_to 0%float 2 [1; 2; 3]%float.
Proof.
  apply (pad_or_trim_to_twice float 0%float 2 5 [1; 2; 3]%float). lia.
Defined.

Lemma demo_traces_read :
  Forall2 (fun file tr =>
             Inference.first_trace (filesystem := demo_filesystem)
               "testing" file = Ok tr)
          demo_inference_files demo_traces.
Proof. repeat constructor. Qed.

Lemma load_inference_data_loads_witness :
  fst (Inference.load_inference_data (filesystem := demo_filesystem)
         (npy := demo_npy) "testing" demo_inference_files)
  = Ok (map Inference.window demo_traces, [[1; 2]; [3; 4]]%float,
        demo_inference_files)
  /\ length (map Inference.window demo_traces) = length demo_inference_files
  /\ Forall (fun w => length w = 8000
                      /\ Forall (fun sample => length sample = 1) w)
            (map Inference.window demo_traces)
  /\ Inference.stdout
       (snd (Inference.load_inference_data (filesystem := demo_filesystem)
               (npy := demo_npy) "testing" demo_inference_files))
     = [("Cargando señales desde " ++ "testing" ++ "...")%string].
Proof.
  apply (load_inference_data_loads (filesystem := demo_filesystem)
           (npy := demo_npy) "testing" demo_inference_files demo_traces
           [[1; 2]; [3; 4]]%float).
  - discriminate.
  - exact demo_traces_read.
  - reflexivity.
Defined.

Lemma load_inference_data_aborts_on_unreadable_file_witness :
  Inference.load_inference_data (filesystem := demo_filesystem)
    (npy := demo_npy) "testing"
    (["01010056.mseed"] ++ "01011111.mseed" :: ["01020312.mseed"])
  = (Raise (OSError "No such file or directory: testing/01011111.mseed"),
     {| Inference.raw_signals :=
          map (fun tr => pad_or_trim 0%float (tr_data tr))
              (firstn 1 demo_traces);
        Inference.stdout :=
          [("Cargando señales desde " ++ "testing" ++ "...")%string] |}).
Proof.
  apply (load_inference_data_aborts_on_unreadable_file
           (filesystem := demo_filesystem) (npy := demo_npy)
           "testing" ["01010056.mseed"] ["01020312.mseed"] "01011111.mseed"
           (firstn 1 demo_traces)
           (OSError "No such file or directory: testing/01011111.mseed")).
  - repeat constructor.
  - reflexivity.
Defined.

Lemma load_inference_data_returns_only_whole_tables_witness :
  demo_inference_files = demo_inference_files
  /\ demo_inference_files <> []
  /\ Inference.np_load (NpyFiles := demo_npy)
       (os_path_join "testing" "wavelet_features.npy")
     = Ok [[1; 2]; [3; 4]]%float
  /\ exists traces,
       Forall2 (fun file tr =>
                  Inference.first_trace (filesystem := demo_filesystem)
                    "testing" file = Ok tr)
               demo_inference_files traces
       /\ map Inference.window demo_traces = map Inference.window traces.
Proof.
  apply (load_inference_data_returns_only_whole_tables
           (filesystem := demo_filesystem) (npy := demo_npy)
           "testing" demo_inference_files demo_inference_files
           (map Inference.window demo_traces) [[1; 2]; [3; 4]]%float).
  rewrite (load_inference_data_readable (filesystem := demo_filesystem)
             (npy := demo_npy) "testing" demo_inference_files demo_traces
             [[1; 2]; [3; 4]]%float).
  - reflexivity.
  - discriminate.
  - exact demo_traces_read.
  - reflexivity.
Defined.

Lemma extracted_files_load_aligned_witness :
  exists traces,
    Forall2 (fun file tr =>
               Inference.first_trace (filesystem := demo_filesystem)
                 "testing" file = Ok tr)
            (map (fun rf => file (fst rf))
               (outcomes (numerics := Reference.numerics)
                  (pywt := Reference.pywt) (filesystem := demo_filesystem)
                  "testing" demo_table))
            traces
    /\ Forall2 (fun tr f =>
                  extract_wavelet_features (numerics := Reference.numerics)
                    (tr_data tr) (db4 (PyWavelets := Reference.pywt)) 4
                  = Ok f)
               traces
               (map snd
                  (outcomes (numerics := Reference.numerics)
                     (pywt := Reference.pywt) (filesystem := demo_filesystem)
                     "testing" demo_table))
    /\ length (map Inference.window traces)
       = length (map snd
                   (outcomes (numerics := Reference.numerics)
                      (pywt := Reference.pywt) (filesystem := demo_filesystem)
                      "testing" demo_table))
    /\ Inference.raw_signals
         (snd (Inference.load_inference_data (filesystem := demo_filesystem)
                 (npy := demo_npy) "testing"
                 (map (fun rf => file (fst rf))
                    (outcomes (numerics := Reference.numerics)
                       (pywt := Reference.pywt)
                       (filesystem := demo_filesystem)
                       "testing" demo_table))))
       = map (fun tr => pad_or_trim 0%float (tr_data tr)) traces
    /\ fst (Inference.load_inference_data (filesystem := demo_filesystem)
              (npy := demo_npy) "testing"
              (map (fun rf => file (fst rf))
                 (outcomes (numerics := Reference.numerics)
                    (pywt := Reference.pywt) (filesystem := demo_filesystem)
                    "testing" demo_table)))
       = match Inference.np_load (NpyFiles := demo_npy)
                 (os_path_join "testing" "wavelet_features.npy") with
         | Ok X_wavelets =>
             Ok (map Inference.window traces, X_wavelets,
                 map (fun rf => file (fst rf))
                   (outcomes (numerics := Reference.numerics)
                      (pywt := Reference.pywt)
                      (filesystem := demo_filesystem)
                      "testing" demo_table))
         | Raise e => Raise e
         end.
Proof.
  apply (extracted_files_load_aligned (numerics := Reference.numerics)
           (pywt := Reference.pywt) (filesystem := demo_filesystem)
           (npy := demo_npy) reference_db4_sized "testing" demo_table
           (map snd
              (outcomes (numerics := Reference.numerics)
                 (pywt := Reference.pywt) (filesystem := demo_filesystem)
                 "testing" demo_table))
           (map (fun rf => arrival_time (fst rf))
              (outcomes (numerics := Reference.numerics)
                 (pywt := Reference.pywt) (filesystem := demo_filesystem)
                 "testing" demo_table))
           (map (fun rf => file (fst rf))
              (outcomes (numerics := Reference.numerics)
                 (pywt := Reference.pywt) (filesystem := demo_filesystem)
                 "testing" demo_table))).
  - apply (process_seismic_files_run (numerics := Reference.numerics)
             (pywt := Reference.pywt) (filesystem := demo_filesystem)
             "testing" demo_table reference_db4_sized).
  - vm_compute. discriminate.
Defined.

Lemma extract_datetime_reads_window_start_witness :
  Reconstruction.extract_datetime (builtins := Reference.builtins)
    (Matching.format_08d (mmddhhmm 2 29 12 3) ++ ".mseed")%string
  = Ok {| Reconstruction.year := 2024;
          Reconstruction.month := 2;
          Reconstruction.day := 29;
          Reconstruction.hour := 12;
          Reconstruction.minute := 3 |}.
Proof.
  apply (extract_datetime_reads_window_start 2 29 12 3).
  - lia.
  - change (Reconstruction.days_in_month 2024 2) with 29%Z. lia.
  - lia.
  - lia.
Defined.

(* ===================================================================== *)
(** ** The edges of the further theorems, at concrete inputs *)
(* ===================================================================== *)

(** A catalogue whose rows arrive as floats: the first matched row ends
    the matching before anything is read, printed or written. *)
Example demo_float_rows_abort_matching :
  demo_catalogue_match true "features/test_arrival_times.csv"
  = (Raise (ValueError "Unknown format code 'd' for object of type 'float'"),
     Matching.empty_store).
Proof. reflexivity. Qed.

(** An output path outside [features]: the table is built, the write
    raises, there is no file and no summary line. *)
Example demo_unwritable_output :
  fst (demo_catalogue_match false "nowhere/test_arrival_times.csv")
  = Raise (OSError
      "Cannot save file into a non-existent directory: nowhere/test_arrival_times.csv")
  /\ Matching.written
       (snd (demo_catalogue_match false "nowhere/test_arrival_times.csv"))
     = []
  /\ Matching.stdout
       (snd (demo_catalogue_match false "nowhere/test_arrival_times.csv"))
     = [].
Proof. repeat split; vm_compute; reflexivity. Qed.

(** The same directory as source and as destination: every run moves the
    file onto itself and says so. *)
Example demo_same_directory_moves_again :
  Organize.move_files (shutil := demo_shutil) ["01062222"]
    "filtered" "filtered" (demo_store demo_disk [])
  = (Ok tt,
     demo_store demo_disk
       ["Moved filtered/01062222.mseed to filtered/01062222.mseed"])
  /\ Organize.move_files (shutil := demo_shutil) ["01062222"]
       "filtered" "filtered"
       (demo_store demo_disk
          ["Moved filtered/01062222.mseed to filtered/01062222.mseed"])
     = (Ok tt,
        demo_store demo_disk
          ["Moved filtered/01062222.mseed to filtered/01062222.mseed";
           "Moved filtered/01062222.mseed to filtered/01062222.mseed"]).
Proof. split; reflexivity. Qed.
